(** * OWASP mobile security checker scripts: a shallow embedding

    The four scanners under
    [flutter/skills/owasp-mobile-security-checker/scripts] are line-oriented
    pattern scanners written in Python.  This development embeds them as
    Rocq functions and states the properties of the scanning engine as
    theorems over that embedding.

    Conventions.
    - A Python [str] is a [string]; the text handled here is taken to be
      ASCII, so [str.lower], [str.strip] and the character classes of [re]
      are the ASCII restrictions of the Python ones.
    - A Python [dict] with string keys whose iteration order is irrelevant
      (a finding, the [by_severity] table) is a [gmap string _]; the
      dependency tables of a pubspec, whose iteration order is the order of
      the findings, are association lists in insertion order.
    - [re] is embedded as a backtracking matcher over a regular-expression
      syntax tree; every pattern of the source is given as its tree, with
      the source text of the pattern next to it. *)

From Stdlib Require Import Ascii String DecimalString DecimalNat DecimalFacts.
From stdpp Require Import gmap strings list fin_maps.

(* ===================================================================== *)
(** * Python strings *)
(* ===================================================================== *)

Module Py.

(** The double and single quote characters. *)
Definition dq_char : ascii := "034"%char.
Definition sq_char : ascii := "039"%char.
Definition nl_char : ascii := "010"%char.
Definition dq : string := String dq_char EmptyString.
Definition nl : string := String nl_char EmptyString.

Definition ord (c : ascii) : nat := nat_of_ascii c.

(** [str.isspace] on one ASCII character: TAB..CR, FS..US and SPACE. *)
Definition isspace (c : ascii) : bool :=
  let n := ord c in
  ((9 <=? n) && (n <=? 13)) || ((28 <=? n) && (n <=? 32)).

Definition isupper_char (c : ascii) : bool :=
  let n := ord c in (65 <=? n) && (n <=? 90).
Definition islower_char (c : ascii) : bool :=
  let n := ord c in (97 <=? n) && (n <=? 122).
Definition isdigit_char (c : ascii) : bool :=
  let n := ord c in (48 <=? n) && (n <=? 57).

Definition lower_char (c : ascii) : ascii :=
  if isupper_char c then ascii_of_nat (ord c + 32) else c.
Definition upper_char (c : ascii) : ascii :=
  if islower_char c then ascii_of_nat (ord c - 32) else c.

(** [s.lower()] *)
Fixpoint lower (s : string) : string :=
  match s with
  | EmptyString => EmptyString
  | String c s' => String (lower_char c) (lower s')
  end.

Fixpoint lstrip (s : string) : string :=
  match s with
  | EmptyString => EmptyString
  | String c s' => if isspace c then lstrip s' else s
  end.

Fixpoint rstrip (s : string) : string :=
  match s with
  | EmptyString => EmptyString
  | String c s' =>
      match rstrip s' with
      | EmptyString => if isspace c then EmptyString else String c EmptyString
      | r => String c r
      end
  end.

(** [s.strip()] *)
Definition strip (s : string) : string := rstrip (lstrip s).

(** [s.startswith(p)] *)
Fixpoint startswith (p s : string) : bool :=
  match p, s with
  | EmptyString, _ => true
  | String a p', String b s' => if Ascii.eqb a b then startswith p' s' else false
  | String _ _, EmptyString => false
  end.

(** [sub in s] *)
Fixpoint contains (sub s : string) : bool :=
  startswith sub s ||
  match s with
  | EmptyString => false
  | String _ s' => contains sub s'
  end.

(** [s.split(sep)] for a one-character separator; never the empty list. *)
Fixpoint split (sep : ascii) (s : string) : list string :=
  match s with
  | EmptyString => [EmptyString]
  | String c s' =>
      if Ascii.eqb c sep then EmptyString :: split sep s'
      else match split sep s' with
           | h :: t => String c h :: t
           | [] => [String c EmptyString]
           end
  end.

(** [sep.join(l)] *)
Fixpoint join (sep : string) (l : list string) : string :=
  match l with
  | [] => EmptyString
  | [x] => x
  | x :: l' => x +:+ sep +:+ join sep l'
  end.

(** [s[:n]] *)
Fixpoint take (n : nat) (s : string) : string :=
  match n, s with
  | S n', String c s' => String c (take n' s')
  | _, _ => EmptyString
  end.

(** [s[n:]] *)
Fixpoint drop (n : nat) (s : string) : string :=
  match n, s with
  | S n', String _ s' => drop n' s'
  | _, _ => s
  end.

(** [s.isdigit()]: non-empty and only digits. *)
Fixpoint all_digits (s : string) : bool :=
  match s with
  | EmptyString => true
  | String c s' => isdigit_char c && all_digits s'
  end.
Definition isdigit (s : string) : bool :=
  match s with EmptyString => false | _ => all_digits s end.

(** [int(s)] on a string of digits. *)
Fixpoint int_acc (acc : nat) (s : string) : nat :=
  match s with
  | EmptyString => acc
  | String c s' => int_acc (10 * acc + (ord c - 48)) s'
  end.
Definition int (s : string) : nat := int_acc 0 s.

(** [str(n)] for a non-negative integer. *)
Definition str_of_nat (n : nat) : string :=
  NilEmpty.string_of_uint (Nat.to_uint n).

(** [enumerate(l, start)] *)
Fixpoint enumerate {A} (start : nat) (l : list A) : list (nat * A) :=
  match l with
  | [] => []
  | x :: l' => (start, x) :: enumerate (S start) l'
  end.

(** [l[a:b]] for [0 <= a], [0 <= b]. *)
Definition slice {A} (a b : nat) (l : list A) : list A :=
  firstn (b - a) (skipn a l).

End Py.

(* ===================================================================== *)
(** * Regular expressions ([re]) *)
(* ===================================================================== *)

Module Re.

(** One item of a bracket expression. *)
Inductive citem : Type :=
| CChar (c : ascii)            (* a literal character *)
| CRange (lo hi : ascii)       (* lo-hi *)
| CSpace.                      (* \s *)

(** The fragment of the [re] syntax the scanners use.  There is at most
    one capturing group in any pattern, so the matcher tracks group 1
    only. *)
Inductive regex : Type :=
| RChar (c : ascii)                      (* a literal character *)
| RSet (neg : bool) (items : list citem) (* [...] and [^...] *)
| RDot                                   (* . *)
| REps                                   (* the empty pattern *)
| RSeq (r1 r2 : regex)                   (* r1 r2 *)
| RAlt (r1 r2 : regex)                   (* r1|r2 *)
| RStar (r : regex)                      (* r*, greedy *)
| RGroup (r : regex)                     (* (r), capturing *)
| RNotAhead (r : regex).                 (* (?!r) *)

Record flags : Type := { IGNORECASE : bool; DOTALL : bool }.
Definition no_flags : flags := {| IGNORECASE := false; DOTALL := false |}.
Definition ignorecase : flags := {| IGNORECASE := true; DOTALL := false |}.
Definition dotall : flags := {| IGNORECASE := false; DOTALL := true |}.

(** ** Derived forms *)

Fixpoint lit (s : string) : regex :=
  match s with
  | EmptyString => REps
  | String c EmptyString => RChar c
  | String c s' => RSeq (RChar c) (lit s')
  end.

Fixpoint seq (l : list regex) : regex :=
  match l with
  | [] => REps
  | [r] => r
  | r :: l' => RSeq r (seq l')
  end.

Fixpoint alt (l : list regex) : regex :=
  match l with
  | [] => RSet false []
  | [r] => r
  | r :: l' => RAlt r (alt l')
  end.

(** r? *)
Definition opt (r : regex) : regex := RAlt r REps.
(** r+ *)
Definition plus (r : regex) : regex := RSeq r (RStar r).
(** r{n} *)
Fixpoint exactly (n : nat) (r : regex) : regex :=
  match n with
  | 0 => REps
  | 1 => r
  | S n' => RSeq r (exactly n' r)
  end.
(** r{n,} *)
Definition at_least (n : nat) (r : regex) : regex :=
  match n with
  | 0 => RStar r
  | _ => RSeq (exactly n r) (RStar r)
  end.

(** A bracket expression listing the characters of [s]. *)
Fixpoint chars (s : string) : list citem :=
  match s with
  | EmptyString => []
  | String c s' => CChar c :: chars s'
  end.

(** len(match.groups()): the number of capturing groups of the pattern. *)
Fixpoint ngroups (r : regex) : nat :=
  match r with
  | RSeq a b | RAlt a b => ngroups a + ngroups b
  | RStar a | RNotAhead a => ngroups a
  | RGroup a => S (ngroups a)
  | _ => 0
  end.

(** ** Matching one character *)

Definition citem_match (i : citem) (a : ascii) : bool :=
  match i with
  | CChar c => Ascii.eqb c a
  | CRange lo hi => (Py.ord lo <=? Py.ord a) && (Py.ord a <=? Py.ord hi)
  | CSpace => Py.isspace a
  end.

Definition charset (neg : bool) (items : list citem) (a : ascii) : bool :=
  xorb neg (existsb (fun i => citem_match i a) items).

(** Under IGNORECASE a literal is compared on lowered characters and a
    set is tried on the lowered character, then on its upper case. *)
Definition char_match (fl : flags) (c a : ascii) : bool :=
  if IGNORECASE fl then Ascii.eqb (Py.lower_char c) (Py.lower_char a)
  else Ascii.eqb c a.

Definition set_match (fl : flags) (neg : bool) (items : list citem) (a : ascii) : bool :=
  if IGNORECASE fl then
    let l := Py.lower_char a in
    charset neg items l || charset neg items (Py.upper_char l)
  else charset neg items a.

Definition dot_match (fl : flags) (a : ascii) : bool :=
  if DOTALL fl then true else negb (Ascii.eqb a Py.nl_char).

(** ** The backtracking matcher *)

(** The loop of a greedy star.  [body] matches one iteration; the loop
    takes an iteration first and falls back to the continuation [k] when
    what follows fails.  An iteration has to consume at least one
    character, so [String.length s] iterations are enough for [s]. *)
Fixpoint star_loop {R : Type}
    (body : string -> option string -> (string -> option string -> option R) -> option R)
    (k : string -> option string -> option R)
    (n : nat) (s : string) (g : option string) {struct n} : option R :=
  match n with
  | 0 => k s g
  | S n' =>
      match body s g
              (fun s1 g1 =>
                 if String.length s1 <? String.length s
                 then star_loop body k n' s1 g1 else None) with
      | Some x => Some x
      | None => k s g
      end
  end.

(** [mt fl r s g k] matches [r] at the head of [s] with group 1 currently
    [g], and hands the remaining text and the group to the continuation
    [k]; [None] from [k] makes the matcher try its next alternative.
    Alternatives are tried left to right and a star takes as many
    iterations as it can first, as [re] does. *)
Fixpoint mt {R : Type} (fl : flags) (r : regex) (s : string) (g : option string)
    (k : string -> option string -> option R) {struct r} : option R :=
  match r with
  | RChar c =>
      match s with
      | String a s' => if char_match fl c a then k s' g else None
      | EmptyString => None
      end
  | RSet neg items =>
      match s with
      | String a s' => if set_match fl neg items a then k s' g else None
      | EmptyString => None
      end
  | RDot =>
      match s with
      | String a s' => if dot_match fl a then k s' g else None
      | EmptyString => None
      end
  | REps => k s g
  | RSeq r1 r2 => mt fl r1 s g (fun s1 g1 => mt fl r2 s1 g1 k)
  | RAlt r1 r2 =>
      match mt fl r1 s g k with
      | Some x => Some x
      | None => mt fl r2 s g k
      end
  | RStar r1 => star_loop (mt fl r1) k (String.length s) s g
  | RGroup r1 =>
      mt fl r1 s g
        (fun s1 _ => k s1 (Some (Py.take (String.length s - String.length s1) s)))
  | RNotAhead r1 =>
      match mt fl r1 s g (fun _ _ => Some tt) with
      | Some _ => None
      | None => k s g
      end
  end.

(** A match object: where it starts, [group(0)], [group(1)] ([None] when
    the pattern has no group or the group took no part), and the text
    after the match. *)
Record rmatch : Type := {
  m_start : nat;
  m_group0 : string;
  m_group1 : option string;
  m_groups : nat;
  m_rest : string
}.

(** [pattern.match] at the head of [s], reported for position [pos]. *)
Definition match_at (fl : flags) (r : regex) (pos : nat) (s : string) : option rmatch :=
  mt fl r s None
    (fun rest g =>
       Some {| m_start := pos;
               m_group0 := Py.take (String.length s - String.length rest) s;
               m_group1 := g;
               m_groups := ngroups r;
               m_rest := rest |}).

(** The leftmost match in [s], whose first character is at [pos]. *)
Fixpoint search_from (fl : flags) (r : regex) (pos : nat) (s : string) : option rmatch :=
  match match_at fl r pos s with
  | Some m => Some m
  | None =>
      match s with
      | EmptyString => None
      | String _ s' => search_from fl r (S pos) s'
      end
  end.

(** [re.search(pattern, s, flags)] *)
Definition search (r : regex) (s : string) (fl : flags) : option rmatch :=
  search_from fl r 0 s.

(** [re.finditer(pattern, s, flags)]: successive non-overlapping matches,
    left to right.  After an empty match the scan moves one character on
    (no pattern of the scanners matches the empty string). *)
Fixpoint finditer_from (fuel : nat) (fl : flags) (r : regex) (pos : nat) (s : string)
    : list rmatch :=
  match fuel with
  | 0 => []
  | S fuel' =>
      match search_from fl r pos s with
      | None => []
      | Some m =>
          let e := m_start m + String.length (m_group0 m) in
          m :: match m_group0 m, m_rest m with
               | EmptyString, EmptyString => []
               | EmptyString, String _ rest' => finditer_from fuel' fl r (S e) rest'
               | _, rest => finditer_from fuel' fl r e rest
               end
      end
  end.

Definition finditer (r : regex) (s : string) (fl : flags) : list rmatch :=
  finditer_from (S (String.length s)) fl r 0 s.

End Re.

(* ===================================================================== *)
(** * Values, findings, the file system and console output *)
(* ===================================================================== *)

(** The Python values stored in a finding. *)
Inductive pyval : Type :=
| PStr (s : string)
| PInt (n : nat)
| PNone.

#[global] Instance pyval_eq_dec : EqDecision pyval.
Proof. solve_decision. Defined.

(** A finding is a Python dict with string keys. *)
Abbreviation finding := (gmap string pyval).

(** A dict display [{'k1': v1, ...}] with distinct keys. *)
Definition dict (l : list (string * pyval)) : finding := list_to_map l.

(** [finding.get(key, dflt)] *)
Definition dict_get (f : finding) (key : string) (dflt : pyval) : pyval :=
  default dflt (f !! key).

(** What [open(path).read()] does for a path. *)
Inductive fstate : Type :=
| Missing                       (* no such file *)
| Unreadable (err : string)     (* open or read raises; [err] is str(e) *)
| Text (content : string).      (* the decoded content *)

(** What the XML parser, the YAML loader and the package manager give are
    inputs of the scan; they are declared with the scanners that use them. *)

(** A [Scan Result] as returned by the [scan_project] functions. *)
Record scan_result : Type := {
  total_files_scanned : nat;
  total_findings : nat;
  findings : list finding
}.

(** How a script ends: [sys.exit(status)], or an exception nobody caught,
    for which the interpreter ends the process with status 1. *)
Inductive outcome : Type :=
| Exit (status : nat)
| Uncaught (exn : string).

Definition exit_status (o : outcome) : nat :=
  match o with
  | Exit n => n
  | Uncaught _ => 1
  end.

(** ** Console output: a writer monad over the printed lines *)

Definition IO (A : Type) : Type := A * list string.

Definition io_ret {A} (x : A) : IO A := (x, []).
Definition io_bind {A B} (m : IO A) (f : A -> IO B) : IO B :=
  let '(a, out1) := m in
  let '(b, out2) := f a in
  (b, out1 ++ out2).
Definition print (s : string) : IO unit := (tt, [s]).
Definition value_of {A} (m : IO A) : A := fst m.
Definition printed {A} (m : IO A) : list string := snd m.

Notation "'let!' x ':=' m 'in' k" := (io_bind m (fun x => k))
  (at level 10, x name, m at level 100, k at level 200).
Notation "m ';;;' k" := (io_bind m (fun _ => k))
  (at level 100, k at level 200, right associativity).

(** [for x in l: acc.extend(f(x))] *)
Fixpoint extend_each {A B} (f : A -> IO (list B)) (l : list A) : IO (list B) :=
  match l with
  | [] => io_ret []
  | x :: l' =>
      let! fx := f x in
      let! rest := extend_each f l' in
      io_ret (fx ++ rest)
  end.

(** [open(path, 'r').read()]: the content, or the message of the error raised. *)
Definition read_text (fs : string -> fstate) (path : string) : string + string :=
  match fs path with
  | Missing => inl ("[Errno 2] No such file or directory: '" +:+ path +:+ "'")
  | Unreadable err => inl err
  | Text content => inr content
  end.

(** [path.exists()] *)
Definition exists_ (fs : string -> fstate) (path : string) : bool :=
  match fs path with
  | Missing => false
  | _ => true
  end.

(** [str(root / rel)] for a relative path [rel]. *)
Definition path_join (root rel : string) : string := root +:+ "/" +:+ rel.

(** ** What the external parsers return *)

(** An XML element as [xml.etree.ElementTree] gives it. *)
#[warnings="-register-all"]
Inductive element : Type :=
| Element (tag : string) (attrib : list (string * string)) (children : list element).

Definition tag_of (e : element) : string := let 'Element t _ _ := e in t.
Definition children_of (e : element) : list element := let 'Element _ _ c := e in c.

(** [element.get(key)] *)
Definition attr_get (e : element) (key : string) : option string :=
  let 'Element _ a _ := e in
  snd <$> List.find (fun kv => bool_decide (fst kv = key)) a.

(** [element.iter()]: the element and everything below it, in document order. *)
Fixpoint iter (e : element) : list element :=
  let 'Element _ _ c := e in
  e :: (fix iter_all (l : list element) : list element :=
          match l with
          | [] => []
          | x :: l' => iter x ++ iter_all l'
          end) c.

(** [root.findall('.//tag')]: the elements with that tag on all levels
    beneath [root]. *)
Definition findall (root : element) (tag : string) : list element :=
  List.filter (fun e => bool_decide (tag_of e = tag))
              (flat_map iter (children_of root)).

(** [root.find('.//tag')] *)
Definition find (root : element) (tag : string) : option element :=
  head (findall root tag).

(** The value of one entry of a dependency table of pubspec.yaml. *)
Inductive version : Type :=
| VerStr (s : string)   (* a constraint such as any or ^1.0.0 *)
| VerNone               (* no value *)
| VerOther.             (* any other YAML value, e.g. the mapping sdk: flutter *)

#[global] Instance version_eq_dec : EqDecision version.
Proof. solve_decision. Defined.

(** What [pubspec.get(key, {})] finds: the default when the key is absent,
    None when the key has no value, or the mapping, in insertion order. *)
Inductive section : Type :=
| NoKey
| Null
| Mapping (d : list (string * version)).

Record pubspec : Type := {
  dependencies : section;
  dev_dependencies : section
}.

(** What [yaml.safe_load] returns: a dict, or some other value (None for an
    empty document). *)
Inductive yaml_doc : Type :=
| YDict (p : pubspec)
| YOther.

(** [package.get(field, {})] in the data of flutter pub outdated: the key
    is absent, null, or an object whose [.get('version')] is given. *)
Inductive jfield : Type :=
| JAbsent
| JNull
| JObj (version : option string).

Record outdated_pkg : Type := {
  o_package : option string;
  o_current : jfield;
  o_latest : jfield;
  o_resolvable : jfield
}.

(** How running flutter pub outdated --json ends.  [PubOk None] is an empty
    JSON object; [PubOk (Some l)] is an object whose [.get('packages', [])]
    is [l]. *)
Inductive pub_result : Type :=
| PubOk (data : option (list outdated_pkg))
| PubFailed (stderr : string)       (* nonzero return code *)
| PubTimeout                        (* subprocess.TimeoutExpired *)
| PubNotFound                       (* FileNotFoundError *)
| PubError (e : string).            (* any other exception *)

(** The part of the machine a scanner reads: the files, the result of
    [Path(root).glob(pattern)], the command line and the working directory,
    whether the report file can be written ([None]) or opening it for
    writing raises, and the external collaborators: the XML parser and the
    YAML loader as functions of the text they are given, and the package
    manager run in a directory. *)
Record world : Type := {
  fs : string -> fstate;
  glob : string -> string -> list string;
  argv : list string;
  getcwd : string;
  open_w : string -> option string;
  xml_parse : string -> string + element;
  yaml_safe_load : string -> string + yaml_doc;
  flutter_pub_outdated : string -> pub_result
}.

(** sys.argv[1] if len(sys.argv) > 1 else dflt *)
Definition argv1 (w : world) (dflt : string) : string :=
  match argv w with
  | _ :: a :: _ => a
  | _ => dflt
  end.

(** ** Grouping by severity, as the reporters do *)

(** The four severities the reporters print, in that order. *)
Definition SEVERITIES : list string := ["CRITICAL"; "HIGH"; "MEDIUM"; "LOW"].

(** by_severity = {'CRITICAL': [], 'HIGH': [], 'MEDIUM': [], 'LOW': []} *)
Definition by_severity_init : gmap string (list finding) :=
  list_to_map [("CRITICAL", []); ("HIGH", []); ("MEDIUM", []); ("LOW", [])].

(** by_severity[finding.get('severity', 'MEDIUM')].append(finding); a key
    that is not in the table raises KeyError. *)
Definition group_one (by_severity : gmap string (list finding)) (f : finding)
    : string + gmap string (list finding) :=
  match dict_get f "severity" (PStr "MEDIUM") with
  | PStr severity =>
      match by_severity !! severity with
      | Some l => inr (<[severity := l ++ [f]]> by_severity)
      | None => inl ("KeyError: " +:+ severity)
      end
  | _ => inl "KeyError"
  end.

(** for finding in findings: ... *)
Fixpoint group_by_severity (by_severity : gmap string (list finding))
    (l : list finding) : string + gmap string (list finding) :=
  match l with
  | [] => inr by_severity
  | f :: l' =>
      match group_one by_severity f with
      | inl e => inl e
      | inr by_severity' => group_by_severity by_severity' l'
      end
  end.

(** finding[key] for each key a report loop reads: the first missing one
    raises KeyError. *)
Definition read_keys (keys : list string) (f : finding) : option string :=
  List.find (fun key => bool_decide (f !! key = None)) keys.

Fixpoint report_each (keys : list string) (l : list finding) : option string :=
  match l with
  | [] => None
  | f :: l' =>
      match read_keys keys f with
      | Some key => Some ("KeyError: " +:+ key)
      | None => report_each keys l'
      end
  end.

(** The block of a [main] under [if findings:]: the table is built, then
    the report loop walks it by severity, reading keys with [report].  The
    result is the table the name by_severity is bound to, [None] when the
    block is skipped and the name stays unbound, or the exception raised. *)
Definition group_and_report (report : list finding -> option string) (l : list finding)
    : string + option (gmap string (list finding)) :=
  match l with
  | [] => inr None
  | _ =>
      match group_by_severity by_severity_init l with
      | inl e => inl e
      | inr by_severity =>
          match report (flat_map (fun severity => default [] (by_severity !! severity))
                                 SEVERITIES) with
          | Some e => inl e
          | None => inr (Some by_severity)
          end
      end
  end.

(** len(by_severity[severity]) *)
Definition count_of (by_severity : gmap string (list finding)) (severity : string) : nat :=
  length (default [] (by_severity !! severity)).

(** Some common pieces of the patterns.  In the source text of a pattern
    quoted in a comment, DQ stands for the double-quote character. *)
Module Pat.
Import Re.
(** \s *)
Definition space : regex := RSet false [CSpace].
(** [DQ\'] *)
Definition quote : regex := RSet false [CChar Py.dq_char; CChar Py.sq_char].
(** [^DQ\'] *)
Definition not_quote : regex := RSet true [CChar Py.dq_char; CChar Py.sq_char].
(** [_-] *)
Definition us_dash : regex := RSet false (chars "_-").
(** a-zA-Z0-9 *)
Definition alnum : list citem := [CRange "a" "z"; CRange "A" "Z"; CRange "0" "9"].
(** a-zA-Z0-9_\- *)
Definition word : list citem := alnum ++ chars "_-".
(** name\s*[:=]\s*[DQ\'](value)[DQ\'] *)
Definition assigned (name value : regex) : regex :=
  seq [name; RStar space; RSet false (chars ":="); RStar space;
       quote; RGroup value; quote].
(** a[_-]?b *)
Definition joined (a b : string) : regex := seq [lit a; opt us_dash; lit b].
End Pat.

(* ===================================================================== *)
(** * scan_hardcoded_secrets.py (OWASP M1) *)
(* ===================================================================== *)

Module Secrets.
Import Re Pat.

Definition SECRET_PATTERNS : list (regex * string) := [
  (* api[_-]?key\s*[:=]\s*[DQ\']([a-zA-Z0-9_\-]{20,})[DQ\'] *)
  (assigned (joined "api" "key") (at_least 20 (RSet false word)), "API Key");
  (* apikey\s*[:=]\s*[DQ\']([a-zA-Z0-9_\-]{20,})[DQ\'] *)
  (assigned (lit "apikey") (at_least 20 (RSet false word)), "API Key");
  (* api[_-]?secret\s*[:=]\s*[DQ\']([a-zA-Z0-9_\-]{20,})[DQ\'] *)
  (assigned (joined "api" "secret") (at_least 20 (RSet false word)), "API Secret");
  (* access[_-]?token\s*[:=]\s*[DQ\']([a-zA-Z0-9_\-]{20,})[DQ\'] *)
  (assigned (joined "access" "token") (at_least 20 (RSet false word)), "Access Token");
  (* auth[_-]?token\s*[:=]\s*[DQ\']([a-zA-Z0-9_\-]{20,})[DQ\'] *)
  (assigned (joined "auth" "token") (at_least 20 (RSet false word)), "Auth Token");
  (* bearer\s+[DQ\']([a-zA-Z0-9_\-\.]{20,})[DQ\'] *)
  (seq [lit "bearer"; plus space; quote;
        RGroup (at_least 20 (RSet false (word ++ chars "."))); quote],
   "Bearer Token");
  (* aws[_-]?access[_-]?key[_-]?id\s*[:=]\s*[DQ\']([A-Z0-9]{20})[DQ\'] *)
  (assigned (seq [lit "aws"; opt us_dash; lit "access"; opt us_dash;
                  lit "key"; opt us_dash; lit "id"])
            (exactly 20 (RSet false [CRange "A" "Z"; CRange "0" "9"])),
   "AWS Access Key");
  (* aws[_-]?secret[_-]?access[_-]?key\s*[:=]\s*[DQ\']([a-zA-Z0-9/+=]{40})[DQ\'] *)
  (assigned (seq [lit "aws"; opt us_dash; lit "secret"; opt us_dash;
                  lit "access"; opt us_dash; lit "key"])
            (exactly 40 (RSet false (alnum ++ chars "/+="))),
   "AWS Secret Key");
  (* firebase[_-]?api[_-]?key\s*[:=]\s*[DQ\']([a-zA-Z0-9_\-]{30,})[DQ\'] *)
  (assigned (seq [lit "firebase"; opt us_dash; lit "api"; opt us_dash; lit "key"])
            (at_least 30 (RSet false word)),
   "Firebase API Key");
  (* db[_-]?password\s*[:=]\s*[DQ\']([^DQ\']+)[DQ\'] *)
  (assigned (joined "db" "password") (plus not_quote), "Database Password");
  (* database[_-]?url\s*[:=]\s*[DQ\'][^DQ\']*:[^DQ\']*@[^DQ\']+[DQ\'] *)
  (seq [joined "database" "url"; RStar space; RSet false (chars ":="); RStar space;
        quote; RStar not_quote; RChar ":"; RStar not_quote; RChar "@";
        plus not_quote; quote],
   "Database URL with credentials");
  (* password\s*[:=]\s*[DQ\']([^DQ\']{8,})[DQ\'] *)
  (assigned (lit "password") (at_least 8 not_quote), "Password");
  (* passwd\s*[:=]\s*[DQ\']([^DQ\']{8,})[DQ\'] *)
  (assigned (lit "passwd") (at_least 8 not_quote), "Password");
  (* pwd\s*[:=]\s*[DQ\']([^DQ\']{8,})[DQ\'] *)
  (assigned (lit "pwd") (at_least 8 not_quote), "Password");
  (* private[_-]?key\s*[:=]\s*[DQ\']([^DQ\']+)[DQ\'] *)
  (assigned (joined "private" "key") (plus not_quote), "Private Key");
  (* -----BEGIN (?:RSA |DSA )?PRIVATE KEY----- *)
  (seq [lit "-----BEGIN "; opt (RAlt (lit "RSA ") (lit "DSA "));
        lit "PRIVATE KEY-----"],
   "Private Key Block");
  (* client[_-]?secret\s*[:=]\s*[DQ\']([a-zA-Z0-9_\-]{20,})[DQ\'] *)
  (assigned (joined "client" "secret") (at_least 20 (RSet false word)), "Client Secret");
  (* client[_-]?id\s*[:=]\s*[DQ\']([a-zA-Z0-9_\-]{20,})[DQ\'] *)
  (assigned (joined "client" "id") (at_least 20 (RSet false word)), "Client ID");
  (* secret[_-]?key\s*[:=]\s*[DQ\']([a-zA-Z0-9_\-]{16,})[DQ\'] *)
  (assigned (joined "secret" "key") (at_least 16 (RSet false word)), "Secret Key");
  (* encryption[_-]?key\s*[:=]\s*[DQ\']([a-zA-Z0-9_\-/+=]{16,})[DQ\'] *)
  (assigned (joined "encryption" "key") (at_least 16 (RSet false (word ++ chars "/+="))),
   "Encryption Key")
].

Definition FALSE_POSITIVE_PATTERNS : list regex := [
  lit "example.com";                                      (* example\.com *)
  seq [lit "your"; us_dash; lit "api"; us_dash; lit "key"];  (* your[_-]api[_-]key *)
  seq [lit "YOUR"; us_dash; lit "API"; us_dash; lit "KEY"];  (* YOUR[_-]API[_-]KEY *)
  seq [RChar "<"; RStar RDot; RChar ">"];                 (* <.*> *)
  seq [lit "${"; RStar RDot; RChar "}"];                  (* \$\{.*\} *)
  lit "FIXME";
  lit "TODO";
  lit "dummy";
  lit "test";
  lit "sample";
  lit "placeholder"
].

(** def is_false_positive(value) *)
Definition is_false_positive (value : string) : bool :=
  let value_lower := Py.lower value in
  existsb (fun pattern => bool_decide (is_Some (search pattern value_lower ignorecase)))
          FALSE_POSITIVE_PATTERNS.

(** match.group(1) if len(match.groups()) > 0 else match.group(0) *)
Definition match_value (m : rmatch) : option string :=
  if 0 <? m_groups m then m_group1 m else Some (m_group0 m).

(** The body of [for match in matches].  A group that took no part in the
    match would make [value] None; [captured_value] below shows that no
    configured pattern does that. *)
Definition scan_match (file_path : string) (line_num : nat) (line secret_type : string)
    (m : rmatch) : list finding :=
  match match_value m with
  | Some value =>
      if is_false_positive value then []
      else [dict [("file", PStr file_path);
                  ("line", PInt line_num);
                  ("type", PStr secret_type);
                  ("pattern", PStr (Py.strip line));
                  ("severity", PStr "HIGH")]]
  | None => []
  end.

(** The comment test of the line loop. *)
Definition is_comment (line : string) : bool :=
  Py.startswith "//" (Py.strip line) || Py.startswith "/*" (Py.strip line).

(** The body of [for line_num, line in enumerate(lines, 1)], for a table
    of patterns. *)
Definition scan_line (patterns : list (regex * string)) (file_path : string)
    (nl : nat * string) : list finding :=
  let '(line_num, line) := nl in
  if is_comment line then []
  else
    flat_map (fun '(pattern, secret_type) =>
                flat_map (scan_match file_path line_num line secret_type)
                         (finditer pattern line ignorecase))
             patterns.

(** The [with] block of [scan_file], once the content is read. *)
Definition scan_content (file_path content : string) : list finding :=
  let lines := Py.split Py.nl_char content in
  flat_map (scan_line SECRET_PATTERNS file_path) (Py.enumerate 1 lines).

(** def scan_file(file_path) *)
Definition scan_file (w : world) (file_path : string) : IO (list finding) :=
  match read_text (fs w) file_path with
  | inr content => io_ret (scan_content file_path content)
  | inl e =>
      print ("Error scanning " +:+ file_path +:+ ": " +:+ e) ;;;
      io_ret []
  end.

(** The files [scan_project] walks. *)
Definition files_to_scan (w : world) (project_root : string) : list string :=
  let dart_files := glob w project_root "lib/**/*.dart" in
  let gradle_files := glob w project_root "android/**/*.gradle" in
  let plist_files := glob w project_root "ios/**/*.plist" in
  dart_files ++ gradle_files ++ plist_files.

(** The loop of [scan_project] over a list of files. *)
Definition scan_files (w : world) (files : list string) : IO scan_result :=
  print ("Scanning " +:+ Py.str_of_nat (length files)
         +:+ " files for hardcoded secrets...") ;;;
  let! all_findings := extend_each (scan_file w) files in
  io_ret {| total_files_scanned := length files;
            total_findings := length all_findings;
            findings := all_findings |}.

(** def scan_project(project_root) *)
Definition scan_project (w : world) (project_root : string) : IO scan_result :=
  scan_files w (files_to_scan w project_root).

(** The keys the report loops of [main] read with [finding[key]]. *)
Definition report_keys : list string := ["type"; "severity"; "file"; "line"; "pattern"].

(** def main(): the console report is left out except for the dict
    accesses that could raise; what remains is the scan, the report file
    and the exit status. *)
Definition main (w : world) : IO outcome :=
  let project_root := argv1 w (getcwd w) in
  let! results := scan_project w project_root in
  match report_each report_keys (findings results) with
  | Some e => io_ret (Uncaught e)
  | None =>
      let output_file := path_join project_root "owasp_m1_secrets_scan.json" in
      match open_w w output_file with
      | Some e => io_ret (Uncaught e)
      | None => io_ret (Exit (if 0 <? total_findings results then 1 else 0))
      end
  end.

End Secrets.

(* ===================================================================== *)
(** * analyze_storage_security.py (OWASP M9) *)
(* ===================================================================== *)

Module Storage.
Import Re Pat.

(** sensitive_patterns of [scan_shared_preferences_usage] *)
Definition sensitive_patterns : list (regex * string) := [
  (* setString\([DQ\'](?:token|auth|password|secret|key|credential)[DQ\'] *)
  (seq [lit "setString("; quote;
        alt [lit "token"; lit "auth"; lit "password"; lit "secret"; lit "key";
             lit "credential"];
        quote],
   "Token/Credential storage");
  (* setString\([DQ\'].*(?:api|jwt|bearer).*[DQ\'] *)
  (seq [lit "setString("; quote; RStar RDot;
        alt [lit "api"; lit "jwt"; lit "bearer"]; RStar RDot; quote],
   "API key storage");
  (* setInt\([DQ\'](?:pin|otp|code)[DQ\'] *)
  (seq [lit "setInt("; quote; alt [lit "pin"; lit "otp"; lit "code"]; quote],
   "PIN/OTP storage")
].

(** The body of the line loop of [scan_shared_preferences_usage], for a
    table of patterns. *)
Definition shared_preferences_line (patterns : list (regex * string))
    (file_path : string) (nl : nat * string) : list finding :=
  let '(line_num, line) := nl in
  flat_map (fun '(pattern, issue_type) =>
              if bool_decide (is_Some (search pattern line ignorecase)) then
                [dict [("file", PStr file_path);
                       ("line", PInt line_num);
                       ("issue", PStr (issue_type +:+ " in unencrypted SharedPreferences"));
                       ("code", PStr (Py.strip line));
                       ("severity", PStr "HIGH");
                       ("recommendation", PStr "Use flutter_secure_storage instead")]]
              else [])
           patterns.

Definition shared_preferences_content (file_path content : string) : list finding :=
  let lines := Py.split Py.nl_char content in
  let has_shared_prefs := Py.contains "package:shared_preferences" content in
  if has_shared_prefs then
    flat_map (shared_preferences_line sensitive_patterns file_path) (Py.enumerate 1 lines)
  else [].

(** def scan_shared_preferences_usage(file_path) *)
Definition scan_shared_preferences_usage (w : world) (file_path : string)
    : IO (list finding) :=
  match read_text (fs w) file_path with
  | inr content => io_ret (shared_preferences_content file_path content)
  | inl e => print ("Error scanning " +:+ file_path +:+ ": " +:+ e) ;;; io_ret []
  end.

(** insecure_patterns of [scan_file_storage] *)
Definition insecure_patterns : list (regex * string) := [
  (* File\(.*\)\.writeAsString\((?!.*encrypt) *)
  (seq [lit "File("; RStar RDot; lit ").writeAsString(";
        RNotAhead (seq [RStar RDot; lit "encrypt"])],
   "Unencrypted file write");
  (* File\(.*\)\.writeAsBytes\((?!.*encrypt) *)
  (seq [lit "File("; RStar RDot; lit ").writeAsBytes(";
        RNotAhead (seq [RStar RDot; lit "encrypt"])],
   "Unencrypted file write");
  (* openWrite\( *)
  (lit "openWrite(", "Potentially unencrypted stream write")
].

Definition file_storage_line (patterns : list (regex * string)) (lines : list string)
    (file_path : string) (nl : nat * string) : list finding :=
  let '(line_num, line) := nl in
  flat_map (fun '(pattern, issue_type) =>
              if bool_decide (is_Some (search pattern line no_flags)) then
                let context_start := Nat.max 0 (line_num - 3) in
                let context_end := Nat.min (length lines) (line_num + 3) in
                let context := Py.join Py.nl (Py.slice context_start context_end lines) in
                if negb (Py.contains "encrypt" (Py.lower context)) then
                  [dict [("file", PStr file_path);
                         ("line", PInt line_num);
                         ("issue", PStr issue_type);
                         ("code", PStr (Py.strip line));
                         ("severity", PStr "MEDIUM");
                         ("recommendation",
                          PStr "Encrypt sensitive data before writing to files")]]
                else []
              else [])
           patterns.

Definition file_storage_content (file_path content : string) : list finding :=
  let lines := Py.split Py.nl_char content in
  flat_map (file_storage_line insecure_patterns lines file_path) (Py.enumerate 1 lines).

(** def scan_file_storage(file_path) *)
Definition scan_file_storage (w : world) (file_path : string) : IO (list finding) :=
  match read_text (fs w) file_path with
  | inr content => io_ret (file_storage_content file_path content)
  | inl e => print ("Error scanning " +:+ file_path +:+ ": " +:+ e) ;;; io_ret []
  end.

(** rawQuery\([DQ\']SELECT.*\$ *)
Definition raw_query_pattern : regex :=
  seq [lit "rawQuery("; quote; lit "SELECT"; RStar RDot; RChar "$"].

(** The whole-file check of [scan_database_security]. *)
Definition database_file_level (file_path content : string) : list finding :=
  let has_sqflite := Py.contains "package:sqflite" content in
  let has_encrypted_sqflite := Py.contains "sqflite_sqlcipher" content in
  if has_sqflite && negb has_encrypted_sqflite then
    [dict [("file", PStr file_path);
           ("line", PInt 1);
           ("issue", PStr "Unencrypted SQLite database");
           ("code", PStr "import package:sqflite");
           ("severity", PStr "HIGH");
           ("recommendation",
            PStr "Consider using sqflite_sqlcipher for encrypted databases")]]
  else [].

(** The body of the line loop of [scan_database_security]. *)
Definition database_line (pattern : regex) (file_path : string) (nl : nat * string)
    : list finding :=
  let '(line_num, line) := nl in
  if bool_decide (is_Some (search pattern line no_flags)) then
    [dict [("file", PStr file_path);
           ("line", PInt line_num);
           ("issue", PStr "Potential SQL injection via string interpolation");
           ("code", PStr (Py.strip line));
           ("severity", PStr "HIGH");
           ("recommendation", PStr "Use parameterized queries with whereArgs")]]
  else [].

Definition database_content (file_path content : string) : list finding :=
  let lines := Py.split Py.nl_char content in
  database_file_level file_path content
  ++ flat_map (database_line raw_query_pattern file_path) (Py.enumerate 1 lines).

(** def scan_database_security(file_path) *)
Definition scan_database_security (w : world) (file_path : string) : IO (list finding) :=
  match read_text (fs w) file_path with
  | inr content => io_ret (database_content file_path content)
  | inl e => print ("Error scanning " +:+ file_path +:+ ": " +:+ e) ;;; io_ret []
  end.

Definition allowBackup_false : string :=
  Eval cbv in "android:allowBackup=" +:+ Py.dq +:+ "false" +:+ Py.dq.
Definition allowBackup_true : string :=
  Eval cbv in "android:allowBackup=" +:+ Py.dq +:+ "true" +:+ Py.dq.

Definition backup_not_configured (android_manifest : string) : finding :=
  dict [("file", PStr android_manifest);
        ("line", PInt 0);
        ("issue", PStr "Backup not explicitly configured");
        ("code", PStr "<application>");
        ("severity", PStr "MEDIUM");
        ("recommendation",
         PStr ("Set " +:+ allowBackup_false +:+ " or configure android:fullBackupContent"))].

Definition full_backup_enabled (android_manifest : string) : finding :=
  dict [("file", PStr android_manifest);
        ("line", PInt 0);
        ("issue", PStr "Full backup enabled - sensitive data may be backed up");
        ("code", PStr allowBackup_true);
        ("severity", PStr "HIGH");
        ("recommendation", PStr "Disable backup or use selective backup rules")].

(** The two checks of [scan_backup_configuration] on the manifest text. *)
Definition backup_content (android_manifest content : string) : list finding :=
  (if negb (Py.contains allowBackup_false content)
      && negb (Py.contains "android:fullBackupContent" content)
   then [backup_not_configured android_manifest] else [])
  ++
  (if Py.contains allowBackup_true content
   then [full_backup_enabled android_manifest] else []).

(** def scan_backup_configuration(project_root) *)
Definition scan_backup_configuration (w : world) (project_root : string)
    : IO (list finding) :=
  let android_manifest :=
    path_join project_root "android/app/src/main/AndroidManifest.xml" in
  if exists_ (fs w) android_manifest then
    match read_text (fs w) android_manifest with
    | inr content => io_ret (backup_content android_manifest content)
    | inl e => print ("Error scanning " +:+ android_manifest +:+ ": " +:+ e) ;;; io_ret []
    end
  else io_ret [].

(** The three scans of one Dart file, in the order of [scan_project]. *)
Definition scan_dart_file (w : world) (file_path : string) : IO (list finding) :=
  let! a := scan_shared_preferences_usage w file_path in
  let! b := scan_file_storage w file_path in
  let! c := scan_database_security w file_path in
  io_ret (a ++ b ++ c).

(** def scan_project(project_root) *)
Definition scan_project (w : world) (project_root : string) : IO scan_result :=
  let dart_files := glob w project_root "lib/**/*.dart" in
  print ("Scanning " +:+ Py.str_of_nat (length dart_files)
         +:+ " Dart files for storage security issues...") ;;;
  let! file_findings := extend_each (scan_dart_file w) dart_files in
  let! backup_findings := scan_backup_configuration w project_root in
  let all_findings := file_findings ++ backup_findings in
  io_ret {| total_files_scanned := length dart_files;
            total_findings := length all_findings;
            findings := all_findings |}.

(** The keys the report loop of [main] reads with [finding[key]]. *)
Definition report_keys : list string := ["issue"; "file"; "line"; "recommendation"].

(** def main(): the console report is left out except for the dict
    accesses that could raise. *)
Definition main (w : world) : IO outcome :=
  let project_root := argv1 w "." in
  let! results := scan_project w project_root in
  match group_and_report (report_each report_keys) (findings results) with
  | inl e => io_ret (Uncaught e)
  | inr _ =>
      let output_file := path_join project_root "owasp_m9_storage_scan.json" in
      match open_w w output_file with
      | Some e => io_ret (Uncaught e)
      | None => io_ret (Exit (if 0 <? total_findings results then 1 else 0))
      end
  end.

End Storage.

(* ===================================================================== *)
(** * check_network_security.py (OWASP M5) *)
(* ===================================================================== *)

Module Network.
Import Re Pat.

(** http_patterns of [scan_http_usage] *)
Definition http_patterns : list (regex * string) := [
  (* http://(?!localhost|127\.0\.0\.1|0\.0\.0\.0) *)
  (seq [lit "http://";
        RNotAhead (alt [lit "localhost"; lit "127.0.0.1"; lit "0.0.0.0"])],
   "HTTP URL (non-localhost)");
  (* [DQ\']http:[DQ\'] *)
  (seq [quote; lit "http:"; quote], "HTTP scheme");
  (* ws:// *)
  (lit "ws://", "Insecure WebSocket")
].

(** The body of the line loop of [scan_http_usage], for a table of patterns. *)
Definition http_line (patterns : list (regex * string)) (file_path : string)
    (nl : nat * string) : list finding :=
  let '(line_num, line) := nl in
  if Py.startswith "//" (Py.strip line) then []
  else
    flat_map (fun '(pattern, issue_type) =>
                map (fun _ : rmatch =>
                       dict [("file", PStr file_path);
                             ("line", PInt line_num);
                             ("issue", PStr issue_type);
                             ("code", PStr (Py.strip line));
                             ("severity", PStr "HIGH");
                             ("recommendation", PStr "Use HTTPS/WSS instead of HTTP/WS")])
                    (finditer pattern line ignorecase))
             patterns.

Definition http_content (file_path content : string) : list finding :=
  let lines := Py.split Py.nl_char content in
  flat_map (http_line http_patterns file_path) (Py.enumerate 1 lines).

(** def scan_http_usage(file_path) *)
Definition scan_http_usage (w : world) (file_path : string) : IO (list finding) :=
  match read_text (fs w) file_path with
  | inr content => io_ret (http_content file_path content)
  | inl e => print ("Error scanning " +:+ file_path +:+ ": " +:+ e) ;;; io_ret []
  end.

(** badCertificateCallback.*=.*\(.*\).*=>.*true *)
Definition accept_all_pattern : regex :=
  seq [lit "badCertificateCallback"; RStar RDot; RChar "="; RStar RDot;
       RChar "("; RStar RDot; RChar ")"; RStar RDot; lit "=>"; RStar RDot;
       lit "true"].

Definition pinning_packages : list string :=
  ["http_certificate_pinning"; "cert_pinning"; "ssl_pinning_plugin"].

Definition certificate_pinning_content (file_path content : string) : list finding :=
  let has_http_client := Py.contains "HttpClient" content in
  let has_bad_cert_callback := Py.contains "badCertificateCallback" content in
  (if has_bad_cert_callback
      && bool_decide (is_Some (search accept_all_pattern content no_flags))
   then
     [dict [("file", PStr file_path);
            ("line", PInt 0);
            ("issue", PStr "Certificate validation disabled (accepts all certificates)");
            ("code", PStr "badCertificateCallback = (...) => true");
            ("severity", PStr "CRITICAL");
            ("recommendation",
             PStr "Remove this in production or implement proper certificate pinning")]]
   else [])
  ++
  let has_cert_pinning := existsb (fun pkg => Py.contains pkg content) pinning_packages in
  (if has_http_client && negb has_cert_pinning && negb has_bad_cert_callback then
     [dict [("file", PStr file_path);
            ("line", PInt 0);
            ("issue", PStr "No certificate pinning detected");
            ("code", PStr "HttpClient usage without pinning");
            ("severity", PStr "MEDIUM");
            ("recommendation",
             PStr "Consider implementing certificate pinning for sensitive APIs")]]
   else []).

(** def check_certificate_pinning(file_path) *)
Definition check_certificate_pinning (w : world) (file_path : string)
    : IO (list finding) :=
  match read_text (fs w) file_path with
  | inr content => io_ret (certificate_pinning_content file_path content)
  | inl e => print ("Error scanning " +:+ file_path +:+ ": " +:+ e) ;;; io_ret []
  end.

Definition config_not_found : finding :=
  dict [("file", PStr "android/app/src/main/res/xml/network_security_config.xml");
        ("line", PInt 0);
        ("issue", PStr "Network security configuration not found");
        ("code", PStr "Missing file");
        ("severity", PStr "MEDIUM");
        ("recommendation",
         PStr "Create network_security_config.xml to enforce HTTPS and certificate pinning")].

Definition cleartext_true : string :=
  Eval cbv in "cleartextTrafficPermitted=" +:+ Py.dq +:+ "true" +:+ Py.dq.

(** The checks of [check_android_network_security] on the parsed file. *)
Definition android_config_checks (network_security_config : string) (root : element)
    : list finding :=
  (match find root "base-config" with
   | Some base_config =>
       let cleartext := attr_get base_config "cleartextTrafficPermitted" in
       if bool_decide (cleartext = Some "true") then
         [dict [("file", PStr network_security_config);
                ("line", PInt 0);
                ("issue", PStr "Cleartext traffic permitted globally");
                ("code", PStr cleartext_true);
                ("severity", PStr "HIGH");
                ("recommendation",
                 PStr "Disable cleartext traffic or limit to specific domains")]]
       else []
   | None => []
   end)
  ++
  let has_pinning := findall root "pin-set" in
  (match has_pinning with
   | [] =>
       [dict [("file", PStr network_security_config);
              ("line", PInt 0);
              ("issue", PStr "No certificate pinning configured");
              ("code", PStr "No <pin-set> elements found");
              ("severity", PStr "MEDIUM");
              ("recommendation",
               PStr "Configure certificate pinning for production APIs")]]
   | _ => []
   end).

(** ET.parse(path): reading the file, then parsing its text. *)
Definition ET_parse (w : world) (path : string) : string + element :=
  match read_text (fs w) path with
  | inl e => inl e
  | inr content => xml_parse w content
  end.

(** def check_android_network_security(project_root) *)
Definition check_android_network_security (w : world) (project_root : string)
    : IO (list finding) :=
  let network_security_config :=
    path_join project_root "android/app/src/main/res/xml/network_security_config.xml" in
  if negb (exists_ (fs w) network_security_config) then
    io_ret [config_not_found]
  else
    match ET_parse w network_security_config with
    | inr root => io_ret (android_config_checks network_security_config root)
    | inl e => print ("Error parsing network security config: " +:+ e) ;;; io_ret []
    end.

(** NSAllowsArbitraryLoads.*<true/> *)
Definition arbitrary_loads_pattern : regex :=
  seq [lit "NSAllowsArbitraryLoads"; RStar RDot; lit "<true/>"].

Definition ios_ats_content (info_plist content : string) : list finding :=
  (if Py.contains "NSAllowsArbitraryLoads" content
      && bool_decide (is_Some (search arbitrary_loads_pattern content dotall))
   then
     [dict [("file", PStr info_plist);
            ("line", PInt 0);
            ("issue", PStr "App Transport Security disabled globally");
            ("code", PStr "NSAllowsArbitraryLoads = true");
            ("severity", PStr "CRITICAL");
            ("recommendation",
             PStr "Enable ATS and use NSExceptionDomains for specific cases only")]]
   else [])
  ++
  (if Py.contains "NSAllowsLocalNetworking" content then
     [dict [("file", PStr info_plist);
            ("line", PInt 0);
            ("issue", PStr "Local networking allowed");
            ("code", PStr "NSAllowsLocalNetworking");
            ("severity", PStr "LOW");
            ("recommendation",
             PStr "Ensure this is intentional and only for development")]]
   else []).

(** def check_ios_ats_configuration(project_root) *)
Definition check_ios_ats_configuration (w : world) (project_root : string)
    : IO (list finding) :=
  let info_plist := path_join project_root "ios/Runner/Info.plist" in
  if negb (exists_ (fs w) info_plist) then io_ret []
  else
    match read_text (fs w) info_plist with
    | inr content => io_ret (ios_ats_content info_plist content)
    | inl e => print ("Error scanning Info.plist: " +:+ e) ;;; io_ret []
    end.

(** The two scans of one Dart file, in the order of [scan_project]. *)
Definition scan_dart_file (w : world) (file_path : string) : IO (list finding) :=
  let! a := scan_http_usage w file_path in
  let! b := check_certificate_pinning w file_path in
  io_ret (a ++ b).

(** def scan_project(project_root) *)
Definition scan_project (w : world) (project_root : string) : IO scan_result :=
  let dart_files := glob w project_root "lib/**/*.dart" in
  print ("Scanning " +:+ Py.str_of_nat (length dart_files)
         +:+ " Dart files for network security issues...") ;;;
  let! file_findings := extend_each (scan_dart_file w) dart_files in
  let! android_findings := check_android_network_security w project_root in
  let! ios_findings := check_ios_ats_configuration w project_root in
  let all_findings := file_findings ++ android_findings ++ ios_findings in
  io_ret {| total_files_scanned := length dart_files;
            total_findings := length all_findings;
            findings := all_findings |}.

Definition report_keys : list string := ["issue"; "file"; "line"; "recommendation"].

(** def main().  [by_severity] is bound only inside [if results['findings']:],
    so the last statement reads a local name that may be unbound. *)
Definition main (w : world) : IO outcome :=
  let project_root := argv1 w "." in
  let! results := scan_project w project_root in
  match group_and_report (report_each report_keys) (findings results) with
  | inl e => io_ret (Uncaught e)
  | inr bound =>
      let output_file := path_join project_root "owasp_m5_network_scan.json" in
      match open_w w output_file with
      | Some e => io_ret (Uncaught e)
      | None =>
          match bound with
          | None => io_ret (Uncaught "UnboundLocalError: by_severity")
          | Some by_severity =>
              let critical_high :=
                count_of by_severity "CRITICAL" + count_of by_severity "HIGH" in
              io_ret (Exit (if 0 <? critical_high then 1 else 0))
          end
      end
  end.

End Network.

(* ===================================================================== *)
(** * check_dependencies.py (OWASP M2) *)
(* ===================================================================== *)

Module Dependencies.

(** ** Insertion-ordered dicts for the dependency tables *)

(** d[k] = v: an existing key keeps its place, a new key goes last. *)
Fixpoint dict_set {V} (d : list (string * V)) (k : string) (v : V) : list (string * V) :=
  match d with
  | [] => [(k, v)]
  | (k', v') :: d' =>
      if bool_decide (k' = k) then (k, v) :: d' else (k', v') :: dict_set d' k v
  end.

(** d.update(b) *)
Fixpoint dict_update {V} (d b : list (string * V)) : list (string * V) :=
  match b with
  | [] => d
  | (k, v) :: b' => dict_update (dict_set d k v) b'
  end.

(** {**a, **b} *)
Definition dict_merge {V} (a b : list (string * V)) : list (string * V) :=
  dict_update (dict_update [] a) b.

(** d.get(k) *)
Fixpoint dict_lookup {V} (d : list (string * V)) (k : string) : option V :=
  match d with
  | [] => None
  | (k', v) :: d' => if bool_decide (k' = k) then Some v else dict_lookup d' k
  end.

Definition keys {V} (d : list (string * V)) : list string := map fst d.

(** The mapping a [**] unpacks; None is not a mapping. *)
Definition unpack (s : section) : string + list (string * version) :=
  match s with
  | NoKey => inr []
  | Null => inl "TypeError: 'NoneType' object is not a mapping"
  | Mapping d => inr d
  end.

Definition any_issue : string :=
  Eval cbv in "Version constraint set to " +:+ Py.dq +:+ "any" +:+ Py.dq.

(** The body of [for package, version in all_deps.items()]. *)
Definition check_constraint (pv : string * version) : list finding :=
  let '(package, version) := pv in
  if bool_decide (package = "flutter") then []
  else if bool_decide (version = VerStr "any") then
    [dict [("package", PStr package);
           ("issue", PStr any_issue);
           ("severity", PStr "CRITICAL");
           ("recommendation", PStr "Use specific version constraints (e.g., ^1.0.0)")]]
  else if bool_decide (version = VerNone) then
    [dict [("package", PStr package);
           ("issue", PStr "No version constraint specified");
           ("severity", PStr "HIGH");
           ("recommendation", PStr "Specify a version constraint")]]
  else [].

(** all_deps = {**dependencies, **dev_dependencies} *)
Definition all_deps (p : pubspec) : string + list (string * version) :=
  match unpack (dependencies p) with
  | inl e => inl e
  | inr deps =>
      match unpack (dev_dependencies p) with
      | inl e => inl e
      | inr dev => inr (dict_merge deps dev)
      end
  end.

(** def check_version_constraints(pubspec) *)
Definition check_version_constraints (p : pubspec) : string + list finding :=
  match all_deps p with
  | inl e => inl e
  | inr d => inr (flat_map check_constraint d)
  end.

(** def check_outdated_packages(project_root): the data, or the empty
    dict ([None]) after a warning. *)
Definition check_outdated_packages (w : world) (project_root : string)
    : IO (option (list outdated_pkg)) :=
  match flutter_pub_outdated w project_root with
  | PubOk data => io_ret data
  | PubFailed stderr =>
      print ("Warning: flutter pub outdated failed: " +:+ stderr) ;;; io_ret None
  | PubTimeout =>
      print "Warning: flutter pub outdated timed out" ;;; io_ret None
  | PubNotFound =>
      print "Warning: flutter command not found. Skipping outdated check." ;;;
      io_ret None
  | PubError e =>
      print ("Warning: Error running flutter pub outdated: " +:+ e) ;;; io_ret None
  end.

(** package.get(field, {}).get('version') *)
Definition field_version (f : jfield) : string + option string :=
  match f with
  | JAbsent => inr None
  | JNull => inl "AttributeError: 'NoneType' object has no attribute 'get'"
  | JObj v => inr v
  end.

(** int(v.split('.')[0]) if v.split('.')[0].isdigit() else 0 *)
Definition major (v : string) : nat :=
  let first := List.hd EmptyString (Py.split "." v) in
  if Py.isdigit first then Py.int first else 0.

(** The truth value of a str-or-None. *)
Definition truthy (v : option string) : bool :=
  match v with
  | Some (String _ _) => true
  | _ => false
  end.

Definition pyval_of (v : option string) : pyval :=
  match v with
  | Some s => PStr s
  | None => PNone
  end.

(** [str(v)] as an f-string formats it. *)
Definition format (v : option string) : string :=
  match v with
  | Some s => s
  | None => "None"
  end.

Definition outdated_severity (current latest : option string) : string :=
  if truthy current && truthy latest then
    match current, latest with
    | Some c, Some l => if major c <? major l then "HIGH" else "MEDIUM"
    | _, _ => "MEDIUM"
    end
  else "MEDIUM".

(** The body of [for package in packages] of [analyze_outdated_results]. *)
Definition analyze_package (p : outdated_pkg) : string + list finding :=
  match field_version (o_current p) with
  | inl e => inl e
  | inr current =>
      match field_version (o_latest p) with
      | inl e => inl e
      | inr latest =>
          match field_version (o_resolvable p) with
          | inl e => inl e
          | inr resolvable =>
              let package_name := o_package p in
              if bool_decide (current <> latest) then
                inr [dict [("package", pyval_of package_name);
                           ("current_version", pyval_of current);
                           ("latest_version", pyval_of latest);
                           ("resolvable_version", pyval_of resolvable);
                           ("severity", PStr (outdated_severity current latest));
                           ("issue", PStr "Package is outdated");
                           ("recommendation",
                            PStr ("Update to version " +:+ format latest))]]
              else inr []
          end
      end
  end.

(** def analyze_outdated_results(outdated_data), on the list of packages. *)
Fixpoint analyze_outdated_results (packages : list outdated_pkg) : string + list finding :=
  match packages with
  | [] => inr []
  | p :: packages' =>
      match analyze_package p with
      | inl e => inl e
      | inr fp =>
          match analyze_outdated_results packages' with
          | inl e => inl e
          | inr rest => inr (fp ++ rest)
          end
      end
  end.

(** dangerous_packages: name, issue, severity. *)
Definition dangerous_packages : list (string * (string * string)) := [
  ("http", ("Old versions lack important security features", "HIGH"));
  ("path_provider", ("Older versions have path traversal vulnerabilities", "MEDIUM"))
].

(** def check_dangerous_packages(pubspec) *)
Definition check_dangerous_packages (p : pubspec) : string + list finding :=
  match dependencies p with
  | Null => inl "TypeError: argument of type 'NoneType' is not iterable"
  | s =>
      let deps := match s with Mapping d => d | _ => [] end in
      inr (flat_map
             (fun '(package, (issue, severity)) =>
                if bool_decide (package ∈ keys deps) then
                  [dict [("package", PStr package);
                         ("issue", PStr issue);
                         ("severity", PStr severity);
                         ("recommendation", PStr "Update to the latest stable version")]]
                else [])
             dangerous_packages)
  end.

(** def load_pubspec(project_root): the document, or how the process ends. *)
Definition load_pubspec (w : world) (project_root : string) : IO (outcome + yaml_doc) :=
  let pubspec_path := path_join project_root "pubspec.yaml" in
  if negb (exists_ (fs w) pubspec_path) then
    print ("Error: pubspec.yaml not found in " +:+ project_root) ;;;
    io_ret (inl (Exit 1))
  else
    match read_text (fs w) pubspec_path with
    | inl e => io_ret (inl (Uncaught e))
    | inr content =>
        match yaml_safe_load w content with
        | inl e => io_ret (inl (Uncaught e))
        | inr doc => io_ret (inr doc)
        end
    end.

(** The key reads of the report loop of [main]. *)
Definition report_one (f : finding) : option string :=
  match read_keys ["package"; "issue"] f with
  | Some k => Some k
  | None =>
      match (if bool_decide (is_Some (f !! "current_version"))
             then read_keys ["current_version"; "latest_version"] f else None) with
      | Some k => Some k
      | None => read_keys ["recommendation"] f
      end
  end.

Fixpoint report_all (l : list finding) : option string :=
  match l with
  | [] => None
  | f :: l' =>
      match report_one f with
      | Some key => Some ("KeyError: " +:+ key)
      | None => report_all l'
      end
  end.

(** [main] from the point where all findings are collected. *)
Definition report_and_exit (w : world) (project_root : string)
    (all_findings : list finding) : outcome :=
  match group_and_report report_all all_findings with
  | inl e => Uncaught e
  | inr bound =>
      let output_file := path_join project_root "owasp_m2_dependencies_scan.json" in
      match open_w w output_file with
      | Some e => Uncaught e
      | None =>
          match bound with
          | None => Uncaught "UnboundLocalError: by_severity"
          | Some by_severity =>
              let critical_high :=
                count_of by_severity "CRITICAL" + count_of by_severity "HIGH" in
              Exit (if 0 <? critical_high then 1 else 0)
          end
      end
  end.

(** The findings [main] collects for a loaded pubspec. *)
Definition collect (w : world) (project_root : string) (p : pubspec)
    : IO (string + list finding) :=
  match check_version_constraints p with
  | inl e => io_ret (inl e)
  | inr constraint_findings =>
      let! outdated_data := check_outdated_packages w project_root in
      match (match outdated_data with
             | Some packages => analyze_outdated_results packages
             | None => inr []
             end) with
      | inl e => io_ret (inl e)
      | inr outdated_findings =>
          match check_dangerous_packages p with
          | inl e => io_ret (inl e)
          | inr dangerous_findings =>
              io_ret (inr (constraint_findings ++ outdated_findings ++ dangerous_findings))
          end
      end
  end.

(** def main().  [by_severity] is bound only inside [if all_findings:]. *)
Definition main (w : world) : IO outcome :=
  let project_root := argv1 w "." in
  let! loaded := load_pubspec w project_root in
  match loaded with
  | inl o => io_ret o
  | inr YOther => io_ret (Uncaught "AttributeError: 'NoneType' object has no attribute 'get'")
  | inr (YDict p) =>
      let! collected := collect w project_root p in
      match collected with
      | inl e => io_ret (Uncaught e)
      | inr all_findings => io_ret (report_and_exit w project_root all_findings)
      end
  end.

End Dependencies.


(* ===================================================================== *)
(** * The vocabulary of the properties *)
(* ===================================================================== *)

(** ** Predicates on findings *)

Definition issue_is (s : string) (f : finding) : Prop := f !! "issue" = Some (PStr s).
Definition severity_is (s : string) (f : finding) : Prop := f !! "severity" = Some (PStr s).
Definition line_is (n : nat) (f : finding) : Prop := f !! "line" = Some (PInt n).
Definition names_package (p : string) (f : finding) : Prop := f !! "package" = Some (PStr p).

(** The severity field holds one of the four severities. *)
Definition valid_severity (f : finding) : Prop :=
  exists s, severity_is s f /\ s ∈ SEVERITIES.

(** finding['severity'] == s *)
Definition has_severity (s : string) (f : finding) : bool :=
  bool_decide (f !! "severity" = Some (PStr s)).

Definition critical_or_high (f : finding) : bool :=
  has_severity "CRITICAL" f || has_severity "HIGH" f.

(** Is [f] a CRITICAL finding that names [package]? *)
Definition critical_for (package : string) (f : finding) : bool :=
  bool_decide (f !! "severity" = Some (PStr "CRITICAL"))
  && bool_decide (f !! "package" = Some (PStr package)).

(** Every finding of a result, when there is a result. *)
Definition all_found (P : finding -> Prop) (r : string + list finding) : Prop :=
  match r with
  | inl _ => True
  | inr l => Forall P l
  end.

(** A table with the four severities as keys. *)
Definition full_table (by_severity : gmap string (list finding)) : Prop :=
  forall s, s ∈ SEVERITIES -> is_Some (by_severity !! s).

(** A finding the loops of a reporter can handle: its severity is one of
    the four, and the keys the loop reads are there. *)
Definition reportable (keys : list string) (f : finding) : Prop :=
  valid_severity f /\ read_keys keys f = None.

Definition reportable_dependency (f : finding) : Prop :=
  valid_severity f /\ Dependencies.report_one f = None.

(** ** Projects and pubspecs *)

(** The path of the Android manifest under a project root. *)
Definition manifest_path (project_root : string) : string :=
  path_join project_root "android/app/src/main/AndroidManifest.xml".

(** A project directory in which no file exists and no glob matches. *)
Definition no_files (w : world) : Prop :=
  (forall path, fs w path = Missing) /\ (forall root pattern, glob w root pattern = []).

(** The mapping of a section that is not None. *)
Definition section_map (s : section) : list (string * version) :=
  match s with
  | Mapping d => d
  | _ => []
  end.

(** ** The false-positive denylist *)

(** The value matches an entry of the denylist, case ignored. *)
Definition denylisted (value : string) : Prop :=
  exists pattern,
    pattern ∈ Secrets.FALSE_POSITIVE_PATTERNS
    /\ is_Some (Re.search pattern value Re.ignorecase).

(** The entries of the denylist that are plain words. *)
Definition placeholder_words : list string :=
  ["example.com"; "FIXME"; "TODO"; "dummy"; "test"; "sample"; "placeholder"].

(** The value contains one of the plain words, case ignored. *)
Definition contains_placeholder_word (value : string) : Prop :=
  exists word,
    word ∈ placeholder_words
    /\ Py.contains (Py.lower word) (Py.lower value) = true.

(** ** The matcher *)

(** Two continuations agree when one accepts a text exactly when the other
    accepts the lowered text, whatever the groups are. *)
Definition agree {R R'} (k : string -> option string -> option R)
    (k' : string -> option string -> option R') : Prop :=
  forall s g g', is_Some (k s g) <-> is_Some (k' (Py.lower s) g').

(** Does every match of the pattern set group 1? *)
Fixpoint captures (r : Re.regex) : bool :=
  match r with
  | Re.RGroup _ => true
  | Re.RSeq a b => captures a || captures b
  | Re.RAlt a b => captures a && captures b
  | _ => false
  end.

(** A match object knows the number of groups of its pattern and, when the
    pattern always captures, holds the captured text. *)
Definition complete_match (r : Re.regex) (m : Re.rmatch) : Prop :=
  Re.m_groups m = Re.ngroups r /\ (captures r = true -> is_Some (Re.m_group1 m)).

(** ** Sample projects and texts *)

(** A project directory with no file in it; the report file can be written. *)
Definition empty_project : world :=
  {| fs := fun _ => Missing;
     glob := fun _ _ => [];
     argv := ["scan.py"; "app"];
     getcwd := "/";
     open_w := fun _ => None;
     xml_parse := fun _ => inl "no element found";
     yaml_safe_load := fun _ => inr YOther;
     flutter_pub_outdated := fun _ => PubNotFound |}.

(** A project whose only file is an Android manifest with the given text. *)
Definition manifest_world (content : string) : world :=
  {| fs := fun path =>
             if bool_decide (path = "app/android/app/src/main/AndroidManifest.xml")
             then Text content else Missing;
     glob := fun _ _ => [];
     argv := ["analyze_storage_security.py"; "app"];
     getcwd := "/";
     open_w := fun _ => None;
     xml_parse := fun _ => inl "no element found";
     yaml_safe_load := fun _ => inr YOther;
     flutter_pub_outdated := fun _ => PubNotFound |}.

(** A manifest that allows backup. *)
Definition manifest_backup_on : string :=
  "<application android:label=" +:+ Py.dq +:+ "app" +:+ Py.dq +:+ " "
  +:+ Storage.allowBackup_true +:+ ">".

(** A Dart file that imports shared preferences and stores a token in a
    line that is commented out. *)
Definition commented_prefs_line : string := "  // prefs.setString('token', t);".

Definition commented_prefs_file : string :=
  "import 'package:shared_preferences/shared_preferences.dart';"
  +:+ Py.nl +:+ commented_prefs_line.

(** A Dart file with a password and an HTTP address in a line that is
    commented out. *)
Definition commented_secret_line : string :=
  "  // const password = 'hunter2hunter2'; http://example.org".

Definition commented_secret_file : string :=
  "void main() {" +:+ Py.nl +:+ commented_secret_line +:+ Py.nl +:+ "}".

(** A project with one unreadable file between two files that hold a
    password each. *)
Definition project_with_locked_file : world :=
  {| fs := fun path =>
             if bool_decide (path = "app/lib/locked.dart")
             then Unreadable "[Errno 13] Permission denied: 'app/lib/locked.dart'"
             else if bool_decide (path = "app/lib/a.dart")
             then Text "const password = 'hunter2hunter2';"
             else if bool_decide (path = "app/lib/b.dart")
             then Text "const passwd = 'correcthorsebattery';"
             else Missing;
     glob := fun root pattern =>
               if bool_decide (pattern = "lib/**/*.dart")
               then ["app/lib/a.dart"; "app/lib/locked.dart"; "app/lib/b.dart"]
               else [];
     argv := ["scan_hardcoded_secrets.py"; "app"];
     getcwd := "/";
     open_w := fun _ => None;
     xml_parse := fun _ => inl "no element found";
     yaml_safe_load := fun _ => inr YOther;
     flutter_pub_outdated := fun _ => PubNotFound |}.

(** The line of a Dart file that assigns the placeholder to a password. *)
Definition placeholder_line : string := "  final password = 'your-api-key';".

(** The match of the pattern for Password in that line. *)
Definition placeholder_match : Re.rmatch :=
  {| Re.m_start := 8;
     Re.m_group0 := "password = 'your-api-key'";
     Re.m_group1 := Some "your-api-key";
     Re.m_groups := 1;
     Re.m_rest := ";" |}.

(** A project without any finding for the network and dependency scanners:
    the pubspec has no dependency, and the network security configuration
    pins its certificates. *)
Definition clean_project : world :=
  {| fs := fun path =>
             if bool_decide (path = "app/pubspec.yaml") then Text "name: app"
             else if bool_decide
                       (path = "app/android/app/src/main/res/xml/network_security_config.xml")
             then Text "<network-security-config><pin-set/></network-security-config>"
             else Missing;
     glob := fun _ _ => [];
     argv := ["scan.py"; "app"];
     getcwd := "/";
     open_w := fun _ => None;
     xml_parse := fun _ => inr (Element "network-security-config" []
                                  [Element "pin-set" [] []]);
     yaml_safe_load := fun _ => inr (YDict {| dependencies := NoKey;
                                              dev_dependencies := NoKey |});
     flutter_pub_outdated := fun _ => PubNotFound |}.

(** ** Further properties of the scanners *)

(** The dict a secrets finding is, for a line of a file. *)
Definition secret_finding (file_path : string) (line_num : nat) (line secret_type : string)
    : finding :=
  dict [("file", PStr file_path);
        ("line", PInt line_num);
        ("type", PStr secret_type);
        ("pattern", PStr (Py.strip line));
        ("severity", PStr "HIGH")].

(** A Dart file with a password on its third line. *)
Definition password_file : string :=
  "void main() {" +:+ Py.nl +:+ "  /* setup */" +:+ Py.nl
  +:+ "  final password = 'hunter2hunter2';  " +:+ Py.nl +:+ "}".

(** All characters. *)
Definition all_ascii : list ascii := map ascii_of_nat (seq 0 256).

(** Does some character of the text satisfy [p]? *)
Fixpoint has_char (p : ascii -> bool) (s : string) : bool :=
  match s with
  | EmptyString => false
  | String a s' => p a || has_char p s'
  end.

(** A sufficient test that every match of the pattern consumes a character
    satisfying [p]. *)
Fixpoint needs (fl : Re.flags) (p : ascii -> bool) (r : Re.regex) : bool :=
  match r with
  | Re.RChar c => forallb (fun a => implb (Re.char_match fl c a) (p a)) all_ascii
  | Re.RSet neg items => forallb (fun a => implb (Re.set_match fl neg items a) (p a)) all_ascii
  | Re.RSeq a b => needs fl p a || needs fl p b
  | Re.RAlt a b => needs fl p a && needs fl p b
  | Re.RGroup a => needs fl p a
  | _ => false
  end.

(** The single or the double quote. *)
Definition is_quote (a : ascii) : bool :=
  Ascii.eqb a Py.dq_char || Ascii.eqb a Py.sq_char.

Definition is_dash (a : ascii) : bool := Ascii.eqb a "-".

(** A line of Dart without a quote. *)
Definition unquoted_line : string := "  final password = readSecret(env, 12345678);".

(** The same machine with another answer of [glob]. *)
Definition with_glob (w : world) (g : string -> string -> list string) : world :=
  {| fs := fs w;
     glob := g;
     argv := argv w;
     getcwd := getcwd w;
     open_w := open_w w;
     xml_parse := xml_parse w;
     yaml_safe_load := yaml_safe_load w;
     flutter_pub_outdated := flutter_pub_outdated w |}.

(** Two scan results with the same counts and the same findings up to order. *)
Definition same_up_to_order (r r' : scan_result) : Prop :=
  total_files_scanned r = total_files_scanned r'
  /\ total_findings r = total_findings r'
  /\ findings r ≡ₚ findings r'.

(** A Dart file that writes a file three lines above a comment on
    encryption. *)
Definition write_near_encrypt_file : string :=
  "void save(String s) {" +:+ Py.nl
  +:+ "  File(path).writeAsString(s);" +:+ Py.nl
  +:+ "  log(s);" +:+ Py.nl
  +:+ "  flush();" +:+ Py.nl
  +:+ "  // TODO: Encrypt the payload" +:+ Py.nl
  +:+ "}".



(** A line that calls a local server and a remote one. *)
Definition local_and_remote_line : string :=
  "  get('HTTP://LocalHost:8080/a'); get('http://api.example.org/b');".

(** Does [a] occur in the text with [b] somewhere after it? *)
Fixpoint contains_then (a b s : string) : bool :=
  (Py.startswith a s && Py.contains b (Py.drop (String.length a) s))
  || match s with
     | EmptyString => false
     | String _ s' => contains_then a b s'
     end.

(** An Info.plist that sets NSAllowsArbitraryLoads to false and another key
    to true. *)
Definition plist_ats_on : string :=
  "<key>NSAppTransportSecurity</key><dict>" +:+ Py.nl
  +:+ "<key>NSAllowsArbitraryLoads</key><false/>" +:+ Py.nl
  +:+ "</dict>" +:+ Py.nl
  +:+ "<key>UIRequiresFullScreen</key><true/>".

Definition plist_world (content : string) : world :=
  {| fs := fun path =>
             if bool_decide (path = "app/ios/Runner/Info.plist")
             then Text content else Missing;
     glob := fun _ _ => [];
     argv := ["check_network_security.py"; "app"];
     getcwd := "/";
     open_w := fun _ => None;
     xml_parse := fun _ => inl "no element found";
     yaml_safe_load := fun _ => inr YOther;
     flutter_pub_outdated := fun _ => PubNotFound |}.

(** finding['package'] == p *)
Definition names_b (p : string) (f : finding) : bool :=
  bool_decide (f !! "package" = Some (PStr p)).

(** The constraint a package has in {**dependencies, **dev_dependencies}:
    the one under dev_dependencies when there is one, else the one under
    dependencies. *)
Definition effective_constraint (p : pubspec) (package : string) : option version :=
  match Dependencies.dict_lookup (section_map (dev_dependencies p)) package with
  | Some v => Some v
  | None => Dependencies.dict_lookup (section_map (dependencies p)) package
  end.

(** A pubspec with a pinned, a loose and an unconstrained dependency. *)
Definition sample_pubspec : pubspec :=
  {| dependencies := Mapping [("flutter", VerOther); ("http", VerStr "^1.2.0");
                              ("provider", VerStr "any"); ("intl", VerNone)];
     dev_dependencies := Mapping [("flutter_test", VerOther); ("lints", VerNone)] |}.

#[global] Instance jfield_eq_dec : EqDecision jfield.
Proof. solve_decision. Defined.





(** finding.get('severity', 'MEDIUM') *)
Definition effective_severity (f : finding) : pyval := dict_get f "severity" (PStr "MEDIUM").

(** The finding can be filed: its severity, MEDIUM when the field is
    absent, is one of the four. *)
Definition groupable (f : finding) : Prop :=
  exists s, s ∈ SEVERITIES /\ effective_severity f = PStr s.

Definition filed_under (s : string) (f : finding) : bool :=
  bool_decide (effective_severity f = PStr s).

(** A table whose keys are exactly the four severities. *)
Definition exact_table (by_severity : gmap string (list finding)) : Prop :=
  forall s, is_Some (by_severity !! s) <-> s ∈ SEVERITIES.

(** The package manager did not return data. *)
Definition tool_failed (r : pub_result) : Prop :=
  match r with
  | PubOk _ => False
  | _ => True
  end.

(** A machine on which the package manager is not installed and the
    pubspec of the project is [sample_pubspec]. *)
Definition project_without_flutter : world :=
  {| fs := fun path =>
             if bool_decide (path = "app/pubspec.yaml") then Text "name: app" else Missing;
     glob := fun _ _ => [];
     argv := ["check_dependencies.py"; "app"];
     getcwd := "/";
     open_w := fun _ => None;
     xml_parse := fun _ => inl "no element found";
     yaml_safe_load := fun _ => inr (YDict sample_pubspec);
     flutter_pub_outdated := fun _ => PubNotFound |}.

(** The same project in a directory where no file can be created. *)
Definition read_only_project : world :=
  {| fs := fs empty_project;
     glob := glob empty_project;
     argv := argv empty_project;
     getcwd := getcwd empty_project;
     open_w := fun path => Some ("[Errno 13] Permission denied: '" +:+ path +:+ "'");
     xml_parse := xml_parse empty_project;
     yaml_safe_load := yaml_safe_load empty_project;
     flutter_pub_outdated := flutter_pub_outdated empty_project |}.



(** [e] lies below [root] in the tree, at any depth. *)
Inductive below : element -> element -> Prop :=
| below_child (root e : element) :
    e ∈ children_of root -> below e root
| below_deeper (root c e : element) :
    c ∈ children_of root -> below e c -> below e root.

(** A network security configuration that pins certificates for one domain. *)
Definition pinned_config : element :=
  Element "network-security-config" []
    [Element "domain-config" []
       [Element "domain" [("includeSubdomains", "true")] [];
        Element "pin-set" [] [Element "pin" [("digest", "SHA-256")] []]]].

Definition config_world (root : element) : world :=
  {| fs := fun path =>
             if bool_decide
                  (path = "app/android/app/src/main/res/xml/network_security_config.xml")
             then Text "<network-security-config/>" else Missing;
     glob := fun _ _ => [];
     argv := ["check_network_security.py"; "app"];
     getcwd := "/";
     open_w := fun _ => None;
     xml_parse := fun _ => inr root;
     yaml_safe_load := fun _ => inr YOther;
     flutter_pub_outdated := fun _ => PubNotFound |}.

(** ** Proof steps shared by the lemmas on findings *)

Ltac in_severities :=
  unfold SEVERITIES;
  repeat first [ apply list_elem_of_here | apply list_elem_of_further ].

(** A dict display whose severity is written out. *)
Ltac literal_finding :=
  split; [eexists; split; [reflexivity | in_severities] | reflexivity].

Ltac open_scan := cbn [value_of io_ret fst]; cbv zeta.
Ltac case_if := match goal with |- context [if ?b then _ else _] => destruct b end.
Ltac no_finding := apply Forall_nil_2.
Ltac one_finding := apply Forall_cons; split; [literal_finding | apply Forall_nil_2].

(* ===================================================================== *)
(** * Properties *)
(* ===================================================================== *)

(** ** Lists and console output *)

Lemma elem_of_flat_map {A B} (f : A -> list B) (l : list A) (y : B) :
  y ∈ flat_map f l <-> exists x, x ∈ l /\ y ∈ f x.
Proof.
  induction l as [|a l IH]; simpl.
  - split; [intros H; by apply elem_of_nil in H|].
    intros (x & Hx & _). by apply elem_of_nil in Hx.
  - rewrite elem_of_app, IH. split.
    + intros [H | (x & Hx & Hy)].
      * exists a. split; [apply elem_of_cons; by left | done].
      * exists x. split; [apply elem_of_cons; by right | done].
    + intros (x & Hx & Hy). apply elem_of_cons in Hx as [-> | Hx]; [by left|].
      right. by exists x.
Qed.

Lemma Forall_flat_map_intro {A B} (P : B -> Prop) (f : A -> list B) (l : list A) :
  (forall x, x ∈ l -> Forall P (f x)) -> Forall P (flat_map f l).
Proof.
  intros H. apply Forall_forall. intros y Hy.
  apply elem_of_flat_map in Hy as (x & Hx & Hy).
  specialize (H x Hx). rewrite Forall_forall in H. by apply H.
Qed.

Lemma value_of_bind {A B} (m : IO A) (f : A -> IO B) :
  value_of (io_bind m f) = value_of (f (value_of m)).
Proof. unfold io_bind, value_of. destruct m as [a o]. simpl. by destruct (f a). Qed.

Lemma printed_bind {A B} (m : IO A) (f : A -> IO B) :
  printed (io_bind m f) = printed m ++ printed (f (value_of m)).
Proof. unfold io_bind, printed, value_of. destruct m as [a o]. simpl. by destruct (f a). Qed.

Lemma value_of_extend_each {A B} (f : A -> IO (list B)) (l : list A) :
  value_of (extend_each f l) = flat_map (fun x => value_of (f x)) l.
Proof.
  induction l as [|x l IH]; [done|].
  simpl. rewrite !value_of_bind. simpl. by rewrite IH.
Qed.

Lemma printed_extend_each {A B} (f : A -> IO (list B)) (l : list A) :
  printed (extend_each f l) = flat_map (fun x => printed (f x)) l.
Proof.
  induction l as [|x l IH]; [done|].
  simpl. rewrite !printed_bind. simpl. rewrite IH. by rewrite app_nil_r.
Qed.

(** A file is either missing or not. *)
Lemma exists_false_iff (fs : string -> fstate) (path : string) :
  exists_ fs path = false <-> fs path = Missing.
Proof. unfold exists_. destruct (fs path); split; congruence. Qed.

(* ===================================================================== *)
(** ** The Android backup check *)
(* ===================================================================== *)

Section Backup.
Import Storage.

Variable w : world.
Variable project_root : string.

Lemma scan_backup_configuration_text (content : string) :
  fs w (manifest_path project_root) = Text content ->
  scan_backup_configuration w project_root
  = io_ret (backup_content (manifest_path project_root) content).
Proof.
  intros H. unfold scan_backup_configuration, exists_, read_text.
  fold (manifest_path project_root). by rewrite H.
Qed.

Lemma scan_backup_configuration_missing :
  fs w (manifest_path project_root) = Missing ->
  scan_backup_configuration w project_root = io_ret [].
Proof.
  intros H. unfold scan_backup_configuration, exists_.
  fold (manifest_path project_root). by rewrite H.
Qed.

Lemma not_configured_in_backup_content (content : string) (f : finding) :
  f ∈ backup_content (manifest_path project_root) content ->
  issue_is "Backup not explicitly configured" f ->
  Py.contains allowBackup_false content = false
  /\ Py.contains "android:fullBackupContent" content = false.
Proof.
  unfold backup_content. intros Hin Hissue.
  destruct (Py.contains allowBackup_false content) eqn:Ef;
    destruct (Py.contains "android:fullBackupContent" content) eqn:Eb;
    simpl in Hin; try done;
    destruct (Py.contains allowBackup_true content); simpl in Hin;
    try (by apply elem_of_nil in Hin);
    apply list_elem_of_singleton in Hin; subst f; discriminate Hissue.
Qed.

End Backup.

(** C5.  When the manifest text contains android:allowBackup=DQtrueDQ the
    backup check emits a HIGH finding, and the MEDIUM finding Backup not
    explicitly configured is emitted exactly when its own condition holds
    (neither android:allowBackup=DQfalseDQ nor android:fullBackupContent
    occurs); when the text contains android:allowBackup=DQfalseDQ that
    finding is not emitted. *)
Theorem backup_true_high_and_not_configured_independent
    (w : world) (project_root content : string) :
  fs w (path_join project_root "android/app/src/main/AndroidManifest.xml") = Text content ->
  let found := value_of (Storage.scan_backup_configuration w project_root) in
  (Py.contains Storage.allowBackup_true content = true ->
     (exists f, f ∈ found /\ severity_is "HIGH" f
                /\ issue_is "Full backup enabled - sensitive data may be backed up" f)
     /\ ((exists f, f ∈ found /\ issue_is "Backup not explicitly configured" f
                    /\ severity_is "MEDIUM" f)
         <-> (Py.contains Storage.allowBackup_false content = false
              /\ Py.contains "android:fullBackupContent" content = false)))
  /\ (Py.contains Storage.allowBackup_false content = true ->
      ~ exists f, f ∈ found /\ issue_is "Backup not explicitly configured" f).
Proof.
  intros Hfs found. subst found.
  rewrite (scan_backup_configuration_text _ _ _ Hfs). simpl.
  set (m := path_join _ _) in *.
  split.
  - intros Htrue. split.
    + exists (Storage.full_backup_enabled m). split; [|done].
      unfold Storage.backup_content. rewrite Htrue.
      apply elem_of_app. right. by apply list_elem_of_singleton.
    + split.
      * intros (f & Hin & Hissue & _).
        by apply (not_configured_in_backup_content project_root content f).
      * intros [Hf Hb]. exists (Storage.backup_not_configured m). split; [|done].
        unfold Storage.backup_content. rewrite Hf, Hb. simpl.
        apply elem_of_cons. by left.
  - intros Hfalse (f & Hin & Hissue).
    apply (not_configured_in_backup_content project_root content f) in Hin as [Hf _];
      [congruence | done].
Qed.

Lemma backup_true_high_and_not_configured_independent_witness :
  (exists f, f ∈ value_of (Storage.scan_backup_configuration
                             (manifest_world manifest_backup_on) "app")
             /\ severity_is "HIGH" f
             /\ issue_is "Full backup enabled - sensitive data may be backed up" f).
Proof.
  destruct (backup_true_high_and_not_configured_independent
              (manifest_world manifest_backup_on) "app" manifest_backup_on eq_refl)
    as [H _].
  destruct (H eq_refl) as [Hhigh _]. exact Hhigh.
Defined.

(* ===================================================================== *)
(** ** Absent project-level artifacts *)
(* ===================================================================== *)

(** C7, as stated, fails: with ios/Runner/Info.plist absent the iOS check
    returns no finding and prints nothing. *)
Lemma absent_info_plist_is_silent :
  fs empty_project (path_join "app" "ios/Runner/Info.plist") = Missing
  /\ Network.check_ios_ats_configuration empty_project "app" = ([], []).
Proof. split; reflexivity. Qed.

(** C7, amended.  No absent artifact is fatal.  An absent Android
    network_security_config.xml yields exactly one finding, of severity
    MEDIUM, and nothing is printed; an absent iOS Info.plist and an absent
    AndroidManifest.xml yield no finding. *)
Theorem absent_artifact_findings (w : world) (project_root : string) :
  (fs w (path_join project_root
           "android/app/src/main/res/xml/network_security_config.xml") = Missing ->
   Network.check_android_network_security w project_root
   = ([Network.config_not_found], [])
   /\ severity_is "MEDIUM" Network.config_not_found
   /\ issue_is "Network security configuration not found" Network.config_not_found)
  /\ (fs w (path_join project_root "ios/Runner/Info.plist") = Missing ->
      Network.check_ios_ats_configuration w project_root = ([], []))
  /\ (fs w (path_join project_root "android/app/src/main/AndroidManifest.xml") = Missing ->
      Storage.scan_backup_configuration w project_root = ([], [])).
Proof.
  split; [|split].
  - intros H. split; [|done].
    unfold Network.check_android_network_security, exists_. by rewrite H.
  - intros H. unfold Network.check_ios_ats_configuration, exists_. by rewrite H.
  - intros H. by apply scan_backup_configuration_missing.
Qed.

Lemma absent_artifact_findings_witness :
  Network.check_android_network_security empty_project "app"
  = ([Network.config_not_found], [])
  /\ Network.check_ios_ats_configuration empty_project "app" = ([], [])
  /\ Storage.scan_backup_configuration empty_project "app" = ([], []).
Proof.
  destruct (absent_artifact_findings empty_project "app") as (Ha & Hi & Hm).
  split; [exact (proj1 (Ha eq_refl)) | split; [exact (Hi eq_refl) | exact (Hm eq_refl)]].
Defined.

(* ===================================================================== *)
(** ** Line numbers of file-level findings *)
(* ===================================================================== *)

(** C8, as stated, fails: the whole-file finding of the database scan
    carries line number 1. *)
Lemma sqlite_file_level_finding_on_line_1 :
  exists f,
    Storage.database_file_level "lib/db.dart" "import 'package:sqflite/sqflite.dart';" = [f]
    /\ issue_is "Unencrypted SQLite database" f
    /\ line_is 1 f
    /\ ~ line_is 0 f.
Proof. eexists. split; [reflexivity|]. repeat split. discriminate. Qed.

Lemma Forall_line_0_if {P : bool} (f : finding) :
  line_is 0 f -> Forall (line_is 0) (if P then [f] else []).
Proof. intros H. destruct P; by repeat constructor. Qed.

Lemma check_constraint_no_line (pv : string * version) :
  Forall (fun f => f !! "line" = None) (Dependencies.check_constraint pv).
Proof.
  destruct pv as [package ver]. unfold Dependencies.check_constraint.
  repeat case_bool_decide; by repeat constructor.
Qed.

Lemma analyze_package_no_line (p : outdated_pkg) :
  all_found (fun f => f !! "line" = None) (Dependencies.analyze_package p).
Proof.
  unfold Dependencies.analyze_package.
  destruct (Dependencies.field_version (o_current p)); [done|].
  destruct (Dependencies.field_version (o_latest p)); [done|].
  destruct (Dependencies.field_version (o_resolvable p)); [done|].
  case_bool_decide; simpl; by repeat constructor.
Qed.

Lemma all_found_analyze (P : finding -> Prop) (packages : list outdated_pkg) :
  (forall p, all_found P (Dependencies.analyze_package p)) ->
  all_found P (Dependencies.analyze_outdated_results packages).
Proof.
  intros H. induction packages as [|p l IH]; simpl; [by constructor|].
  specialize (H p). destruct (Dependencies.analyze_package p) as [e|fp]; [done|].
  destruct (Dependencies.analyze_outdated_results l) as [e|rest]; [done|].
  simpl in *. by apply Forall_app_2.
Qed.

Lemma all_found_dangerous (P : finding -> Prop) (p : pubspec) :
  (forall package issue severity,
     (package, (issue, severity)) ∈ Dependencies.dangerous_packages ->
     P (dict [("package", PStr package); ("issue", PStr issue);
              ("severity", PStr severity);
              ("recommendation", PStr "Update to the latest stable version")])) ->
  all_found P (Dependencies.check_dangerous_packages p).
Proof.
  intros H. unfold Dependencies.check_dangerous_packages.
  destruct (dependencies p); try exact I; unfold all_found;
    apply Forall_flat_map_intro; intros [package [issue severity]] Hin;
    case_bool_decide; try by constructor.
  all: constructor; [by apply H | by constructor].
Qed.

(** C8, amended.  The findings of the whole-file and project-level checks
    of the network scanner and of the backup check carry line number 0;
    the whole-file finding of the database scan carries line number 1; the
    findings of the dependency scanner have no line field. *)
Theorem file_level_findings_line
    (w : world) (project_root file_path content : string)
    (p : pubspec) (packages : list outdated_pkg) :
  Forall (line_is 0) (value_of (Network.check_certificate_pinning w file_path))
  /\ Forall (line_is 0) (value_of (Network.check_android_network_security w project_root))
  /\ Forall (line_is 0) (value_of (Network.check_ios_ats_configuration w project_root))
  /\ Forall (line_is 0) (value_of (Storage.scan_backup_configuration w project_root))
  /\ Forall (line_is 1) (Storage.database_file_level file_path content)
  /\ all_found (fun f => f !! "line" = None) (Dependencies.check_version_constraints p)
  /\ all_found (fun f => f !! "line" = None) (Dependencies.analyze_outdated_results packages)
  /\ all_found (fun f => f !! "line" = None) (Dependencies.check_dangerous_packages p).
Proof.
  repeat split.
  - unfold Network.check_certificate_pinning.
    destruct (read_text (fs w) file_path) as [e|c]; simpl; [by constructor|].
    unfold Network.certificate_pinning_content.
    apply Forall_app_2; by apply Forall_line_0_if.
  - unfold Network.check_android_network_security.
    destruct (exists_ (fs w) _); simpl; [|by repeat constructor].
    destruct (Network.ET_parse w _) as [e|root]; simpl; [by constructor|].
    unfold Network.android_config_checks. apply Forall_app_2.
    + destruct (find root "base-config"); [|by constructor].
      by apply Forall_line_0_if.
    + destruct (findall root "pin-set"); by repeat constructor.
  - unfold Network.check_ios_ats_configuration.
    destruct (exists_ (fs w) _); simpl; [|by constructor].
    destruct (read_text (fs w) _) as [e|c]; simpl; [by constructor|].
    unfold Network.ios_ats_content. apply Forall_app_2; by apply Forall_line_0_if.
  - unfold Storage.scan_backup_configuration.
    destruct (exists_ (fs w) _); simpl; [|by constructor].
    destruct (read_text (fs w) _) as [e|c]; simpl; [by constructor|].
    unfold Storage.backup_content. apply Forall_app_2; by apply Forall_line_0_if.
  - unfold Storage.database_file_level.
    destruct (_ && _); by repeat constructor.
  - unfold Dependencies.check_version_constraints.
    destruct (Dependencies.all_deps p) as [e|d]; simpl; [done|].
    apply Forall_flat_map_intro. intros pv _. apply check_constraint_no_line.
  - apply all_found_analyze. apply analyze_package_no_line.
  - apply all_found_dangerous. done.
Qed.

(* ===================================================================== *)
(** ** Version constraints *)
(* ===================================================================== *)

Section Constraints.
Import Dependencies.

Lemma dict_lookup_set {V} (d : list (string * V)) (k k' : string) (v : V) :
  dict_lookup (dict_set d k v) k' = if bool_decide (k = k') then Some v else dict_lookup d k'.
Proof.
  induction d as [|[k0 v0] d IH]; simpl.
  - done.
  - destruct (bool_decide_reflect (k0 = k)) as [->|Hne]; simpl.
    + by repeat case_bool_decide.
    + rewrite IH. repeat case_bool_decide; congruence.
Qed.

Lemma dict_lookup_None {V} (d : list (string * V)) (k : string) :
  k ∉ keys d -> dict_lookup d k = None.
Proof.
  induction d as [|[k0 v0] d IH]; simpl; [done|].
  intros Hn. apply not_elem_of_cons in Hn as [Hne Hn].
  case_bool_decide; [congruence | by apply IH].
Qed.

(** An entry of the second table replaces the entry of the first with the
    same name. *)
Lemma dict_lookup_update {V} (d b : list (string * V)) (k : string) :
  NoDup (keys b) ->
  dict_lookup (dict_update d b) k
  = match dict_lookup b k with
    | Some v => Some v
    | None => dict_lookup d k
    end.
Proof.
  revert d. induction b as [|[k0 v0] b IH]; intros d Hnd; simpl; [done|].
  apply NoDup_cons in Hnd as [Hk0 Hnd].
  rewrite IH by done. rewrite dict_lookup_set.
  case_bool_decide as Hk; [|done].
  subst k0. by rewrite dict_lookup_None.
Qed.

Lemma dict_lookup_merge {V} (a b : list (string * V)) (k : string) :
  NoDup (keys a) -> NoDup (keys b) ->
  dict_lookup (dict_merge a b) k
  = match dict_lookup b k with
    | Some v => Some v
    | None => dict_lookup a k
    end.
Proof.
  intros Ha Hb. unfold dict_merge. rewrite !dict_lookup_update by done.
  simpl. by destruct (dict_lookup a k).
Qed.

Lemma keys_dict_set {V} (d : list (string * V)) (k : string) (v : V) :
  keys (dict_set d k v) = if bool_decide (k ∈ keys d) then keys d else keys d ++ [k].
Proof.
  induction d as [|[k0 v0] d IH]; simpl; [done|].
  destruct (bool_decide_reflect (k0 = k)) as [->|Hne]; simpl.
  - rewrite bool_decide_eq_true_2; [done | apply elem_of_cons; by left].
  - rewrite IH. case_bool_decide as Hin.
    + rewrite bool_decide_eq_true_2; [done | apply elem_of_cons; by right].
    + rewrite bool_decide_eq_false_2; [done|].
      intros [?|?]%elem_of_cons; congruence.
Qed.

Lemma NoDup_keys_dict_set {V} (d : list (string * V)) (k : string) (v : V) :
  NoDup (keys d) -> NoDup (keys (dict_set d k v)).
Proof.
  intros H. rewrite keys_dict_set. case_bool_decide as Hin; [done|].
  apply NoDup_app. split; [done|]. split.
  - intros x Hx ->%list_elem_of_singleton. done.
  - apply NoDup_singleton.
Qed.

Lemma NoDup_keys_dict_update {V} (d b : list (string * V)) :
  NoDup (keys d) -> NoDup (keys (dict_update d b)).
Proof.
  revert d. induction b as [|[k v] b IH]; intros d H; simpl; [done|].
  apply IH. by apply NoDup_keys_dict_set.
Qed.

(** The merged table is a dict: no name occurs twice. *)
Lemma NoDup_keys_dict_merge {V} (a b : list (string * V)) :
  NoDup (keys (dict_merge a b)).
Proof.
  unfold dict_merge. apply NoDup_keys_dict_update, NoDup_keys_dict_update.
  apply NoDup_nil_2.
Qed.

Lemma check_constraint_other (package k : string) (v : version) :
  k <> package -> List.filter (critical_for package) (check_constraint (k, v)) = [].
Proof.
  intros Hne. unfold check_constraint.
  repeat case_bool_decide; try done; simpl; unfold critical_for.
  rewrite (bool_decide_eq_false_2 (_ !! "package" = _)); [done|].
  intros Heq. vm_compute in Heq. congruence.
Qed.

Lemma check_constraint_named (package : string) (v : version) :
  package <> "flutter" ->
  length (List.filter (critical_for package) (check_constraint (package, v)))
  = if bool_decide (v = VerStr "any") then 1 else 0.
Proof.
  intros Hne. unfold check_constraint.
  rewrite (bool_decide_eq_false_2 (package = "flutter")) by done.
  case_bool_decide as Hany; simpl.
  - unfold critical_for. by rewrite !bool_decide_eq_true_2.
  - by case_bool_decide.
Qed.

(** The CRITICAL findings naming a package count its entry in the table. *)
Lemma count_critical (d : list (string * version)) (package : string) :
  NoDup (keys d) -> package <> "flutter" ->
  length (List.filter (critical_for package) (flat_map check_constraint d))
  = match dict_lookup d package with
    | Some v => if bool_decide (v = VerStr "any") then 1 else 0
    | None => 0
    end.
Proof.
  intros Hnd Hne. induction d as [|[k v] d IH]; [done|].
  cbn [flat_map dict_lookup keys map fst] in *.
  apply NoDup_cons in Hnd as [Hk Hnd].
  rewrite List.filter_app, length_app, IH by done.
  case_bool_decide as Hkp.
  - subst k. rewrite check_constraint_named by done.
    rewrite dict_lookup_None by done. lia.
  - by rewrite check_constraint_other.
Qed.

Lemma check_constraint_not_flutter (pv : string * version) :
  Forall (fun f => ~ names_package "flutter" f) (check_constraint pv).
Proof.
  destruct pv as [package ver]. unfold check_constraint.
  case_bool_decide as Hf; [by constructor|].
  repeat case_bool_decide; repeat constructor;
    intros Heq; vm_compute in Heq; congruence.
Qed.

End Constraints.

(** C10.  The version-constraint check returns its findings unless one of
    the two sections is None, and no finding names the package flutter,
    whatever constraint the pubspec gives it. *)
Theorem flutter_never_reported (p : pubspec) :
  match Dependencies.check_version_constraints p with
  | inr found => Forall (fun f => ~ names_package "flutter" f) found
  | inl _ => dependencies p = Null \/ dev_dependencies p = Null
  end.
Proof.
  unfold Dependencies.check_version_constraints, Dependencies.all_deps.
  destruct (dependencies p), (dev_dependencies p); simpl; auto;
    apply Forall_flat_map_intro; intros pv _; apply check_constraint_not_flutter.
Qed.

(** The check on a pubspec that gives flutter the constraint any, and
    another that gives it no constraint. *)
Example flutter_any_unreported :
  Dependencies.check_version_constraints
    {| dependencies := Mapping [("flutter", VerStr "any")];
       dev_dependencies := Mapping [("flutter", VerNone)] |} = inr []
  /\ Dependencies.check_version_constraints
       {| dependencies := Mapping [("flutter", VerNone)];
          dev_dependencies := NoKey |} = inr [].
Proof. split; reflexivity. Qed.

(** C6, as stated, fails: here flutter and http are declared with the exact
    value any, and the check produces no finding at all.  The entry for
    flutter is skipped, and the entry for http under dev_dependencies
    replaces the one under dependencies. *)
Lemma any_declared_but_no_critical_finding :
  Dependencies.dict_lookup [("flutter", VerStr "any"); ("http", VerStr "any")] "flutter"
  = Some (VerStr "any")
  /\ Dependencies.dict_lookup [("flutter", VerStr "any"); ("http", VerStr "any")] "http"
     = Some (VerStr "any")
  /\ Dependencies.check_version_constraints
       {| dependencies := Mapping [("flutter", VerStr "any"); ("http", VerStr "any")];
          dev_dependencies := Mapping [("http", VerStr "^1.0.0")] |} = inr [].
Proof. repeat split; reflexivity. Qed.

(** C6, amended.  Take a pubspec whose two dependency sections are
    mappings or absent, and a package other than flutter whose constraint
    is exactly any in the merged table, that is, under dev_dependencies, or
    under dependencies with no entry of that name under dev_dependencies.
    The check then produces exactly one CRITICAL finding naming it. *)
Theorem any_constraint_one_critical (p : pubspec) (package : string) :
  dependencies p <> Null ->
  dev_dependencies p <> Null ->
  NoDup (Dependencies.keys (section_map (dependencies p))) ->
  NoDup (Dependencies.keys (section_map (dev_dependencies p))) ->
  package <> "flutter" ->
  (Dependencies.dict_lookup (section_map (dev_dependencies p)) package = Some (VerStr "any")
   \/ (Dependencies.dict_lookup (section_map (dev_dependencies p)) package = None
       /\ Dependencies.dict_lookup (section_map (dependencies p)) package
          = Some (VerStr "any"))) ->
  exists found,
    Dependencies.check_version_constraints p = inr found
    /\ length (List.filter (critical_for package) found) = 1.
Proof.
  intros Hd Hv Hnd Hnv Hne Hany.
  unfold Dependencies.check_version_constraints, Dependencies.all_deps.
  assert (Dependencies.unpack (dependencies p) = inr (section_map (dependencies p))) as ->
    by (by destruct (dependencies p)).
  assert (Dependencies.unpack (dev_dependencies p) = inr (section_map (dev_dependencies p)))
    as -> by (by destruct (dev_dependencies p)).
  eexists. split; [reflexivity|].
  rewrite count_critical by (done || apply NoDup_keys_dict_merge).
  rewrite dict_lookup_merge by done.
  destruct Hany as [-> | [-> ->]]; done.
Qed.

Lemma any_constraint_one_critical_witness :
  exists found,
    Dependencies.check_version_constraints
      {| dependencies := Mapping [("flutter", VerOther); ("http", VerStr "any")];
         dev_dependencies := NoKey |} = inr found
    /\ length (List.filter (critical_for "http") found) = 1.
Proof.
  apply (any_constraint_one_critical
           {| dependencies := Mapping [("flutter", VerOther); ("http", VerStr "any")];
              dev_dependencies := NoKey |} "http").
  - discriminate.
  - discriminate.
  - refine (@bool_decide_unpack _ (NoDup_dec _) _). vm_compute. exact I.
  - apply NoDup_nil_2.
  - discriminate.
  - right. split; reflexivity.
Defined.

(* ===================================================================== *)
(** ** Comment lines *)
(* ===================================================================== *)

Section Lines.

(** [enumerate] numbers a line once: two entries with the same number are
    the same line. *)
Lemma enumerate_lower_bound {A} (start n : nat) (l : list A) (x : A) :
  (n, x) ∈ Py.enumerate start l -> start <= n.
Proof.
  revert start. induction l as [|y l IH]; intros start H; simpl in H.
  - by apply elem_of_nil in H.
  - apply elem_of_cons in H as [[= -> ->] | H]; [lia|].
    apply IH in H. lia.
Qed.

Lemma enumerate_functional {A} (start n : nat) (l : list A) (x y : A) :
  (n, x) ∈ Py.enumerate start l -> (n, y) ∈ Py.enumerate start l -> x = y.
Proof.
  revert start. induction l as [|z l IH]; intros start Hx Hy; simpl in *.
  - by apply elem_of_nil in Hx.
  - apply elem_of_cons in Hx as [[= -> ->] | Hx];
      apply elem_of_cons in Hy as [[= ->] | Hy].
    + done.
    + apply enumerate_lower_bound in Hy. lia.
    + subst. apply enumerate_lower_bound in Hx. lia.
    + by apply (IH (S start)).
Qed.

(** A finding of the secrets line loop carries the number of its line. *)
Lemma secrets_scan_line_number (patterns : list (Re.regex * string))
    (file_path : string) (n : nat) (line : string) (f : finding) :
  f ∈ Secrets.scan_line patterns file_path (n, line) -> line_is n f.
Proof.
  unfold Secrets.scan_line. destruct (Secrets.is_comment line).
  - intros H. by apply elem_of_nil in H.
  - intros H. apply elem_of_flat_map in H as ([pattern secret_type] & _ & H).
    apply elem_of_flat_map in H as (m & _ & H).
    unfold Secrets.scan_match in H.
    destruct (Secrets.match_value m) as [value|]; [|by apply elem_of_nil in H].
    destruct (Secrets.is_false_positive value); [by apply elem_of_nil in H|].
    apply list_elem_of_singleton in H. by subst f.
Qed.

(** A finding of the HTTP line loop carries the number of its line. *)
Lemma http_line_number (patterns : list (Re.regex * string))
    (file_path : string) (n : nat) (line : string) (f : finding) :
  f ∈ Network.http_line patterns file_path (n, line) -> line_is n f.
Proof.
  unfold Network.http_line. destruct (Py.startswith "//" (Py.strip line)).
  - intros H. by apply elem_of_nil in H.
  - intros H. apply elem_of_flat_map in H as ([pattern issue_type] & _ & H).
    apply list_elem_of_fmap in H as (m & -> & _). done.
Qed.

End Lines.

(** C3, as stated, fails for the storage scanner: its line loops have no
    comment test.  Line 2 of this file begins with // and the shared
    preferences scan reports it. *)
Lemma storage_scans_comment_lines :
  Py.startswith "//" (Py.strip commented_prefs_line) = true
  /\ (2, commented_prefs_line)
     ∈ Py.enumerate 1 (Py.split Py.nl_char commented_prefs_file)
  /\ exists f,
       Storage.shared_preferences_content "lib/a.dart" commented_prefs_file = [f]
       /\ line_is 2 f
       /\ issue_is "Token/Credential storage in unencrypted SharedPreferences" f.
Proof.
  split; [reflexivity|]. split.
  - vm_compute. apply elem_of_cons. right. apply elem_of_cons. by left.
  - eexists. split; [vm_compute; reflexivity|]. split; reflexivity.
Qed.

(** C3, amended.  For a line whose trimmed content begins with //, the
    line loops of the secrets scanner and of the HTTP scan of the network
    scanner return no finding whatever the table of patterns is, so no
    pattern decides anything about the line; and no finding of a file scanned
    by either carries the number of such a line.  (The line loops of the
    storage scanner have no comment test.) *)
Theorem comment_lines_not_scanned
    (patterns : list (Re.regex * string)) (file_path content : string)
    (line_num : nat) (line : string) :
  (line_num, line) ∈ Py.enumerate 1 (Py.split Py.nl_char content) ->
  Py.startswith "//" (Py.strip line) = true ->
  Secrets.scan_line patterns file_path (line_num, line) = []
  /\ Network.http_line patterns file_path (line_num, line) = []
  /\ (forall f, f ∈ Secrets.scan_content file_path content -> ~ line_is line_num f)
  /\ (forall f, f ∈ Network.http_content file_path content -> ~ line_is line_num f).
Proof.
  intros Hin Hc.
  assert (Hs : forall p, Secrets.scan_line p file_path (line_num, line) = []).
  { intros p. unfold Secrets.scan_line, Secrets.is_comment. by rewrite Hc. }
  assert (Hh : forall p, Network.http_line p file_path (line_num, line) = []).
  { intros p. unfold Network.http_line. by rewrite Hc. }
  split; [apply Hs|]. split; [apply Hh|]. split.
  - intros f Hf Hline. unfold Secrets.scan_content in Hf.
    apply elem_of_flat_map in Hf as ([n l] & Hnl & Hf).
    pose proof (secrets_scan_line_number _ _ _ _ _ Hf) as Hn.
    unfold line_is in *. rewrite Hline in Hn. injection Hn as <-.
    rewrite (enumerate_functional _ _ _ _ _ Hnl Hin), Hs in Hf.
    by apply elem_of_nil in Hf.
  - intros f Hf Hline. unfold Network.http_content in Hf.
    apply elem_of_flat_map in Hf as ([n l] & Hnl & Hf).
    pose proof (http_line_number _ _ _ _ _ Hf) as Hn.
    unfold line_is in *. rewrite Hline in Hn. injection Hn as <-.
    rewrite (enumerate_functional _ _ _ _ _ Hnl Hin), Hh in Hf.
    by apply elem_of_nil in Hf.
Qed.

Lemma comment_lines_not_scanned_witness :
  Secrets.scan_line Secrets.SECRET_PATTERNS "lib/a.dart" (2, commented_secret_line) = []
  /\ Network.http_line Network.http_patterns "lib/a.dart" (2, commented_secret_line) = [].
Proof.
  split.
  - apply (comment_lines_not_scanned Secrets.SECRET_PATTERNS "lib/a.dart"
             commented_secret_file 2 commented_secret_line).
    + vm_compute. apply elem_of_cons. right. apply elem_of_cons. by left.
    + reflexivity.
  - apply (comment_lines_not_scanned Network.http_patterns "lib/a.dart"
             commented_secret_file 2 commented_secret_line).
    + vm_compute. apply elem_of_cons. right. apply elem_of_cons. by left.
    + reflexivity.
Defined.

(** Without the comment marker the same text is reported by both. *)
Example uncommented_line_is_scanned :
  length (Secrets.scan_line Secrets.SECRET_PATTERNS "lib/a.dart"
            (2, "  const password = 'hunter2hunter2'; http://example.org")) = 1
  /\ length (Network.http_line Network.http_patterns "lib/a.dart"
               (2, "  const password = 'hunter2hunter2'; http://example.org")) = 1.
Proof. split; vm_compute; reflexivity. Qed.

(* ===================================================================== *)
(** ** Unreadable files *)
(* ===================================================================== *)

(** C4.  When reading a file raises, each per-file scan function returns
    no finding and prints one line that names the file and the error; the
    project scan of the secrets scanner still returns a result, the line is
    part of what it prints, and its findings are those of the other files
    of the walk. *)
Theorem unreadable_file_is_skipped
    (w : world) (file_path e : string) (before after : list string) :
  read_text (fs w) file_path = inl e ->
  let message := "Error scanning " +:+ file_path +:+ ": " +:+ e in
  Secrets.scan_file w file_path = ([], [message])
  /\ Storage.scan_shared_preferences_usage w file_path = ([], [message])
  /\ Storage.scan_file_storage w file_path = ([], [message])
  /\ Storage.scan_database_security w file_path = ([], [message])
  /\ Network.scan_http_usage w file_path = ([], [message])
  /\ Network.check_certificate_pinning w file_path = ([], [message])
  /\ findings (value_of (Secrets.scan_files w (before ++ file_path :: after)))
     = findings (value_of (Secrets.scan_files w (before ++ after)))
  /\ findings (value_of (Secrets.scan_files w (before ++ file_path :: after)))
     = flat_map (fun p => value_of (Secrets.scan_file w p)) (before ++ after)
  /\ total_files_scanned (value_of (Secrets.scan_files w (before ++ file_path :: after)))
     = S (length (before ++ after))
  /\ message ∈ printed (Secrets.scan_files w (before ++ file_path :: after)).
Proof.
  intros Hread message.
  assert (Hscan : Secrets.scan_file w file_path = ([], [message])).
  { unfold Secrets.scan_file. by rewrite Hread. }
  assert (Hfind : forall files,
            findings (value_of (Secrets.scan_files w files))
            = flat_map (fun p => value_of (Secrets.scan_file w p)) files).
  { intros files. unfold Secrets.scan_files.
    rewrite !value_of_bind. simpl. apply value_of_extend_each. }
  repeat split.
  - exact Hscan.
  - unfold Storage.scan_shared_preferences_usage. by rewrite Hread.
  - unfold Storage.scan_file_storage. by rewrite Hread.
  - unfold Storage.scan_database_security. by rewrite Hread.
  - unfold Network.scan_http_usage. by rewrite Hread.
  - unfold Network.check_certificate_pinning. by rewrite Hread.
  - rewrite !Hfind, !flat_map_app. simpl. by rewrite Hscan.
  - rewrite Hfind, !flat_map_app. simpl. by rewrite Hscan.
  - unfold Secrets.scan_files. rewrite !value_of_bind. simpl.
    rewrite !length_app. simpl. lia.
  - unfold Secrets.scan_files. rewrite !printed_bind, printed_extend_each.
    apply elem_of_app. right. apply elem_of_app. left.
    apply elem_of_flat_map. exists file_path. split.
    + apply elem_of_app. right. apply elem_of_cons. by left.
    + rewrite Hscan. apply elem_of_cons. by left.
Qed.

Lemma unreadable_file_is_skipped_witness :
  Secrets.scan_file project_with_locked_file "app/lib/locked.dart"
  = ([], ["Error scanning app/lib/locked.dart: [Errno 13] Permission denied: 'app/lib/locked.dart'"])
  /\ findings (value_of (Secrets.scan_files project_with_locked_file
                           (["app/lib/a.dart"] ++ "app/lib/locked.dart" :: ["app/lib/b.dart"])))
     = findings (value_of (Secrets.scan_files project_with_locked_file
                             (["app/lib/a.dart"] ++ ["app/lib/b.dart"]))).
Proof.
  destruct (unreadable_file_is_skipped project_with_locked_file "app/lib/locked.dart"
              "[Errno 13] Permission denied: 'app/lib/locked.dart'"
              ["app/lib/a.dart"] ["app/lib/b.dart"] eq_refl)
    as (H1 & _ & _ & _ & _ & _ & H2 & _).
  split; [exact H1 | exact H2].
Defined.

(** The scan of that project reports on both readable files. *)
Example locked_file_project_scan :
  let r := value_of (Secrets.scan_project project_with_locked_file "app") in
  total_files_scanned r = 3 /\ total_findings r = 2
  /\ exit_status (value_of (Secrets.main project_with_locked_file)) = 1.
Proof. vm_compute. repeat split. Qed.

(* ===================================================================== *)
(** ** Matching without regard to case *)
(* ===================================================================== *)

Lemma lower_char_idem (a : ascii) : Py.lower_char (Py.lower_char a) = Py.lower_char a.
Proof. destruct a as [[] [] [] [] [] [] [] []]; reflexivity. Qed.

Lemma lower_char_newline (a : ascii) :
  Ascii.eqb (Py.lower_char a) Py.nl_char = Ascii.eqb a Py.nl_char.
Proof. destruct a as [[] [] [] [] [] [] [] []]; reflexivity. Qed.

Lemma length_lower (s : string) : String.length (Py.lower s) = String.length s.
Proof. induction s as [|a s IH]; simpl; [done | by rewrite IH]. Qed.

Lemma lower_idem (s : string) : Py.lower (Py.lower s) = Py.lower s.
Proof. induction s as [|a s IH]; simpl; [done | by rewrite IH, lower_char_idem]. Qed.

Lemma is_Some_or_else {A} (x y : option A) :
  is_Some (match x with Some v => Some v | None => y end) <-> is_Some x \/ is_Some y.
Proof.
  destruct x as [v|]; split; eauto.
  - intros [[? [=]] | H]; done.
Qed.

Section IgnoreCase.
Import Re.

Variable fl : flags.
Hypothesis ignoring_case : IGNORECASE fl = true.

Lemma char_match_lower (c a : ascii) :
  char_match fl c (Py.lower_char a) = char_match fl c a.
Proof. unfold char_match. by rewrite ignoring_case, lower_char_idem. Qed.

Lemma set_match_lower (neg : bool) (items : list citem) (a : ascii) :
  set_match fl neg items (Py.lower_char a) = set_match fl neg items a.
Proof. unfold set_match. by rewrite ignoring_case, lower_char_idem. Qed.

Lemma dot_match_lower (a : ascii) : dot_match fl (Py.lower_char a) = dot_match fl a.
Proof. unfold dot_match. by rewrite lower_char_newline. Qed.

Lemma star_loop_lower {R R'}
    (body : string -> option string -> (string -> option string -> option R) -> option R)
    (body' : string -> option string -> (string -> option string -> option R') -> option R')
    (k : string -> option string -> option R) (k' : string -> option string -> option R') :
  (forall s g g' c c', agree c c' ->
     is_Some (body s g c) <-> is_Some (body' (Py.lower s) g' c')) ->
  agree k k' ->
  forall n s g g',
    is_Some (star_loop body k n s g) <-> is_Some (star_loop body' k' n (Py.lower s) g').
Proof.
  intros Hbody Hk n. induction n as [|n IH]; intros s g g'; simpl.
  - apply Hk.
  - rewrite !is_Some_or_else. rewrite (Hk s g g').
    rewrite (Hbody s g g' _
               (fun s1 g1 =>
                  if String.length s1 <? String.length (Py.lower s)
                  then star_loop body' k' n s1 g1 else None)); [done|].
    intros s1 g1 g1'. rewrite !length_lower.
    destruct (String.length s1 <? String.length s); [apply IH | done].
Qed.

(** Under IGNORECASE a pattern matches at the head of a text exactly when it
    matches at the head of the lowered text. *)
Lemma mt_lower (r : regex) :
  forall R R' (s : string) (g g' : option string)
         (k : string -> option string -> option R)
         (k' : string -> option string -> option R'),
    agree k k' ->
    is_Some (mt fl r s g k) <-> is_Some (mt fl r (Py.lower s) g' k').
Proof.
  induction r as [c|neg items| | |r1 IH1 r2 IH2|r1 IH1 r2 IH2|r1 IH1|r1 IH1|r1 IH1];
    intros R R' s g g' k k' Hk; simpl.
  - destruct s as [|a s]; simpl; [done|].
    rewrite char_match_lower. destruct (char_match fl c a); [apply Hk | done].
  - destruct s as [|a s]; simpl; [done|].
    rewrite set_match_lower. destruct (set_match fl neg items a); [apply Hk | done].
  - destruct s as [|a s]; simpl; [done|].
    rewrite dot_match_lower. destruct (dot_match fl a); [apply Hk | done].
  - apply Hk.
  - apply IH1. intros s1 g1 g1'. by apply IH2.
  - rewrite !is_Some_or_else. by rewrite (IH1 _ _ s g g' k k'), (IH2 _ _ s g g' k k').
  - rewrite length_lower. apply star_loop_lower; [|done].
    intros s0 g0 g0' c c' Hc. by apply IH1.
  - apply IH1. intros s1 g1 g1'. apply Hk.
  - assert (Hahead : is_Some (mt fl r1 s g (fun _ _ => Some tt))
                     <-> is_Some (mt fl r1 (Py.lower s) g' (fun _ _ => Some tt))).
    { apply IH1. intros s1 g1 g1'. done. }
    destruct (mt fl r1 s g (fun _ _ => Some tt)) as [[]|],
             (mt fl r1 (Py.lower s) g' (fun _ _ => Some tt)) as [[]|].
    + done.
    + destruct Hahead as [H _]. by destruct H.
    + destruct Hahead as [_ H]. by destruct H.
    + apply Hk.
Qed.

Lemma match_at_lower (r : regex) (pos pos' : nat) (s : string) :
  is_Some (match_at fl r pos s) <-> is_Some (match_at fl r pos' (Py.lower s)).
Proof. unfold match_at. apply mt_lower. intros s1 g1 g1'. done. Qed.

Lemma search_from_lower (r : regex) (s : string) :
  forall pos pos',
    is_Some (search_from fl r pos s) <-> is_Some (search_from fl r pos' (Py.lower s)).
Proof.
  induction s as [|a s IH]; intros pos pos'.
  - cbn [search_from Py.lower]. rewrite !is_Some_or_else.
    by rewrite (match_at_lower r pos pos' EmptyString).
  - cbn [search_from Py.lower]. rewrite !is_Some_or_else.
    rewrite (IH (S pos) (S pos')).
    by rewrite (match_at_lower r pos pos' (String a s)).
Qed.

End IgnoreCase.

(** [re.search(pattern, value.lower(), re.IGNORECASE)] finds a match exactly
    when [re.search(pattern, value, re.IGNORECASE)] does. *)
Lemma search_lower (pattern : Re.regex) (value : string) :
  is_Some (Re.search pattern (Py.lower value) Re.ignorecase)
  <-> is_Some (Re.search pattern value Re.ignorecase).
Proof. unfold Re.search. symmetry. by apply search_from_lower. Qed.

(* ===================================================================== *)
(** ** Literal patterns are substring tests *)
(* ===================================================================== *)

Section Literals.
Import Re.

Variable fl : flags.
Hypothesis ignoring_case : IGNORECASE fl = true.

Lemma mt_lit (t : string) :
  forall R (s : string) (g : option string) (k : string -> option string -> option R),
    is_Some (mt fl (lit t) s g k)
    <-> Py.startswith (Py.lower t) (Py.lower s) = true
        /\ is_Some (k (Py.drop (String.length t) s) g).
Proof.
  induction t as [|c t IH]; intros R s g k.
  - simpl. destruct s; simpl; tauto.
  - assert (Hhead : forall (k1 : string -> option string -> option R),
              is_Some (mt fl (RChar c) s g k1)
              <-> exists a s', s = String a s'
                               /\ Ascii.eqb (Py.lower_char c) (Py.lower_char a) = true
                               /\ is_Some (k1 s' g)).
    { intros k1. simpl. unfold char_match. rewrite ignoring_case.
      destruct s as [|a s'].
      - split; [by intros [? [=]] | by intros (? & ? & [=] & _)].
      - destruct (Ascii.eqb (Py.lower_char c) (Py.lower_char a)) eqn:E.
        + split; [intros H; by exists a, s' | by intros (? & ? & [= <- <-] & _ & H)].
        + split; [by intros [? [=]] |].
          intros (? & ? & [= <- <-] & E' & _). congruence. }
    destruct t as [|c' t'].
    + change (lit (String c EmptyString)) with (RChar c). rewrite Hhead.
      split.
      * intros (a & s' & -> & E & Hk). simpl. rewrite E. by destruct (Py.lower s').
      * intros [Hs Hk]. destruct s as [|a s']; simpl in Hs; [done|].
        exists a, s'. split; [done|].
        destruct (Ascii.eqb (Py.lower_char c) (Py.lower_char a)); [done | done].
    + change (lit (String c (String c' t'))) with (RSeq (RChar c) (lit (String c' t'))).
      change (mt fl (RSeq (RChar c) (lit (String c' t'))) s g k)
        with (mt fl (RChar c) s g (fun s1 g1 => mt fl (lit (String c' t')) s1 g1 k)).
      rewrite Hhead. split.
      * intros (a & s' & -> & E & Hk). apply IH in Hk as [Hs Hk].
        split; [|exact Hk].
        change (Py.lower (String c (String c' t')))
          with (String (Py.lower_char c) (Py.lower (String c' t'))).
        change (Py.lower (String a s')) with (String (Py.lower_char a) (Py.lower s')).
        cbn [Py.startswith]. by rewrite E.
      * intros [Hs Hk]. destruct s as [|a s'].
        { discriminate Hs. }
        change (Py.lower (String c (String c' t')))
          with (String (Py.lower_char c) (Py.lower (String c' t'))) in Hs.
        change (Py.lower (String a s')) with (String (Py.lower_char a) (Py.lower s')) in Hs.
        cbn [Py.startswith] in Hs.
        destruct (Ascii.eqb (Py.lower_char c) (Py.lower_char a)) eqn:E; [|done].
        exists a, s'. split; [done|]. split; [done|].
        apply IH. by split.
Qed.

Lemma search_from_lit (t s : string) :
  forall pos,
    is_Some (search_from fl (lit t) pos s)
    <-> Py.contains (Py.lower t) (Py.lower s) = true.
Proof.
  induction s as [|a s IH]; intros pos.
  - cbn [search_from Py.lower Py.contains]. rewrite is_Some_or_else.
    unfold match_at. rewrite mt_lit. rewrite orb_false_r.
    split; [intros [[H _] | [? [=]]]; done | intros H; left; by split].
  - cbn [search_from Py.lower Py.contains]. rewrite is_Some_or_else.
    unfold match_at. rewrite mt_lit, (IH (S pos)), orb_true_iff.
    split; [intros [[H _] | H]; [by left | by right]|].
    intros [H | H]; [left; by split | by right].
Qed.

End Literals.

(** [re.search(word, value, re.IGNORECASE)] for a pattern that is a plain
    word is [word.lower() in value.lower()]. *)
Lemma search_lit (word value : string) :
  is_Some (Re.search (Re.lit word) value Re.ignorecase)
  <-> Py.contains (Py.lower word) (Py.lower value) = true.
Proof. unfold Re.search. by apply search_from_lit. Qed.

(* ===================================================================== *)
(** ** False-positive suppression *)
(* ===================================================================== *)

(** Lowering the value before a case-insensitive search changes nothing:
    [is_false_positive] is the case-insensitive denylist test on the value
    as captured. *)
Lemma is_false_positive_iff (value : string) :
  Secrets.is_false_positive value = true <-> denylisted value.
Proof.
  unfold Secrets.is_false_positive, denylisted. rewrite existsb_exists.
  split; intros (pattern & Hin & H); exists pattern.
  - apply list_elem_of_In in Hin. split; [done|].
    apply bool_decide_eq_true in H. by apply search_lower.
  - split; [by apply list_elem_of_In|].
    apply bool_decide_eq_true. by apply search_lower.
Qed.

Lemma placeholder_word_denylisted (value : string) :
  contains_placeholder_word value -> denylisted value.
Proof.
  intros (word & Hword & Hin). exists (Re.lit word). split.
  - unfold placeholder_words in Hword.
    repeat (apply elem_of_cons in Hword as [-> | Hword];
            [unfold Secrets.FALSE_POSITIVE_PATTERNS;
             repeat first [ apply list_elem_of_here | apply list_elem_of_further ] |]).
    by apply elem_of_nil in Hword.
  - by apply search_lit.
Qed.

(** C2.  A match of a secret pattern whose captured value matches an entry
    of the false-positive denylist, case ignored, yields no finding; so
    does one whose value contains one of the placeholder words of the
    denylist in any case, and one whose value is your-api-key. *)
Theorem denylisted_value_not_reported
    (file_path : string) (line_num : nat) (line secret_type : string)
    (m : Re.rmatch) (value : string) :
  Secrets.match_value m = Some value ->
  (denylisted value ->
   Secrets.scan_match file_path line_num line secret_type m = [])
  /\ (contains_placeholder_word value ->
      Secrets.scan_match file_path line_num line secret_type m = [])
  /\ (value = "your-api-key" ->
      Secrets.scan_match file_path line_num line secret_type m = []).
Proof.
  intros Hvalue.
  assert (H : denylisted value ->
              Secrets.scan_match file_path line_num line secret_type m = []).
  { intros Hd. apply is_false_positive_iff in Hd.
    unfold Secrets.scan_match. by rewrite Hvalue, Hd. }
  split; [exact H|]. split.
  - intros Hw. by apply H, placeholder_word_denylisted.
  - intros ->. apply H, is_false_positive_iff. reflexivity.
Qed.

Lemma denylisted_value_not_reported_witness :
  Secrets.scan_match "lib/config.dart" 7 placeholder_line "Password" placeholder_match = [].
Proof.
  destruct (denylisted_value_not_reported "lib/config.dart" 7 placeholder_line "Password"
              placeholder_match "your-api-key" eq_refl) as (_ & _ & H).
  exact (H eq_refl).
Defined.

(** The placeholder has the shape of a password: the pattern for Password
    matches the line, capturing your-api-key, and the line yields no
    finding; with a value that is not on the denylist it yields one. *)
Example placeholder_line_scan :
  Re.finditer (Pat.assigned (Re.lit "password") (Re.at_least 8 Pat.not_quote))
              placeholder_line Re.ignorecase = [placeholder_match]
  /\ Secrets.scan_line Secrets.SECRET_PATTERNS "lib/config.dart" (7, placeholder_line) = []
  /\ length (Secrets.scan_line Secrets.SECRET_PATTERNS "lib/config.dart"
               (7, "  final password = 'hunter2hunter2';")) = 1.
Proof. repeat split; vm_compute; reflexivity. Qed.

(** Placeholder words are found in any case. *)
Example placeholder_words_any_case :
  Secrets.is_false_positive "MyTestPassword1" = true
  /\ Secrets.is_false_positive "dUmMy-secret-0000" = true
  /\ Secrets.is_false_positive "s3cr3t-Zx81-qq" = false.
Proof. repeat split; vm_compute; reflexivity. Qed.

(* ===================================================================== *)
(** ** Grouping by severity *)
(* ===================================================================== *)

Section Grouping.

Lemma full_table_init : full_table by_severity_init.
Proof.
  intros s Hs. unfold SEVERITIES in Hs.
  repeat (apply elem_of_cons in Hs as [-> | Hs]; [by eexists|]).
  by apply elem_of_nil in Hs.
Qed.

Lemma group_one_valid (by_severity : gmap string (list finding)) (f : finding) :
  full_table by_severity -> valid_severity f ->
  exists by_severity',
    group_one by_severity f = inr by_severity'
    /\ full_table by_severity'
    /\ forall s, default [] (by_severity' !! s)
                 = default [] (by_severity !! s) ++ (if has_severity s f then [f] else []).
Proof.
  intros Hfull (sev & Hsev & Hin). destruct (Hfull sev Hin) as [l Hl].
  exists (<[sev := l ++ [f]]> by_severity).
  unfold group_one, dict_get. unfold severity_is in Hsev. rewrite Hsev. simpl. rewrite Hl.
  split; [done|]. split.
  - intros s Hs. rewrite lookup_insert. case_decide; [by eexists | by apply Hfull].
  - intros s. rewrite lookup_insert. unfold has_severity. rewrite Hsev.
    case_decide as Hs.
    + subst s. rewrite Hl. by rewrite bool_decide_eq_true_2.
    + rewrite bool_decide_eq_false_2 by congruence. by rewrite app_nil_r.
Qed.

(** The grouping loop does not raise on findings with valid severities,
    and files each finding under its severity. *)
Lemma group_by_severity_valid (l : list finding) :
  forall by_severity,
    full_table by_severity -> Forall valid_severity l ->
    exists by_severity',
      group_by_severity by_severity l = inr by_severity'
      /\ full_table by_severity'
      /\ forall s, default [] (by_severity' !! s)
                   = default [] (by_severity !! s) ++ List.filter (has_severity s) l.
Proof.
  induction l as [|f l IH]; intros by_severity Hfull Hvalid.
  - exists by_severity. split; [done|]. split; [done|].
    intros s. by rewrite app_nil_r.
  - apply Forall_cons in Hvalid as [Hf Hl].
    destruct (group_one_valid by_severity f Hfull Hf) as (b1 & Hone & Hfull1 & Hlists1).
    destruct (IH b1 Hfull1 Hl) as (b2 & Hgroup & Hfull2 & Hlists2).
    exists b2. cbn [group_by_severity]. rewrite Hone.
    split; [done|]. split; [done|].
    intros s. rewrite Hlists2, Hlists1. cbn [List.filter].
    destruct (has_severity s f); [by rewrite <- app_assoc | by rewrite app_nil_r].
Qed.

Lemma group_from_init (l : list finding) :
  Forall valid_severity l ->
  exists by_severity,
    group_by_severity by_severity_init l = inr by_severity
    /\ forall s, s ∈ SEVERITIES ->
                 default [] (by_severity !! s) = List.filter (has_severity s) l.
Proof.
  intros Hvalid.
  destruct (group_by_severity_valid l by_severity_init full_table_init Hvalid)
    as (b & Hgroup & _ & Hlists).
  exists b. split; [done|]. intros s Hs. rewrite Hlists.
  unfold SEVERITIES in Hs.
  repeat (apply elem_of_cons in Hs as [-> | Hs]; [done|]).
  by apply elem_of_nil in Hs.
Qed.

Lemma critical_high_count (l : list finding) :
  (0 <? length (List.filter (has_severity "CRITICAL") l)
        + length (List.filter (has_severity "HIGH") l))
  = existsb critical_or_high l.
Proof.
  induction l as [|f l IH]; [done|].
  cbn [List.filter existsb]. unfold critical_or_high at 1.
  destruct (has_severity "CRITICAL" f), (has_severity "HIGH" f); simpl; try done.
  apply Nat.ltb_lt. lia.
Qed.

Lemma report_each_None (keys : list string) (l : list finding) :
  Forall (fun f => read_keys keys f = None) l -> report_each keys l = None.
Proof.
  induction 1 as [|f l Hf _ IH]; [done|]. cbn [report_each]. by rewrite Hf.
Qed.

Lemma report_all_None (l : list finding) :
  Forall (fun f => Dependencies.report_one f = None) l -> Dependencies.report_all l = None.
Proof.
  induction 1 as [|f l Hf _ IH]; [done|]. cbn [Dependencies.report_all]. by rewrite Hf.
Qed.

(** What the report loops walk is made of the findings that were grouped. *)
Lemma Forall_grouped (P : finding -> Prop) (l : list finding)
    (by_severity : gmap string (list finding)) :
  Forall P l ->
  (forall s, s ∈ SEVERITIES ->
             default [] (by_severity !! s) = List.filter (has_severity s) l) ->
  Forall P (flat_map (fun severity => default [] (by_severity !! severity)) SEVERITIES).
Proof.
  intros HP Hlists. apply Forall_flat_map_intro. intros s Hs.
  rewrite (Hlists s Hs). apply Forall_forall. intros f Hf.
  apply list_elem_of_In, filter_In in Hf as [Hf _].
  rewrite Forall_forall in HP. by apply HP, list_elem_of_In.
Qed.

End Grouping.

(* ===================================================================== *)
(** ** Every finding is reportable *)
(* ===================================================================== *)

Section Reportable.

Lemma secrets_reportable (w : world) (file_path : string) :
  Forall (reportable Secrets.report_keys) (value_of (Secrets.scan_file w file_path)).
Proof.
  unfold Secrets.scan_file.
  destruct (read_text (fs w) file_path) as [e|content]; [no_finding|].
  apply Forall_flat_map_intro. intros [n line] _. unfold Secrets.scan_line.
  destruct (Secrets.is_comment line); [no_finding|].
  apply Forall_flat_map_intro. intros [pattern secret_type] _.
  apply Forall_flat_map_intro. intros m _. unfold Secrets.scan_match.
  destruct (Secrets.match_value m) as [value|]; [|no_finding].
  destruct (Secrets.is_false_positive value); [no_finding | one_finding].
Qed.

Lemma shared_preferences_reportable (w : world) (file_path : string) :
  Forall (reportable Storage.report_keys)
         (value_of (Storage.scan_shared_preferences_usage w file_path)).
Proof.
  unfold Storage.scan_shared_preferences_usage.
  destruct (read_text (fs w) file_path) as [e|content]; [no_finding|].
  unfold value_of, io_ret, fst, Storage.shared_preferences_content.
  destruct (Py.contains _ content); [|no_finding].
  apply Forall_flat_map_intro. intros [n line] _.
  apply Forall_flat_map_intro. intros [pattern issue_type] _.
  case_bool_decide; [one_finding | no_finding].
Qed.

Lemma file_storage_reportable (w : world) (file_path : string) :
  Forall (reportable Storage.report_keys) (value_of (Storage.scan_file_storage w file_path)).
Proof.
  unfold Storage.scan_file_storage.
  destruct (read_text (fs w) file_path) as [e|content]; [no_finding|].
  apply Forall_flat_map_intro. intros [n line] _.
  apply Forall_flat_map_intro. intros [pattern issue_type] _.
  case_bool_decide; [|no_finding]. cbv zeta.
  destruct (negb _); [one_finding | no_finding].
Qed.

Lemma database_reportable (w : world) (file_path : string) :
  Forall (reportable Storage.report_keys)
         (value_of (Storage.scan_database_security w file_path)).
Proof.
  unfold Storage.scan_database_security.
  destruct (read_text (fs w) file_path) as [e|content]; [no_finding|].
  open_scan. unfold Storage.database_content. cbv zeta. apply Forall_app_2.
  - unfold Storage.database_file_level. cbv zeta. case_if; [one_finding | no_finding].
  - apply Forall_flat_map_intro. intros [n line] _. unfold Storage.database_line.
    case_bool_decide; [one_finding | no_finding].
Qed.

Lemma backup_reportable (w : world) (project_root : string) :
  Forall (reportable Storage.report_keys)
         (value_of (Storage.scan_backup_configuration w project_root)).
Proof.
  unfold Storage.scan_backup_configuration. cbv zeta.
  case_if; [|no_finding].
  destruct (read_text (fs w) _) as [e|content]; [no_finding|].
  open_scan. unfold Storage.backup_content.
  apply Forall_app_2; case_if; first [one_finding | no_finding].
Qed.

Lemma storage_reportable (w : world) (project_root : string) :
  Forall (reportable Storage.report_keys)
         (findings (value_of (Storage.scan_project w project_root))).
Proof.
  unfold Storage.scan_project. rewrite !value_of_bind. cbn [findings value_of io_ret fst].
  apply Forall_app_2; [|apply backup_reportable].
  rewrite value_of_extend_each. apply Forall_flat_map_intro. intros file_path _.
  unfold Storage.scan_dart_file. rewrite !value_of_bind. cbn [value_of io_ret fst].
  repeat apply Forall_app_2.
  - apply shared_preferences_reportable.
  - apply file_storage_reportable.
  - apply database_reportable.
Qed.

Lemma http_reportable (w : world) (file_path : string) :
  Forall (reportable Network.report_keys) (value_of (Network.scan_http_usage w file_path)).
Proof.
  unfold Network.scan_http_usage.
  destruct (read_text (fs w) file_path) as [e|content]; [no_finding|].
  apply Forall_flat_map_intro. intros [n line] _. unfold Network.http_line.
  destruct (Py.startswith _ _); [no_finding|].
  apply Forall_flat_map_intro. intros [pattern issue_type] _.
  apply Forall_forall. intros f Hf. apply list_elem_of_fmap in Hf as (m & -> & _).
  literal_finding.
Qed.

Lemma certificate_pinning_reportable (w : world) (file_path : string) :
  Forall (reportable Network.report_keys)
         (value_of (Network.check_certificate_pinning w file_path)).
Proof.
  unfold Network.check_certificate_pinning.
  destruct (read_text (fs w) file_path) as [e|content]; [no_finding|].
  open_scan. unfold Network.certificate_pinning_content. cbv zeta.
  apply Forall_app_2; case_if; first [one_finding | no_finding].
Qed.

Lemma android_reportable (w : world) (project_root : string) :
  Forall (reportable Network.report_keys)
         (value_of (Network.check_android_network_security w project_root)).
Proof.
  unfold Network.check_android_network_security. cbv zeta.
  case_if; [one_finding|].
  destruct (Network.ET_parse w _) as [e|root]; [no_finding|].
  open_scan. unfold Network.android_config_checks. cbv zeta.
  apply Forall_app_2.
  - destruct (find root "base-config"); [|no_finding].
    case_bool_decide; [one_finding | no_finding].
  - destruct (findall root "pin-set"); [one_finding | no_finding].
Qed.

Lemma ios_reportable (w : world) (project_root : string) :
  Forall (reportable Network.report_keys)
         (value_of (Network.check_ios_ats_configuration w project_root)).
Proof.
  unfold Network.check_ios_ats_configuration. cbv zeta.
  case_if; [no_finding|].
  destruct (read_text (fs w) _) as [e|content]; [no_finding|].
  open_scan. unfold Network.ios_ats_content.
  apply Forall_app_2; case_if; first [one_finding | no_finding].
Qed.

Lemma network_reportable (w : world) (project_root : string) :
  Forall (reportable Network.report_keys)
         (findings (value_of (Network.scan_project w project_root))).
Proof.
  unfold Network.scan_project. rewrite !value_of_bind. cbn [findings value_of io_ret fst].
  repeat apply Forall_app_2.
  - rewrite value_of_extend_each. apply Forall_flat_map_intro. intros file_path _.
    unfold Network.scan_dart_file. rewrite !value_of_bind. cbn [value_of io_ret fst].
    apply Forall_app_2; [apply http_reportable | apply certificate_pinning_reportable].
  - apply android_reportable.
  - apply ios_reportable.
Qed.

Lemma secrets_project_reportable (w : world) (project_root : string) :
  Forall (reportable Secrets.report_keys)
         (findings (value_of (Secrets.scan_project w project_root))).
Proof.
  unfold Secrets.scan_project, Secrets.scan_files.
  rewrite !value_of_bind. cbn [findings value_of io_ret fst].
  rewrite value_of_extend_each. apply Forall_flat_map_intro. intros file_path _.
  apply secrets_reportable.
Qed.

Lemma outdated_severity_cases (current latest : option string) :
  Dependencies.outdated_severity current latest = "HIGH"
  \/ Dependencies.outdated_severity current latest = "MEDIUM".
Proof.
  unfold Dependencies.outdated_severity.
  destruct (_ && _); [|by right].
  destruct current, latest; try by right.
  destruct (_ <? _); [by left | by right].
Qed.

Lemma check_constraint_reportable (pv : string * version) :
  Forall reportable_dependency (Dependencies.check_constraint pv).
Proof.
  destruct pv as [package ver]. unfold Dependencies.check_constraint.
  repeat case_bool_decide; first [no_finding | one_finding].
Qed.

Lemma analyze_package_reportable (p : outdated_pkg) :
  all_found reportable_dependency (Dependencies.analyze_package p).
Proof.
  unfold Dependencies.analyze_package.
  destruct (Dependencies.field_version (o_current p)) as [|current]; [done|].
  destruct (Dependencies.field_version (o_latest p)) as [|latest]; [done|].
  destruct (Dependencies.field_version (o_resolvable p)) as [|resolvable]; [done|].
  case_bool_decide; [|no_finding].
  apply Forall_cons. split; [|no_finding].
  destruct (outdated_severity_cases current latest) as [E | E];
    rewrite E; literal_finding.
Qed.

Lemma dependencies_reportable (w : world) (project_root : string) (p : pubspec) :
  all_found reportable_dependency (value_of (Dependencies.collect w project_root p)).
Proof.
  unfold Dependencies.collect.
  pose proof (all_found_analyze reportable_dependency) as Hanalyze.
  pose proof (all_found_dangerous reportable_dependency p) as Hdangerous.
  unfold Dependencies.check_version_constraints.
  destruct (Dependencies.all_deps p) as [e|d]; [done|].
  rewrite value_of_bind.
  destruct (value_of (Dependencies.check_outdated_packages w project_root))
    as [packages|].
  - specialize (Hanalyze packages analyze_package_reportable).
    destruct (Dependencies.analyze_outdated_results packages) as [e|o]; [done|].
    destruct (Dependencies.check_dangerous_packages p) as [e|dg]; [done|].
    cbn [value_of io_ret fst all_found] in *.
    repeat apply Forall_app_2; try done.
    + apply Forall_flat_map_intro. intros pv _. apply check_constraint_reportable.
    + apply Hdangerous. intros package issue severity Hin.
      unfold Dependencies.dangerous_packages in Hin.
      repeat (apply elem_of_cons in Hin as [[= -> -> ->] | Hin]; [literal_finding|]).
      by apply elem_of_nil in Hin.
  - destruct (Dependencies.check_dangerous_packages p) as [e|dg]; [done|].
    cbn [value_of io_ret fst all_found] in *.
    repeat apply Forall_app_2; try done.
    + apply Forall_flat_map_intro. intros pv _. apply check_constraint_reportable.
    + apply Hdangerous. intros package issue severity Hin.
      unfold Dependencies.dangerous_packages in Hin.
      repeat (apply elem_of_cons in Hin as [[= -> -> ->] | Hin]; [literal_finding|]).
      by apply elem_of_nil in Hin.
Qed.

Lemma reportable_valid (keys : list string) (l : list finding) :
  Forall (reportable keys) l -> Forall valid_severity l.
Proof. intros H. eapply Forall_impl; [exact H|]. by intros f [Hv _]. Qed.

Lemma reportable_keys (keys : list string) (l : list finding) :
  Forall (reportable keys) l -> Forall (fun f => read_keys keys f = None) l.
Proof. intros H. eapply Forall_impl; [exact H|]. by intros f [_ Hk]. Qed.

End Reportable.

(* ===================================================================== *)
(** ** The reporters never fail on a finding *)
(* ===================================================================== *)

(** C9.  Every finding of the four scanners has a severity field holding
    CRITICAL, HIGH, MEDIUM or LOW, and the grouping loop of the storage,
    network and dependency reporters returns its table for them: no lookup
    in the table raises. *)
Theorem severity_always_groupable (w : world) (project_root : string) (p : pubspec) :
  let storage := findings (value_of (Storage.scan_project w project_root)) in
  let network := findings (value_of (Network.scan_project w project_root)) in
  Forall valid_severity (findings (value_of (Secrets.scan_project w project_root)))
  /\ Forall valid_severity storage
  /\ Forall valid_severity network
  /\ all_found valid_severity (value_of (Dependencies.collect w project_root p))
  /\ (exists by_severity, group_by_severity by_severity_init storage = inr by_severity)
  /\ (exists by_severity, group_by_severity by_severity_init network = inr by_severity)
  /\ match value_of (Dependencies.collect w project_root p) with
     | inr all_findings =>
         exists by_severity, group_by_severity by_severity_init all_findings = inr by_severity
     | inl _ => True
     end.
Proof.
  intros storage network.
  pose proof (reportable_valid _ _ (secrets_project_reportable w project_root)) as Hsecrets.
  pose proof (reportable_valid _ _ (storage_reportable w project_root)) as Hstorage.
  pose proof (reportable_valid _ _ (network_reportable w project_root)) as Hnetwork.
  pose proof (dependencies_reportable w project_root p) as Hdeps.
  assert (Hgroup : forall l, Forall valid_severity l ->
            exists by_severity, group_by_severity by_severity_init l = inr by_severity).
  { intros l Hl. destruct (group_from_init l Hl) as (b & Hb & _). by exists b. }
  repeat split; try done.
  - destruct (value_of (Dependencies.collect w project_root p)) as [e|l]; [done|].
    eapply Forall_impl; [exact Hdeps|]. by intros f [Hv _].
  - by apply Hgroup.
  - by apply Hgroup.
  - destruct (value_of (Dependencies.collect w project_root p)) as [e|l]; [done|].
    apply Hgroup. eapply Forall_impl; [exact Hdeps|]. by intros f [Hv _].
Qed.

(** The table is keyed by exactly the four severities: a finding without a
    severity field is filed under MEDIUM, and a severity outside the four
    would raise KeyError. *)
Example grouping_default_and_key_error :
  group_by_severity by_severity_init [dict [("issue", PStr "x")]]
  = inr (<["MEDIUM" := [dict [("issue", PStr "x")]]]> by_severity_init)
  /\ group_by_severity by_severity_init [dict [("severity", PStr "INFO")]]
     = inl "KeyError: INFO".
Proof. split; vm_compute; reflexivity. Qed.

(* ===================================================================== *)
(** ** Exit status *)
(* ===================================================================== *)

Section ExitStatus.

Lemma group_and_report_each (keys : list string) (l : list finding) :
  Forall (reportable keys) l -> l <> [] ->
  exists by_severity,
    group_and_report (report_each keys) l = inr (Some by_severity)
    /\ forall s, s ∈ SEVERITIES ->
                 default [] (by_severity !! s) = List.filter (has_severity s) l.
Proof.
  intros Hl Hne.
  destruct (group_from_init l (reportable_valid _ _ Hl)) as (b & Hb & Hlists).
  exists b. split; [|done].
  unfold group_and_report. destruct l as [|f l']; [done|]. rewrite Hb.
  rewrite report_each_None; [done|].
  apply (Forall_grouped _ (f :: l')); [by apply reportable_keys | done].
Qed.

Lemma group_and_report_all (l : list finding) :
  Forall reportable_dependency l -> l <> [] ->
  exists by_severity,
    group_and_report Dependencies.report_all l = inr (Some by_severity)
    /\ forall s, s ∈ SEVERITIES ->
                 default [] (by_severity !! s) = List.filter (has_severity s) l.
Proof.
  intros Hl Hne.
  assert (Hvalid : Forall valid_severity l).
  { eapply Forall_impl; [exact Hl|]. by intros f [Hv _]. }
  destruct (group_from_init l Hvalid) as (b & Hb & Hlists).
  exists b. split; [|done].
  unfold group_and_report. destruct l as [|f l']; [done|]. rewrite Hb.
  rewrite report_all_None; [done|].
  apply (Forall_grouped _ (f :: l')); [|done].
  eapply Forall_impl; [exact Hl|]. by intros f0 [_ Hk].
Qed.

Lemma group_and_report_nil (report : list finding -> option string) :
  group_and_report report [] = inr None.
Proof. done. Qed.

Lemma critical_high_of_table (by_severity : gmap string (list finding)) (l : list finding) :
  (forall s, s ∈ SEVERITIES ->
             default [] (by_severity !! s) = List.filter (has_severity s) l) ->
  (0 <? count_of by_severity "CRITICAL" + count_of by_severity "HIGH")
  = existsb critical_or_high l.
Proof.
  intros Hlists. unfold count_of.
  rewrite (Hlists "CRITICAL"), (Hlists "HIGH") by in_severities.
  apply critical_high_count.
Qed.

Lemma secrets_main_status (w : world) :
  let project_root := argv1 w (getcwd w) in
  open_w w (path_join project_root "owasp_m1_secrets_scan.json") = None ->
  value_of (Secrets.main w)
  = Exit (if 0 <? total_findings (value_of (Secrets.scan_project w project_root))
          then 1 else 0).
Proof.
  intros project_root Hopen. unfold Secrets.main. fold project_root.
  rewrite value_of_bind.
  rewrite report_each_None
    by (apply reportable_keys, secrets_project_reportable).
  by rewrite Hopen.
Qed.

Lemma storage_main_status (w : world) :
  let project_root := argv1 w "." in
  open_w w (path_join project_root "owasp_m9_storage_scan.json") = None ->
  value_of (Storage.main w)
  = Exit (if 0 <? total_findings (value_of (Storage.scan_project w project_root))
          then 1 else 0).
Proof.
  intros project_root Hopen. unfold Storage.main. fold project_root.
  rewrite value_of_bind.
  pose proof (storage_reportable w project_root) as Hr.
  destruct (findings (value_of (Storage.scan_project w project_root))) as [|f l] eqn:E.
  - rewrite group_and_report_nil. by rewrite Hopen.
  - destruct (group_and_report_each _ (f :: l) Hr) as (b & -> & _); [done|].
    by rewrite Hopen.
Qed.

Lemma network_main_status (w : world) :
  let project_root := argv1 w "." in
  let results := value_of (Network.scan_project w project_root) in
  open_w w (path_join project_root "owasp_m5_network_scan.json") = None ->
  findings results <> [] ->
  value_of (Network.main w)
  = Exit (if existsb critical_or_high (findings results) then 1 else 0).
Proof.
  intros project_root results Hopen Hne. unfold Network.main. fold project_root.
  rewrite value_of_bind. fold results.
  destruct (group_and_report_each _ (findings results)
              (network_reportable w project_root) Hne) as (b & -> & Hlists).
  rewrite Hopen. cbn [value_of io_ret fst].
  by rewrite (critical_high_of_table b (findings results)).
Qed.

Lemma dependencies_main_status (w : world) (content : string) (p : pubspec)
    (all_findings : list finding) :
  let project_root := argv1 w "." in
  fs w (path_join project_root "pubspec.yaml") = Text content ->
  yaml_safe_load w content = inr (YDict p) ->
  value_of (Dependencies.collect w project_root p) = inr all_findings ->
  all_findings <> [] ->
  open_w w (path_join project_root "owasp_m2_dependencies_scan.json") = None ->
  value_of (Dependencies.main w)
  = Exit (if existsb critical_or_high all_findings then 1 else 0).
Proof.
  intros project_root Hfs Hyaml Hcollect Hne Hopen.
  unfold Dependencies.main. fold project_root. rewrite value_of_bind.
  unfold Dependencies.load_pubspec, exists_, read_text. rewrite Hfs, Hyaml.
  cbn [negb value_of io_ret fst]. rewrite value_of_bind, Hcollect.
  cbn [value_of io_ret fst]. unfold Dependencies.report_and_exit.
  pose proof (dependencies_reportable w project_root p) as Hr.
  rewrite Hcollect in Hr. cbn [all_found] in Hr.
  destruct (group_and_report_all all_findings Hr Hne) as (b & -> & Hlists).
  rewrite Hopen. by rewrite (critical_high_of_table b all_findings).
Qed.

Lemma dependencies_main_no_pubspec (w : world) :
  fs w (path_join (argv1 w ".") "pubspec.yaml") = Missing ->
  value_of (Dependencies.main w) = Exit 1.
Proof.
  intros Hfs. unfold Dependencies.main. rewrite value_of_bind.
  unfold Dependencies.load_pubspec, exists_. by rewrite Hfs.
Qed.

Lemma secrets_scan_no_files (w : world) (project_root : string) :
  no_files w ->
  value_of (Secrets.scan_project w project_root)
  = {| total_files_scanned := 0; total_findings := 0; findings := [] |}.
Proof.
  intros [_ Hglob]. unfold Secrets.scan_project, Secrets.files_to_scan.
  by rewrite !Hglob.
Qed.

Lemma storage_scan_no_files (w : world) (project_root : string) :
  no_files w ->
  value_of (Storage.scan_project w project_root)
  = {| total_files_scanned := 0; total_findings := 0; findings := [] |}.
Proof.
  intros [Hfs Hglob]. unfold Storage.scan_project. rewrite Hglob.
  rewrite !value_of_bind. cbn [extend_each value_of io_ret fst].
  rewrite scan_backup_configuration_missing by apply Hfs. done.
Qed.

Lemma network_scan_no_files (w : world) (project_root : string) :
  no_files w ->
  value_of (Network.scan_project w project_root)
  = {| total_files_scanned := 0; total_findings := 1;
       findings := [Network.config_not_found] |}.
Proof.
  intros [Hfs Hglob]. unfold Network.scan_project. rewrite Hglob.
  rewrite !value_of_bind. cbn [extend_each value_of io_ret fst].
  unfold Network.check_android_network_security, Network.check_ios_ats_configuration,
    exists_.
  by rewrite !Hfs.
Qed.

End ExitStatus.

(** C1, as stated, fails: a project with no file at all gets one finding
    from the network scanner, for the absent network security
    configuration, so its total is 1 and not 0. *)
Lemma empty_project_network_scan_reports_one_finding :
  no_files empty_project
  /\ value_of (Network.scan_project empty_project "app")
     = {| total_files_scanned := 0; total_findings := 1;
          findings := [Network.config_not_found] |}
  /\ value_of (Network.main empty_project) = Exit 0.
Proof. split; [by split|]. split; reflexivity. Qed.

(** C1, amended.  With the report file writable: the secrets and storage
    scanners exit with status 0 when the scan has no finding and 1
    otherwise; the network and dependency scanners, when the scan has at
    least one finding, exit with status 1 when a finding is CRITICAL or HIGH
    and 0 otherwise; the dependency scanner exits with status 1 when
    pubspec.yaml is missing.  For a project with no file at all, the
    secrets and storage scans count 0 files and 0 findings and exit with
    status 0, and the network scan counts 0 files and 1 finding, of severity
    MEDIUM, and exits with status 0. *)
Theorem exit_status_policy (w : world) :
  let secrets_root := argv1 w (getcwd w) in
  let root := argv1 w "." in
  let secrets := value_of (Secrets.scan_project w secrets_root) in
  let storage := value_of (Storage.scan_project w root) in
  let network := value_of (Network.scan_project w root) in
  (open_w w (path_join secrets_root "owasp_m1_secrets_scan.json") = None ->
   value_of (Secrets.main w) = Exit (if 0 <? total_findings secrets then 1 else 0)
   /\ (no_files w ->
       total_files_scanned secrets = 0 /\ total_findings secrets = 0
       /\ exit_status (value_of (Secrets.main w)) = 0))
  /\ (open_w w (path_join root "owasp_m9_storage_scan.json") = None ->
      value_of (Storage.main w) = Exit (if 0 <? total_findings storage then 1 else 0)
      /\ (no_files w ->
          total_files_scanned storage = 0 /\ total_findings storage = 0
          /\ exit_status (value_of (Storage.main w)) = 0))
  /\ (open_w w (path_join root "owasp_m5_network_scan.json") = None ->
      (findings network <> [] ->
       value_of (Network.main w)
       = Exit (if existsb critical_or_high (findings network) then 1 else 0))
      /\ (no_files w ->
          total_files_scanned network = 0 /\ total_findings network = 1
          /\ Forall (severity_is "MEDIUM") (findings network)
          /\ exit_status (value_of (Network.main w)) = 0))
  /\ (open_w w (path_join root "owasp_m2_dependencies_scan.json") = None ->
      forall content p all_findings,
        fs w (path_join root "pubspec.yaml") = Text content ->
        yaml_safe_load w content = inr (YDict p) ->
        value_of (Dependencies.collect w root p) = inr all_findings ->
        all_findings <> [] ->
        value_of (Dependencies.main w)
        = Exit (if existsb critical_or_high all_findings then 1 else 0))
  /\ (fs w (path_join root "pubspec.yaml") = Missing ->
      exit_status (value_of (Dependencies.main w)) = 1).
Proof.
  intros secrets_root root secrets storage network.
  split; [|split; [|split; [|split]]].
  - intros Hopen. pose proof (secrets_main_status w Hopen) as Hmain.
    split; [exact Hmain|]. intros Hno. rewrite Hmain. subst secrets secrets_root.
    by rewrite (secrets_scan_no_files w _ Hno).
  - intros Hopen. pose proof (storage_main_status w Hopen) as Hmain.
    split; [exact Hmain|]. intros Hno. rewrite Hmain. subst storage root.
    by rewrite (storage_scan_no_files w _ Hno).
  - intros Hopen. split; [by apply network_main_status|].
    intros Hno. subst network root.
    assert (Hne : findings (value_of (Network.scan_project w (argv1 w "."))) <> [])
      by (by rewrite (network_scan_no_files w _ Hno)).
    rewrite (network_main_status w Hopen Hne).
    rewrite (network_scan_no_files w _ Hno).
    repeat split. by repeat constructor.
  - intros Hopen content p all_findings Hfs Hyaml Hcollect Hne.
    by apply (dependencies_main_status w content p).
  - intros Hfs. by rewrite dependencies_main_no_pubspec.
Qed.

Lemma exit_status_policy_witness :
  value_of (Secrets.main empty_project) = Exit 0
  /\ value_of (Storage.main empty_project) = Exit 0
  /\ total_findings (value_of (Network.scan_project empty_project "app")) = 1
  /\ exit_status (value_of (Network.main empty_project)) = 0
  /\ exit_status (value_of (Dependencies.main empty_project)) = 1.
Proof.
  destruct (exit_status_policy empty_project) as (Hs & Hst & Hn & _ & Hd).
  destruct (Hs eq_refl) as [Hs1 _].
  destruct (Hst eq_refl) as [Hst1 _].
  destruct (Hn eq_refl) as [_ Hn2].
  destruct (Hn2 (conj (fun _ => eq_refl) (fun _ _ => eq_refl))) as (_ & Hn3 & _ & Hn4).
  split; [exact Hs1|]. split; [exact Hst1|]. split; [exact Hn3|].
  split; [exact Hn4 | exact (Hd eq_refl)].
Defined.

(* ===================================================================== *)
(** ** The captured value is never None *)
(* ===================================================================== *)

Section Captures.
Import Re.

Variable fl : flags.

Lemma star_loop_keeps_group {R}
    (body : string -> option string -> (string -> option string -> option R) -> option R)
    (k : string -> option string -> option R) :
  (forall s g c x, body s g c = Some x ->
     exists s1 g1, c s1 g1 = Some x /\ (is_Some g -> is_Some g1)) ->
  forall n s g x,
    star_loop body k n s g = Some x ->
    exists s' g', k s' g' = Some x /\ (is_Some g -> is_Some g').
Proof.
  intros Hbody n. induction n as [|n IH]; intros s g x H; simpl in H.
  - by exists s, g.
  - destruct (body s g _) as [y|] eqn:E.
    + injection H as ->. apply Hbody in E as (s1 & g1 & E & Hg).
      destruct (String.length s1 <? String.length s); [|done].
      apply IH in E as (s' & g' & E & Hg'). exists s', g'. split; [done|].
      intros Hs. by apply Hg', Hg.
    + by exists s, g.
Qed.

Lemma mt_captures (r : regex) :
  forall R (s : string) (g : option string)
         (k : string -> option string -> option R) (x : R),
    mt fl r s g k = Some x ->
    exists s' g',
      k s' g' = Some x /\ (is_Some g \/ captures r = true -> is_Some g').
Proof.
  induction r as [c|neg items| | |r1 IH1 r2 IH2|r1 IH1 r2 IH2|r1 IH1|r1 IH1|r1 IH1];
    intros R s g k x H; simpl in H.
  - destruct s as [|a s]; [done|]. destruct (char_match fl c a); [|done].
    exists s, g. split; [done|]. by intros [?|?].
  - destruct s as [|a s]; [done|]. destruct (set_match fl neg items a); [|done].
    exists s, g. split; [done|]. by intros [?|?].
  - destruct s as [|a s]; [done|]. destruct (dot_match fl a); [|done].
    exists s, g. split; [done|]. by intros [?|?].
  - exists s, g. split; [done|]. by intros [?|?].
  - apply IH1 in H as (s1 & g1 & H & Hg1). apply IH2 in H as (s2 & g2 & H & Hg2).
    exists s2, g2. split; [done|]. simpl. intros [Hg | Hc].
    + apply Hg2. left. apply Hg1. by left.
    + apply orb_true_iff in Hc as [Hc | Hc].
      * apply Hg2. left. apply Hg1. by right.
      * apply Hg2. by right.
  - destruct (mt fl r1 s g k) as [y|] eqn:E.
    + injection H as ->. apply IH1 in E as (s' & g' & E & Hg).
      exists s', g'. split; [done|]. simpl. intros [Hs | Hc]; apply Hg; [by left|].
      apply andb_true_iff in Hc as [Hc _]. by right.
    + apply IH2 in H as (s' & g' & H & Hg).
      exists s', g'. split; [done|]. simpl. intros [Hs | Hc]; apply Hg; [by left|].
      apply andb_true_iff in Hc as [_ Hc]. by right.
  - apply star_loop_keeps_group in H as (s' & g' & H & Hg).
    + exists s', g'. split; [done|]. by intros [?|?]; [apply Hg|].
    + intros s0 g0 c x0 H0. apply IH1 in H0 as (s1 & g1 & H0 & Hg1).
      exists s1, g1. split; [done|]. intros Hs. apply Hg1. by left.
  - apply IH1 in H as (s1 & g1 & H & _). eexists _, _. split; [exact H|].
    intros _. by eexists.
  - destruct (mt fl r1 s g (fun _ _ => Some tt)); [done|].
    exists s, g. split; [done|]. by intros [?|?].
Qed.

Lemma match_at_complete (r : regex) (pos : nat) (s : string) (m : rmatch) :
  match_at fl r pos s = Some m -> complete_match r m.
Proof.
  unfold match_at. intros H. apply mt_captures in H as (s' & g' & [= <-] & Hg).
  split; [done|]. simpl. intros Hc. apply Hg. by right.
Qed.

Lemma search_from_complete (r : regex) (s : string) :
  forall pos m, search_from fl r pos s = Some m -> complete_match r m.
Proof.
  induction s as [|a s IH]; intros pos m H; simpl in H.
  - destruct (match_at fl r pos EmptyString) as [m'|] eqn:E; [|done].
    injection H as ->. by apply match_at_complete in E.
  - destruct (match_at fl r pos (String a s)) as [m'|] eqn:E.
    + injection H as ->. by apply match_at_complete in E.
    + by apply IH in H.
Qed.

Lemma finditer_from_complete (r : regex) (fuel : nat) :
  forall pos s, Forall (complete_match r) (finditer_from fuel fl r pos s).
Proof.
  induction fuel as [|fuel IH]; intros pos s; simpl; [by constructor|].
  destruct (search_from fl r pos s) as [m|] eqn:E; [|by constructor].
  constructor; [by apply search_from_complete in E|].
  destruct (m_group0 m); destruct (m_rest m); first [by constructor | apply IH].
Qed.

End Captures.

(** Every secret pattern with a group always captures. *)
Lemma secret_patterns_capture :
  forallb (fun p => (Re.ngroups (fst p) =? 0) || captures (fst p)) Secrets.SECRET_PATTERNS
  = true.
Proof. vm_compute. reflexivity. Qed.

(** [value] is never None in [scan_file]: the last branch of [scan_match]
    is not taken for a match of a configured pattern. *)
Lemma captured_value (pattern : Re.regex) (secret_type line : string) (m : Re.rmatch) :
  (pattern, secret_type) ∈ Secrets.SECRET_PATTERNS ->
  m ∈ Re.finditer pattern line Re.ignorecase ->
  is_Some (Secrets.match_value m).
Proof.
  intros Hp Hm.
  pose proof (finditer_from_complete Re.ignorecase pattern
                (S (String.length line)) 0 line) as Hall.
  rewrite Forall_forall in Hall. destruct (Hall m Hm) as [Hn Hc].
  unfold Secrets.match_value. rewrite Hn.
  pose proof secret_patterns_capture as Hcap.
  rewrite forallb_forall in Hcap.
  specialize (Hcap (pattern, secret_type)). simpl in Hcap.
  destruct (0 <? Re.ngroups pattern) eqn:E; [|by eexists].
  apply Hc. apply list_elem_of_In in Hp. specialize (Hcap Hp).
  apply orb_true_iff in Hcap as [Hz | Hcap]; [|done].
  apply Nat.eqb_eq in Hz. rewrite Hz in E. discriminate E.
Qed.

(** The slip in the two reporters that exit on CRITICAL and HIGH: with no
    finding at all the table is never bound, the last statement of [main]
    raises, and the process ends with status 1. *)
Example clean_scan_exits_with_status_1 :
  findings (value_of (Network.scan_project clean_project "app")) = []
  /\ value_of (Network.main clean_project) = Uncaught "UnboundLocalError: by_severity"
  /\ exit_status (value_of (Network.main clean_project)) = 1
  /\ value_of (Dependencies.collect clean_project "app"
                 {| dependencies := NoKey; dev_dependencies := NoKey |}) = inr []
  /\ value_of (Dependencies.main clean_project) = Uncaught "UnboundLocalError: by_severity"
  /\ exit_status (value_of (Dependencies.main clean_project)) = 1.
Proof. repeat split; vm_compute; reflexivity. Qed.


(* ===================================================================== *)
(** * Further properties *)
(* ===================================================================== *)

(** ** Where a secrets finding points *)

Lemma enumerate_lookup {A} (l : list A) :
  forall (start n : nat) (x : A),
    (n, x) ∈ Py.enumerate start l <-> start <= n /\ l !! (n - start) = Some x.
Proof.
  induction l as [|y l IH]; intros start n x; simpl.
  - split; [intros H; by apply elem_of_nil in H | by intros [_ ?]].
  - rewrite elem_of_cons, IH. split.
    + intros [[= -> ->] | [Hle Hl]].
      * split; [lia|]. by rewrite Nat.sub_diag.
      * split; [lia|]. by replace (n - start) with (S (n - S start)) by lia.
    + intros [Hle Hl]. destruct (n - start) as [|i] eqn:E.
      * left. injection Hl as ->. f_equal. lia.
      * right. split; [lia|]. by replace (n - S start) with i by lia.
Qed.

(** X1.  Every finding of the secrets scan of a file is the dict built for
    one line of the file that is not a comment: its line number is between
    1 and the number of lines, its pattern field is that line trimmed, its
    type is the label of a configured pattern, and its severity is HIGH. *)
Theorem secrets_finding_points_at_its_line (file_path content : string) (f : finding) :
  f ∈ Secrets.scan_content file_path content ->
  exists (n : nat) (line secret_type : string),
    f = secret_finding file_path n line secret_type
    /\ 1 <= n <= length (Py.split Py.nl_char content)
    /\ Py.split Py.nl_char content !! (n - 1) = Some line
    /\ Secrets.is_comment line = false
    /\ secret_type ∈ map snd Secrets.SECRET_PATTERNS.
Proof.
  unfold Secrets.scan_content. intros Hf.
  apply elem_of_flat_map in Hf as ([n line] & Hnl & Hf).
  apply enumerate_lookup in Hnl as [Hle Hl].
  unfold Secrets.scan_line in Hf.
  destruct (Secrets.is_comment line) eqn:Hc; [by apply elem_of_nil in Hf|].
  apply elem_of_flat_map in Hf as ([pattern secret_type] & Hp & Hf).
  apply elem_of_flat_map in Hf as (m & _ & Hf).
  unfold Secrets.scan_match in Hf.
  destruct (Secrets.match_value m) as [value|]; [|by apply elem_of_nil in Hf].
  destruct (Secrets.is_false_positive value); [by apply elem_of_nil in Hf|].
  apply list_elem_of_singleton in Hf.
  exists n, line, secret_type. split; [done|]. split.
  - apply lookup_lt_Some in Hl. lia.
  - split; [done|]. split; [done|].
    apply list_elem_of_fmap. by exists (pattern, secret_type).
Qed.

Lemma secrets_finding_points_at_its_line_witness :
  exists (n : nat) (line secret_type : string),
    secret_finding "lib/a.dart" 3 "  final password = 'hunter2hunter2';  " "Password"
    = secret_finding "lib/a.dart" n line secret_type
    /\ 1 <= n <= length (Py.split Py.nl_char password_file)
    /\ Py.split Py.nl_char password_file !! (n - 1) = Some line
    /\ Secrets.is_comment line = false
    /\ secret_type ∈ map snd Secrets.SECRET_PATTERNS.
Proof.
  apply (secrets_finding_points_at_its_line "lib/a.dart" password_file).
  vm_compute. apply list_elem_of_here.
Defined.

(** ** A secret has to be quoted *)

Lemma in_all_ascii (a : ascii) : In a all_ascii.
Proof.
  unfold all_ascii. apply in_map_iff. exists (nat_of_ascii a). split.
  - apply ascii_nat_embedding.
  - apply in_seq. pose proof (nat_ascii_bounded a). lia.
Qed.

Lemma forallb_all_ascii (q : ascii -> bool) (a : ascii) :
  forallb q all_ascii = true -> q a = true.
Proof. intros H. rewrite forallb_forall in H. apply H, in_all_ascii. Qed.

Lemma contains_char (c : ascii) (s : string) :
  Py.contains (String c EmptyString) s = has_char (Ascii.eqb c) s.
Proof.
  induction s as [|a s IH]; [done|].
  cbn [Py.contains has_char Py.startswith]. rewrite IH.
  destruct (Ascii.eqb c a); [by destruct s | done].
Qed.

Lemma has_char_ext (p q : ascii -> bool) (s : string) :
  (forall a, p a = q a) -> has_char p s = has_char q s.
Proof.
  intros H. induction s as [|a s IH]; [done|]. cbn [has_char]. by rewrite H, IH.
Qed.

Lemma has_char_or (p q : ascii -> bool) (s : string) :
  has_char (fun a => p a || q a) s = has_char p s || has_char q s.
Proof.
  induction s as [|a s IH]; [done|]. cbn [has_char]. rewrite IH.
  destruct (p a), (q a), (has_char p s), (has_char q s); done.
Qed.

Lemma has_quote (s : string) :
  has_char is_quote s
  = Py.contains Py.dq s || Py.contains "'" s.
Proof.
  unfold Py.dq. rewrite !contains_char, <- has_char_or.
  apply has_char_ext. intros a. unfold is_quote.
  by rewrite (Ascii.eqb_sym a Py.dq_char), (Ascii.eqb_sym a Py.sq_char).
Qed.

Lemma has_dash (s : string) : has_char is_dash s = Py.contains "-" s.
Proof.
  rewrite contains_char. apply has_char_ext. intros a. apply Ascii.eqb_sym.
Qed.

Section Needs.
Import Re.

Variable fl : flags.
Variable p : ascii -> bool.

(** What a match hands on is a part of what it was given, and a pattern
    that needs a character found one. *)
Definition consumed {R} (r : regex) (s : string)
    (k : string -> option string -> option R) (x : R) : Prop :=
  exists s' g',
    k s' g' = Some x
    /\ (has_char p s' = true -> has_char p s = true)
    /\ (needs fl p r = true -> has_char p s = true).

Lemma star_loop_consumed {R}
    (body : string -> option string -> (string -> option string -> option R) -> option R)
    (k : string -> option string -> option R) :
  (forall s g c x, body s g c = Some x ->
     exists s1 g1, c s1 g1 = Some x /\ (has_char p s1 = true -> has_char p s = true)) ->
  forall n s g x,
    star_loop body k n s g = Some x ->
    exists s' g', k s' g' = Some x /\ (has_char p s' = true -> has_char p s = true).
Proof.
  intros Hbody n. induction n as [|n IH]; intros s g x H; simpl in H.
  - by exists s, g.
  - destruct (body s g _) as [y|] eqn:E.
    + injection H as ->. apply Hbody in E as (s1 & g1 & E & Hs1).
      destruct (String.length s1 <? String.length s); [|done].
      apply IH in E as (s' & g' & E & Hs'). exists s', g'. split; [done|].
      intros Hp. by apply Hs1, Hs'.
    + by exists s, g.
Qed.

Lemma mt_consumed (r : regex) :
  forall R (s : string) (g : option string)
         (k : string -> option string -> option R) (x : R),
    mt fl r s g k = Some x -> consumed r s k x.
Proof.
  unfold consumed.
  induction r as [c|neg items| | |r1 IH1 r2 IH2|r1 IH1 r2 IH2|r1 IH1|r1 IH1|r1 IH1];
    intros R s g k x H; simpl in H.
  - destruct s as [|a s]; [done|]. destruct (char_match fl c a) eqn:E; [|done].
    exists s, g. split; [done|]. split.
    + intros Hp. simpl. by rewrite Hp, orb_true_r.
    + cbn [needs]. intros Hn. apply (forallb_all_ascii _ a) in Hn.
      cbv beta in Hn. rewrite E in Hn. cbn [implb] in Hn. cbn [has_char]. by rewrite Hn.
  - destruct s as [|a s]; [done|]. destruct (set_match fl neg items a) eqn:E; [|done].
    exists s, g. split; [done|]. split.
    + intros Hp. simpl. by rewrite Hp, orb_true_r.
    + cbn [needs]. intros Hn. apply (forallb_all_ascii _ a) in Hn.
      cbv beta in Hn. rewrite E in Hn. cbn [implb] in Hn. cbn [has_char]. by rewrite Hn.
  - destruct s as [|a s]; [done|]. destruct (dot_match fl a); [|done].
    exists s, g. split; [done|]. split; [|done].
    intros Hp. simpl. by rewrite Hp, orb_true_r.
  - exists s, g. by repeat split.
  - apply IH1 in H as (s1 & g1 & H & Hs1 & Hn1).
    apply IH2 in H as (s2 & g2 & H & Hs2 & Hn2).
    exists s2, g2. split; [done|]. split.
    + intros Hp. by apply Hs1, Hs2.
    + cbn [needs]. intros [Hn | Hn]%orb_true_iff; [by apply Hn1 | by apply Hs1, Hn2].
  - destruct (mt fl r1 s g k) as [y|] eqn:E.
    + injection H as ->. apply IH1 in E as (s' & g' & E & Hs & Hn).
      exists s', g'. split; [done|]. split; [done|].
      cbn [needs]. intros [Hn1 _]%andb_true_iff. by apply Hn.
    + apply IH2 in H as (s' & g' & H & Hs & Hn).
      exists s', g'. split; [done|]. split; [done|].
      cbn [needs]. intros [_ Hn2]%andb_true_iff. by apply Hn.
  - apply star_loop_consumed in H as (s' & g' & H & Hs).
    + exists s', g'. by repeat split.
    + intros s0 g0 c x0 H0. apply IH1 in H0 as (s1 & g1 & H0 & Hs1 & _).
      by exists s1, g1.
  - apply IH1 in H as (s1 & g1 & H & Hs1 & Hn1).
    eexists _, _. split; [exact H|]. by split.
  - destruct (mt fl r1 s g (fun _ _ => Some tt)); [done|].
    exists s, g. by repeat split.
Qed.

Lemma search_from_needs (r : regex) (s : string) :
  needs fl p r = true -> has_char p s = false ->
  forall pos, search_from fl r pos s = None.
Proof.
  intros Hn. induction s as [|a s IH]; intros Hp pos; simpl.
  - destruct (match_at fl r pos EmptyString) as [m|] eqn:E; [|done].
    apply mt_consumed in E as (_ & _ & _ & _ & H). specialize (H Hn). done.
  - destruct (match_at fl r pos (String a s)) as [m|] eqn:E.
    + apply mt_consumed in E as (_ & _ & _ & _ & H). specialize (H Hn). congruence.
    + apply IH. simpl in Hp. by apply orb_false_iff in Hp as [_ Hp].
Qed.

(** A pattern that needs a character has no match in a text without it. *)
Lemma finditer_needs (r : regex) (s : string) :
  needs fl p r = true -> has_char p s = false -> finditer r s fl = [].
Proof.
  intros Hn Hp. unfold finditer. cbn [finditer_from].
  by rewrite search_from_needs.
Qed.

End Needs.

(** Every secret pattern but the one for a private key block needs a
    quote, and that one needs a dash. *)
Lemma secret_patterns_need_quote :
  forallb (fun p => needs Re.ignorecase is_quote (fst p)
                    || (String.eqb (snd p) "Private Key Block"
                        && needs Re.ignorecase is_dash (fst p)))
          Secrets.SECRET_PATTERNS = true.
Proof. vm_compute. reflexivity. Qed.

(** X2.  A line without a single or double quote can only yield findings
    of type Private Key Block, and none at all when it has no dash either:
    a secret that is not written as a quoted literal on the line is never
    reported. *)
Theorem unquoted_line_has_no_secret (file_path : string) (line_num : nat) (line : string) :
  Py.contains Py.dq line = false ->
  Py.contains "'" line = false ->
  (forall f, f ∈ Secrets.scan_line Secrets.SECRET_PATTERNS file_path (line_num, line) ->
             f !! "type" = Some (PStr "Private Key Block"))
  /\ (Py.contains "-" line = false ->
      Secrets.scan_line Secrets.SECRET_PATTERNS file_path (line_num, line) = []).
Proof.
  intros Hdq Hsq.
  assert (Hq : has_char is_quote line = false) by (by rewrite has_quote, Hdq, Hsq).
  pose proof secret_patterns_need_quote as Hall. rewrite forallb_forall in Hall.
  split.
  - intros f Hf. unfold Secrets.scan_line in Hf.
    destruct (Secrets.is_comment line); [by apply elem_of_nil in Hf|].
    apply elem_of_flat_map in Hf as ([pattern secret_type] & Hp & Hf).
    apply list_elem_of_In in Hp. specialize (Hall _ Hp). simpl in Hall.
    apply orb_true_iff in Hall as [Hn | [Ht _]%andb_true_iff].
    + rewrite (finditer_needs _ _ _ _ Hn Hq) in Hf. by apply elem_of_nil in Hf.
    + apply String.eqb_eq in Ht. subst secret_type.
      apply elem_of_flat_map in Hf as (m & _ & Hf). unfold Secrets.scan_match in Hf.
      destruct (Secrets.match_value m) as [value|]; [|by apply elem_of_nil in Hf].
      destruct (Secrets.is_false_positive value); [by apply elem_of_nil in Hf|].
      apply list_elem_of_singleton in Hf. by subst f.
  - intros Hdash. rewrite <- has_dash in Hdash.
    unfold Secrets.scan_line. destruct (Secrets.is_comment line); [done|].
    apply elem_of_nil_inv. intros f Hf.
    apply elem_of_flat_map in Hf as ([pattern secret_type] & Hp & Hf).
    apply list_elem_of_In in Hp. specialize (Hall _ Hp). simpl in Hall.
    apply orb_true_iff in Hall as [Hn | [_ Hn]%andb_true_iff].
    + rewrite (finditer_needs _ _ _ _ Hn Hq) in Hf. by apply elem_of_nil in Hf.
    + rewrite (finditer_needs _ _ _ _ Hn Hdash) in Hf. by apply elem_of_nil in Hf.
Qed.

Lemma unquoted_line_has_no_secret_witness :
  Secrets.scan_line Secrets.SECRET_PATTERNS "lib/a.dart" (4, unquoted_line) = [].
Proof.
  destruct (unquoted_line_has_no_secret "lib/a.dart" 4 unquoted_line eq_refl eq_refl)
    as [_ H].
  exact (H eq_refl).
Defined.

(** ** The order of the walk *)

Section Walk.

Variable w : world.
Variable project_root : string.

Lemma secrets_scan_project_eq :
  value_of (Secrets.scan_project w project_root)
  = let files := Secrets.files_to_scan w project_root in
    let all_findings := flat_map (fun p => value_of (Secrets.scan_file w p)) files in
    {| total_files_scanned := length files;
       total_findings := length all_findings;
       findings := all_findings |}.
Proof.
  unfold Secrets.scan_project, Secrets.scan_files.
  rewrite !value_of_bind. cbn [value_of io_ret fst]. by rewrite value_of_extend_each.
Qed.

Lemma storage_scan_project_eq :
  value_of (Storage.scan_project w project_root)
  = let files := glob w project_root "lib/**/*.dart" in
    let all_findings :=
      flat_map (fun p => value_of (Storage.scan_dart_file w p)) files
      ++ value_of (Storage.scan_backup_configuration w project_root) in
    {| total_files_scanned := length files;
       total_findings := length all_findings;
       findings := all_findings |}.
Proof.
  unfold Storage.scan_project.
  rewrite !value_of_bind. cbn [value_of io_ret fst]. by rewrite value_of_extend_each.
Qed.

Lemma network_scan_project_eq :
  value_of (Network.scan_project w project_root)
  = let files := glob w project_root "lib/**/*.dart" in
    let all_findings :=
      flat_map (fun p => value_of (Network.scan_dart_file w p)) files
      ++ value_of (Network.check_android_network_security w project_root)
      ++ value_of (Network.check_ios_ats_configuration w project_root) in
    {| total_files_scanned := length files;
       total_findings := length all_findings;
       findings := all_findings |}.
Proof.
  unfold Network.scan_project.
  rewrite !value_of_bind. cbn [value_of io_ret fst]. by rewrite value_of_extend_each.
Qed.

End Walk.

(** X3.  The order in which [glob] lists the files only decides the order
    of the findings: when each glob of a project lists the same files in
    another order, the three project scans count the same number of files
    and of findings, and their findings are the same up to order. *)
Theorem walk_order_only_orders_findings
    (w : world) (g : string -> string -> list string) (project_root : string) :
  (forall pattern, g project_root pattern ≡ₚ glob w project_root pattern) ->
  same_up_to_order (value_of (Secrets.scan_project (with_glob w g) project_root))
                   (value_of (Secrets.scan_project w project_root))
  /\ same_up_to_order (value_of (Storage.scan_project (with_glob w g) project_root))
                      (value_of (Storage.scan_project w project_root))
  /\ same_up_to_order (value_of (Network.scan_project (with_glob w g) project_root))
                      (value_of (Network.scan_project w project_root)).
Proof.
  intros Hg. unfold same_up_to_order.
  rewrite !secrets_scan_project_eq, !storage_scan_project_eq, !network_scan_project_eq.
  cbn [total_files_scanned total_findings findings].
  assert (Hsecrets : Secrets.files_to_scan (with_glob w g) project_root
                     ≡ₚ Secrets.files_to_scan w project_root).
  { unfold Secrets.files_to_scan. cbn [glob with_glob].
    repeat apply Permutation_app; apply Hg. }
  assert (Hf1 : flat_map (fun p => value_of (Secrets.scan_file (with_glob w g) p))
                         (Secrets.files_to_scan (with_glob w g) project_root)
                ≡ₚ flat_map (fun p => value_of (Secrets.scan_file w p))
                            (Secrets.files_to_scan w project_root)).
  { change (fun p => value_of (Secrets.scan_file (with_glob w g) p))
      with (fun p => value_of (Secrets.scan_file w p)).
    by apply Permutation_flat_map. }
  assert (Hf2 : flat_map (fun p => value_of (Storage.scan_dart_file (with_glob w g) p))
                         (glob (with_glob w g) project_root "lib/**/*.dart")
                ≡ₚ flat_map (fun p => value_of (Storage.scan_dart_file w p))
                            (glob w project_root "lib/**/*.dart")).
  { change (fun p => value_of (Storage.scan_dart_file (with_glob w g) p))
      with (fun p => value_of (Storage.scan_dart_file w p)).
    apply Permutation_flat_map. apply Hg. }
  assert (Hf3 : flat_map (fun p => value_of (Network.scan_dart_file (with_glob w g) p))
                         (glob (with_glob w g) project_root "lib/**/*.dart")
                ≡ₚ flat_map (fun p => value_of (Network.scan_dart_file w p))
                            (glob w project_root "lib/**/*.dart")).
  { change (fun p => value_of (Network.scan_dart_file (with_glob w g) p))
      with (fun p => value_of (Network.scan_dart_file w p)).
    apply Permutation_flat_map. apply Hg. }
  change (Storage.scan_backup_configuration (with_glob w g) project_root)
    with (Storage.scan_backup_configuration w project_root).
  change (Network.check_android_network_security (with_glob w g) project_root)
    with (Network.check_android_network_security w project_root).
  change (Network.check_ios_ats_configuration (with_glob w g) project_root)
    with (Network.check_ios_ats_configuration w project_root).
  repeat split.
  - by apply Permutation_length.
  - by apply Permutation_length.
  - done.
  - apply Permutation_length, Hg.
  - apply Permutation_length. by apply Permutation_app.
  - by apply Permutation_app.
  - apply Permutation_length, Hg.
  - apply Permutation_length. by apply Permutation_app.
  - by apply Permutation_app.
Qed.

Lemma walk_order_only_orders_findings_witness :
  same_up_to_order
    (value_of (Secrets.scan_project
                 (with_glob project_with_locked_file
                    (fun root pattern => reverse (glob project_with_locked_file root pattern)))
                 "app"))
    (value_of (Secrets.scan_project project_with_locked_file "app")).
Proof.
  apply (walk_order_only_orders_findings project_with_locked_file
           (fun root pattern => reverse (glob project_with_locked_file root pattern)) "app").
  intros pattern. apply reverse_Permutation.
Defined.

(** ** The context window of the file storage scan *)

Lemma lower_app (a b : string) : Py.lower (a +:+ b) = Py.lower a +:+ Py.lower b.
Proof. induction a as [|c a IH]; [done|]. simpl. by rewrite IH. Qed.

Lemma startswith_app (sub a b : string) :
  Py.startswith sub a = true -> Py.startswith sub (a +:+ b) = true.
Proof.
  revert a. induction sub as [|c sub IH]; intros a H; [by destruct a|].
  destruct a as [|d a]; [done|]. simpl in *.
  destruct (Ascii.eqb c d); [by apply IH | done].
Qed.

Lemma contains_cons (sub : string) (c : ascii) (s : string) :
  Py.contains sub (String c s) = Py.startswith sub (String c s) || Py.contains sub s.
Proof. done. Qed.

Lemma contains_app_l (sub a b : string) :
  Py.contains sub a = true -> Py.contains sub (a +:+ b) = true.
Proof.
  induction a as [|c a IH]; intros H.
  - destruct sub; [by destruct b | done].
  - change (String c a +:+ b) with (String c (a +:+ b)).
    rewrite contains_cons in *. apply orb_true_iff in H as [H | H].
    + apply (startswith_app _ _ b) in H.
      change (String c a +:+ b) with (String c (a +:+ b)) in H. by rewrite H.
    + by rewrite IH, orb_true_r.
Qed.

Lemma contains_app_r (sub a b : string) :
  Py.contains sub b = true -> Py.contains sub (a +:+ b) = true.
Proof.
  intros H. induction a as [|c a IH]; [done|].
  change (String c a +:+ b) with (String c (a +:+ b)).
  by rewrite contains_cons, IH, orb_true_r.
Qed.

(** A word found in one of the joined texts is found in the join. *)
Lemma contains_lower_join (sub sep x : string) (l : list string) :
  x ∈ l -> Py.contains sub (Py.lower x) = true ->
  Py.contains sub (Py.lower (Py.join sep l)) = true.
Proof.
  intros Hin Hx. induction l as [|y l IH]; [by apply elem_of_nil in Hin|].
  apply elem_of_cons in Hin as [-> | Hin].
  - destruct l as [|z l]; [done|]. cbn [Py.join].
    rewrite lower_app. by apply contains_app_l.
  - destruct l as [|z l]; [by apply elem_of_nil in Hin|].
    change (Py.join sep (y :: z :: l)) with (y +:+ sep +:+ Py.join sep (z :: l)).
    rewrite !lower_app. apply contains_app_r, contains_app_r. by apply IH.
Qed.

Lemma elem_of_slice {A} (l : list A) (a b j : nat) (x : A) :
  l !! j = Some x -> a <= j < b -> x ∈ Py.slice a b l.
Proof.
  intros Hl Hj. unfold Py.slice. apply (list_elem_of_lookup_2 _ (j - a)).
  rewrite lookup_take_lt by lia. rewrite lookup_drop.
  by replace (a + (j - a)) with j by lia.
Qed.

(** A finding of the file storage line loop carries the number of its line. *)
Lemma file_storage_line_number (patterns : list (Re.regex * string)) (lines : list string)
    (file_path : string) (n : nat) (line : string) (f : finding) :
  f ∈ Storage.file_storage_line patterns lines file_path (n, line) -> line_is n f.
Proof.
  unfold Storage.file_storage_line. intros H.
  apply elem_of_flat_map in H as ([pattern issue_type] & _ & H).
  case_bool_decide; [|by apply elem_of_nil in H]. cbv zeta in H.
  destruct (negb _); [|by apply elem_of_nil in H].
  apply list_elem_of_singleton in H. by subst f.
Qed.

Lemma file_storage_line_near_encrypt (patterns : list (Re.regex * string))
    (lines : list string) (file_path : string) (n m : nat) (line other : string) :
  lines !! (m - 1) = Some other -> 1 <= m -> n <= m + 2 -> m <= n + 3 ->
  Py.contains "encrypt" (Py.lower other) = true ->
  Storage.file_storage_line patterns lines file_path (n, line) = [].
Proof.
  intros Hl Hm Hlo Hhi Hother. unfold Storage.file_storage_line.
  apply elem_of_nil_inv. intros f Hf.
  apply elem_of_flat_map in Hf as ([pattern issue_type] & _ & Hf).
  case_bool_decide; [|by apply elem_of_nil in Hf]. cbv zeta in Hf.
  rewrite (contains_lower_join "encrypt" Py.nl other) in Hf;
    [by apply elem_of_nil in Hf | | done].
  apply (elem_of_slice _ _ _ (m - 1)); [done|].
  apply lookup_lt_Some in Hl. lia.
Qed.

(** X4.  The file storage scan reports nothing on line [n] of a file when
    the word encrypt occurs, in any case, on a line [m] from two lines
    above to three lines below it, whatever the line itself says. *)
Theorem encrypt_nearby_suppresses_file_write
    (file_path content : string) (n m : nat) (other : string) :
  Py.split Py.nl_char content !! (m - 1) = Some other ->
  1 <= m -> n <= m + 2 -> m <= n + 3 ->
  Py.contains "encrypt" (Py.lower other) = true ->
  forall f, f ∈ Storage.file_storage_content file_path content -> ~ line_is n f.
Proof.
  intros Hl Hm Hlo Hhi Hother f Hf Hline. unfold Storage.file_storage_content in Hf.
  apply elem_of_flat_map in Hf as ([n' line'] & _ & Hf).
  pose proof (file_storage_line_number _ _ _ _ _ _ Hf) as Hn.
  unfold line_is in *. rewrite Hline in Hn. injection Hn as <-.
  rewrite (file_storage_line_near_encrypt _ _ _ n m line' other) in Hf by done.
  by apply elem_of_nil in Hf.
Qed.

Lemma encrypt_nearby_suppresses_file_write_witness :
  Py.split Py.nl_char write_near_encrypt_file !! (5 - 1) = Some "  // TODO: Encrypt the payload"
  /\ (forall f, f ∈ Storage.file_storage_content "lib/save.dart" write_near_encrypt_file ->
                ~ line_is 2 f).
Proof.
  split; [reflexivity|].
  apply (encrypt_nearby_suppresses_file_write "lib/save.dart" write_near_encrypt_file
           2 5 "  // TODO: Encrypt the payload").
  - reflexivity.
  - lia.
  - lia.
  - lia.
  - reflexivity.
Defined.

(** One line further down the comment is outside the window, and the write
    is reported. *)
Example encrypt_four_lines_below :
  length (Storage.file_storage_content "lib/save.dart"
            ("void save(String s) {" +:+ Py.nl
             +:+ "  File(path).writeAsString(s);" +:+ Py.nl
             +:+ "  log(s);" +:+ Py.nl +:+ "  flush();" +:+ Py.nl +:+ "  done();" +:+ Py.nl
             +:+ "  // TODO: Encrypt the payload" +:+ Py.nl +:+ "}")) = 1
  /\ Storage.file_storage_content "lib/save.dart" write_near_encrypt_file = [].
Proof. split; vm_compute; reflexivity. Qed.

(** ** What the HTTP scan reports *)

Section HttpPatterns.
Import Re.

Lemma is_Some_always {A} (x : A) : is_Some (Some x).
Proof. by eexists. Qed.

Lemma not_is_Some_None {A} : ~ is_Some (@None A).
Proof. by intros [? ?]. Qed.


Lemma startswith_contains (sub s : string) :
  Py.startswith sub s = true -> Py.contains sub s = true.
Proof. intros H. destruct s; simpl in *; by rewrite H. Qed.







End HttpPatterns.



(** The call of the local server alone is not reported, in any case of the
    letters; only the remote one is. *)
Example local_http_is_exempt :
  Network.http_line Network.http_patterns "lib/api.dart"
    (9, "  get('HTTP://LocalHost:8080/a');") = []
  /\ length (Network.http_line Network.http_patterns "lib/api.dart"
               (9, local_and_remote_line)) = 1.
Proof. split; vm_compute; reflexivity. Qed.

(** ** The iOS transport security check *)

Section Exact.
Import Re.

Variable fl : flags.
Hypothesis case_matters : IGNORECASE fl = false.

(** Without IGNORECASE a plain word matches where the text starts with it. *)
Lemma mt_lit_exact (t : string) :
  forall R (s : string) (g : option string) (k : string -> option string -> option R),
    is_Some (mt fl (lit t) s g k)
    <-> Py.startswith t s = true /\ is_Some (k (Py.drop (String.length t) s) g).
Proof.
  induction t as [|c t IH]; intros R s g k.
  - simpl. destruct s; simpl; tauto.
  - assert (Hhead : forall (k1 : string -> option string -> option R),
              is_Some (mt fl (RChar c) s g k1)
              <-> exists a s', s = String a s' /\ Ascii.eqb c a = true /\ is_Some (k1 s' g)).
    { intros k1. simpl. unfold char_match. rewrite case_matters.
      destruct s as [|a s'].
      - split; [by intros [? [=]] | by intros (? & ? & [=] & _)].
      - destruct (Ascii.eqb c a) eqn:E.
        + split; [intros H; by exists a, s' | by intros (? & ? & [= <- <-] & _ & H)].
        + split; [by intros [? [=]] |].
          intros (? & ? & [= <- <-] & E' & _). congruence. }
    destruct t as [|c' t'].
    + change (lit (String c EmptyString)) with (RChar c). rewrite Hhead. split.
      * intros (a & s' & -> & E & Hk). simpl. by rewrite E.
      * intros [Hs Hk]. destruct s as [|a s']; simpl in Hs; [done|].
        exists a, s'. split; [done|]. by destruct (Ascii.eqb c a).
    + change (lit (String c (String c' t'))) with (RSeq (RChar c) (lit (String c' t'))).
      change (mt fl (RSeq (RChar c) (lit (String c' t'))) s g k)
        with (mt fl (RChar c) s g (fun s1 g1 => mt fl (lit (String c' t')) s1 g1 k)).
      rewrite Hhead. split.
      * intros (a & s' & -> & E & Hk). apply IH in Hk as [Hs Hk].
        split; [|exact Hk]. cbn [Py.startswith]. by rewrite E.
      * intros [Hs Hk]. destruct s as [|a s']; [discriminate Hs|].
        cbn [Py.startswith] in Hs. destruct (Ascii.eqb c a) eqn:E; [|done].
        exists a, s'. split; [done|]. split; [done|]. apply IH. by split.
Qed.

Hypothesis dot_all : DOTALL fl = true.

(** A star over a body that takes any one character succeeds when the
    continuation does somewhere in the rest of the text. *)
Lemma star_any {R}
    (body : string -> option string -> (string -> option string -> option R) -> option R)
    (k : string -> option string -> option R) (g : option string) :
  (forall s g c, body s g c = match s with
                              | EmptyString => None
                              | String _ s' => c s' g
                              end) ->
  forall n s,
    String.length s <= n ->
    is_Some (star_loop body k n s g)
    <-> exists j, j <= String.length s /\ is_Some (k (Py.drop j s) g).
Proof.
  intros Hbody. induction n as [|n IH]; intros s Hn.
  - destruct s as [|a s]; [|simpl in Hn; lia]. cbn [star_loop]. split.
    + intros H. by exists 0.
    + intros (j & _ & H). by destruct j.
  - cbn [star_loop]. rewrite is_Some_or_else, Hbody. destruct s as [|a s].
    + split.
      * intros [H | H]; [by apply not_is_Some_None in H | by exists 0].
      * intros (j & _ & H). right. by destruct j.
    + assert (Hlt : (String.length s <? String.length (String a s)) = true)
        by (apply Nat.ltb_lt; simpl; lia).
      rewrite Hlt. simpl in Hn. rewrite IH by lia. split.
      * intros [(j & Hj & H) | H].
        -- exists (S j). split; [simpl; lia | done].
        -- exists 0. split; [simpl; lia | done].
      * intros ([|j] & Hj & H); [by right|].
        left. exists j. split; [simpl in Hj; lia | done].
Qed.

(** Under DOTALL, .* followed by [k] succeeds when [k] does somewhere in
    the rest of the text. *)
Lemma star_dot {R} (k : string -> option string -> option R) (g : option string)
    (s : string) :
  is_Some (mt fl (RStar RDot) s g k)
  <-> exists j, j <= String.length s /\ is_Some (k (Py.drop j s) g).
Proof.
  change (mt fl (RStar RDot) s g k) with (star_loop (mt fl RDot) k (String.length s) s g).
  apply star_any; [|done].
  intros s0 g0 c. destruct s0 as [|a s0]; [done|].
  cbn [mt]. unfold dot_match. by rewrite dot_all.
Qed.

End Exact.

Lemma contains_iff_drop (sub s : string) :
  Py.contains sub s = true
  <-> exists j, j <= String.length s /\ Py.startswith sub (Py.drop j s) = true.
Proof.
  induction s as [|a s IH].
  - cbn [Py.contains]. rewrite orb_false_r. split.
    + intros H. by exists 0.
    + intros (j & _ & H). by destruct j.
  - rewrite contains_cons, orb_true_iff, IH. split.
    + intros [H | (j & Hj & H)]; [exists 0; split; [simpl; lia | done]|].
      exists (S j). split; [simpl; lia | done].
    + intros ([|j] & Hj & H); [by left|].
      right. exists j. split; [simpl in Hj; lia | done].
Qed.

(** NSAllowsArbitraryLoads.*<true/> under DOTALL finds the key with <true/>
    anywhere after it. *)
Lemma arbitrary_loads_search (s : string) :
  forall pos,
    is_Some (Re.search_from Re.dotall Network.arbitrary_loads_pattern pos s)
    <-> contains_then "NSAllowsArbitraryLoads" "<true/>" s = true.
Proof.
  assert (Hat : forall pos s,
            is_Some (Re.match_at Re.dotall Network.arbitrary_loads_pattern pos s)
            <-> Py.startswith "NSAllowsArbitraryLoads" s = true
                /\ Py.contains "<true/>"
                     (Py.drop (String.length "NSAllowsArbitraryLoads") s) = true).
  { intros pos s0. unfold Re.match_at.
    change Network.arbitrary_loads_pattern
      with (Re.RSeq (Re.lit "NSAllowsArbitraryLoads")
                    (Re.RSeq (Re.RStar Re.RDot) (Re.lit "<true/>"))).
    change (Re.mt Re.dotall
              (Re.RSeq (Re.lit "NSAllowsArbitraryLoads")
                       (Re.RSeq (Re.RStar Re.RDot) (Re.lit "<true/>"))) s0 None ?k)
      with (Re.mt Re.dotall (Re.lit "NSAllowsArbitraryLoads") s0 None
              (fun s1 g1 =>
                 Re.mt Re.dotall (Re.RStar Re.RDot) s1 g1
                   (fun s2 g2 => Re.mt Re.dotall (Re.lit "<true/>") s2 g2 k)))
      in |- *.
    rewrite (mt_lit_exact Re.dotall eq_refl "NSAllowsArbitraryLoads").
    rewrite (star_dot Re.dotall eq_refl).
    rewrite contains_iff_drop.
    split; intros [Hs (j & Hj & H)]; (split; [done|]); exists j; (split; [done|]).
    - by apply (mt_lit_exact Re.dotall eq_refl "<true/>") in H as [H _].
    - apply (mt_lit_exact Re.dotall eq_refl "<true/>"). split; [done|].
      apply is_Some_always. }
  induction s as [|a s IH]; intros pos.
  - cbn [Re.search_from contains_then]. rewrite is_Some_or_else, Hat.
    rewrite orb_false_r, andb_true_iff.
    split; [intros [H | H]; [done | by apply not_is_Some_None in H] | by left].
  - cbn [Re.search_from contains_then]. rewrite is_Some_or_else, Hat, IH.
    rewrite orb_true_iff, andb_true_iff. tauto.
Qed.

Lemma contains_then_contains (a b s : string) :
  contains_then a b s = true -> Py.contains a s = true.
Proof.
  induction s as [|c s IH]; cbn [contains_then]; rewrite orb_true_iff.
  - intros [[H _]%andb_true_iff | H]; [by apply startswith_contains | done].
  - intros [[H _]%andb_true_iff | H]; [by apply startswith_contains|].
    by rewrite contains_cons, IH, orb_true_r.
Qed.

(** X6.  For an Info.plist that can be read, the iOS check reports App
    Transport Security disabled globally, a CRITICAL finding, exactly when
    the text has NSAllowsArbitraryLoads with <true/> anywhere after it, be it
    the value of that key or of a later one. *)
Theorem ats_disabled_iff_true_after_key (w : world) (project_root content : string) :
  fs w (path_join project_root "ios/Runner/Info.plist") = Text content ->
  (exists f, f ∈ value_of (Network.check_ios_ats_configuration w project_root)
             /\ issue_is "App Transport Security disabled globally" f
             /\ severity_is "CRITICAL" f)
  <-> contains_then "NSAllowsArbitraryLoads" "<true/>" content = true.
Proof.
  intros Hfs. unfold Network.check_ios_ats_configuration, exists_, read_text.
  rewrite Hfs. cbn [negb value_of io_ret fst]. unfold Network.ios_ats_content.
  pose proof (arbitrary_loads_search content 0) as Hsearch.
  fold (Re.search Network.arbitrary_loads_pattern content Re.dotall) in Hsearch.
  split.
  - intros (f & Hf & Hissue & _). apply elem_of_app in Hf as [Hf | Hf].
    + destruct (Py.contains "NSAllowsArbitraryLoads" content); [|by apply elem_of_nil in Hf].
      cbn [andb] in Hf. case_bool_decide as Hs; [by apply Hsearch|].
      by apply elem_of_nil in Hf.
    + destruct (Py.contains "NSAllowsLocalNetworking" content);
        [|by apply elem_of_nil in Hf].
      apply list_elem_of_singleton in Hf. subst f. discriminate Hissue.
  - intros Hthen. rewrite (contains_then_contains _ _ _ Hthen).
    rewrite bool_decide_eq_true_2 by (by apply Hsearch).
    eexists. split; [apply elem_of_app; left; apply list_elem_of_here|]. by split.
Qed.

Lemma ats_disabled_iff_true_after_key_witness :
  exists f, f ∈ value_of (Network.check_ios_ats_configuration (plist_world plist_ats_on) "app")
            /\ issue_is "App Transport Security disabled globally" f
            /\ severity_is "CRITICAL" f.
Proof.
  apply (ats_disabled_iff_true_after_key (plist_world plist_ats_on) "app" plist_ats_on eq_refl).
  reflexivity.
Defined.

(** ** What the version-constraint check reports for a package *)

Section PerPackage.
Import Dependencies.

Lemma names_check_constraint_other (package k : string) (v : version) :
  k <> package -> List.filter (names_b package) (check_constraint (k, v)) = [].
Proof.
  intros Hne. unfold check_constraint.
  repeat case_bool_decide; try done; cbn [List.filter]; unfold names_b;
    (rewrite bool_decide_eq_false_2; [done|]);
    intros Heq; vm_compute in Heq; congruence.
Qed.

Lemma names_check_constraint_self (package : string) (v : version) :
  List.filter (names_b package) (check_constraint (package, v))
  = check_constraint (package, v).
Proof.
  unfold check_constraint.
  repeat case_bool_decide; try done; cbn [List.filter]; unfold names_b;
    by rewrite bool_decide_eq_true_2.
Qed.

(** The findings that name a package are those of its own entry. *)
Lemma names_flat_map (d : list (string * version)) (package : string) :
  NoDup (keys d) ->
  List.filter (names_b package) (flat_map check_constraint d)
  = match dict_lookup d package with
    | Some v => check_constraint (package, v)
    | None => []
    end.
Proof.
  intros Hnd. induction d as [|[k v] d IH]; [done|].
  cbn [flat_map dict_lookup keys map fst] in *.
  apply NoDup_cons in Hnd as [Hk Hnd].
  rewrite List.filter_app, IH by done.
  case_bool_decide as Hkp.
  - subst k. rewrite names_check_constraint_self, dict_lookup_None by done.
    by rewrite app_nil_r.
  - by rewrite names_check_constraint_other.
Qed.

End PerPackage.

(** X7.  For a pubspec whose sections are mappings or absent, the
    version-constraint check names a package in at most one finding; it names
    it exactly when the package is not flutter and its constraint in the
    merged table is any or is missing; that finding is CRITICAL for any and
    HIGH for a missing constraint.  A package with any other constraint, or
    in neither section, is never named. *)
Theorem constraint_finding_per_package (p : pubspec) (package : string) :
  dependencies p <> Null ->
  dev_dependencies p <> Null ->
  NoDup (Dependencies.keys (section_map (dependencies p))) ->
  NoDup (Dependencies.keys (section_map (dev_dependencies p))) ->
  exists found,
    Dependencies.check_version_constraints p = inr found
    /\ length (List.filter (names_b package) found) <= 1
    /\ ((exists f, f ∈ found /\ names_package package f)
        <-> package <> "flutter"
            /\ (effective_constraint p package = Some (VerStr "any")
                \/ effective_constraint p package = Some VerNone))
    /\ (forall f, f ∈ found -> names_package package f ->
          (severity_is "CRITICAL" f /\ effective_constraint p package = Some (VerStr "any"))
          \/ (severity_is "HIGH" f /\ effective_constraint p package = Some VerNone)).
Proof.
  intros Hd Hv Hnd Hnv.
  unfold Dependencies.check_version_constraints, Dependencies.all_deps.
  assert (Dependencies.unpack (dependencies p) = inr (section_map (dependencies p))) as ->
    by (by destruct (dependencies p)).
  assert (Dependencies.unpack (dev_dependencies p) = inr (section_map (dev_dependencies p)))
    as -> by (by destruct (dev_dependencies p)).
  eexists. split; [reflexivity|].
  set (merged := Dependencies.dict_merge _ _).
  assert (Hfilter : List.filter (names_b package) (flat_map Dependencies.check_constraint merged)
                    = match effective_constraint p package with
                      | Some v => Dependencies.check_constraint (package, v)
                      | None => []
                      end).
  { rewrite names_flat_map by apply NoDup_keys_dict_merge.
    subst merged. by rewrite dict_lookup_merge. }
  assert (Hnames : forall f, f ∈ flat_map Dependencies.check_constraint merged ->
                             names_package package f ->
                             f ∈ match effective_constraint p package with
                                 | Some v => Dependencies.check_constraint (package, v)
                                 | None => []
                                 end).
  { intros f Hf Hn. rewrite <- Hfilter. apply list_elem_of_In, filter_In.
    split; [by apply list_elem_of_In | by apply bool_decide_eq_true]. }
  split; [|split].
  - rewrite Hfilter. destruct (effective_constraint p package) as [v|]; [|simpl; lia].
    unfold Dependencies.check_constraint. repeat case_bool_decide; simpl; lia.
  - split.
    + intros (f & Hf & Hn). specialize (Hnames f Hf Hn).
      destruct (effective_constraint p package) as [v|]; [|by apply elem_of_nil in Hnames].
      unfold Dependencies.check_constraint in Hnames.
      repeat case_bool_decide; try (by apply elem_of_nil in Hnames); subst v; auto.
    + intros [Hne Hc].
      assert (Hin : exists f, f ∈ match effective_constraint p package with
                                  | Some v => Dependencies.check_constraint (package, v)
                                  | None => []
                                  end /\ names_package package f).
      { destruct Hc as [-> | ->]; unfold Dependencies.check_constraint;
          rewrite (bool_decide_eq_false_2 (package = "flutter")) by done;
          cbn [bool_decide decide_rel]; eexists; (split; [apply list_elem_of_here | done]). }
      destruct Hin as (f & Hf & Hn). exists f. split; [|done].
      rewrite <- Hfilter in Hf. apply list_elem_of_In, filter_In in Hf as [Hf _].
      by apply list_elem_of_In.
  - intros f Hf Hn. specialize (Hnames f Hf Hn).
    destruct (effective_constraint p package) as [v|]; [|by apply elem_of_nil in Hnames].
    unfold Dependencies.check_constraint in Hnames.
    repeat case_bool_decide; try (by apply elem_of_nil in Hnames);
      apply list_elem_of_singleton in Hnames; subst f v; [by left | by right].
Qed.

Lemma constraint_finding_per_package_witness :
  exists found,
    Dependencies.check_version_constraints sample_pubspec = inr found
    /\ length (List.filter (names_b "provider") found) <= 1
    /\ ((exists f, f ∈ found /\ names_package "provider" f)
        <-> "provider" <> "flutter"
            /\ (effective_constraint sample_pubspec "provider" = Some (VerStr "any")
                \/ effective_constraint sample_pubspec "provider" = Some VerNone))
    /\ (forall f, f ∈ found -> names_package "provider" f ->
          (severity_is "CRITICAL" f
           /\ effective_constraint sample_pubspec "provider" = Some (VerStr "any"))
          \/ (severity_is "HIGH" f
              /\ effective_constraint sample_pubspec "provider" = Some VerNone)).
Proof.
  apply (constraint_finding_per_package sample_pubspec "provider").
  - discriminate.
  - discriminate.
  - refine (@bool_decide_unpack _ (NoDup_dec _) _). vm_compute. exact I.
  - refine (@bool_decide_unpack _ (NoDup_dec _) _). vm_compute. exact I.
Defined.

(** The check on that pubspec: one CRITICAL finding and two HIGH ones, in
    the order of the merged table. *)
Example sample_pubspec_findings :
  (fun found => match found with
                | inr l => map (fun f => (f !! "package", f !! "severity")) l
                | inl _ => []
                end) (Dependencies.check_version_constraints sample_pubspec)
  = [(Some (PStr "provider"), Some (PStr "CRITICAL"));
     (Some (PStr "intl"), Some (PStr "HIGH"));
     (Some (PStr "lints"), Some (PStr "HIGH"))].
Proof. vm_compute. reflexivity. Qed.

(** ** Outdated packages *)

Section Outdated.
Import Dependencies.


End Outdated.


(** The data of two outdated packages, and the same with a null field in
    the second. *)
Example outdated_data_with_null :
  (fun r => match r with inr l => length l | inl _ => 0 end)
    (Dependencies.analyze_outdated_results
       [{| o_package := Some "http"; o_current := JObj (Some "0.13.6");
           o_latest := JObj (Some "1.2.0"); o_resolvable := JObj (Some "1.2.0") |};
        {| o_package := Some "intl"; o_current := JObj (Some "0.18.0");
           o_latest := JObj (Some "0.19.0"); o_resolvable := JAbsent |}]) = 2
  /\ Dependencies.analyze_outdated_results
       [{| o_package := Some "http"; o_current := JObj (Some "0.13.6");
           o_latest := JObj (Some "1.2.0"); o_resolvable := JObj (Some "1.2.0") |};
        {| o_package := Some "intl"; o_current := JNull;
           o_latest := JObj (Some "0.19.0"); o_resolvable := JAbsent |}]
     = inl "AttributeError: 'NoneType' object has no attribute 'get'".
Proof. split; vm_compute; reflexivity. Qed.

(** ** The major version *)

Section Major.








End Major.



(** ** Dangerous packages *)

Lemma check_dangerous_packages_eq (p : pubspec) :
  dependencies p <> Null ->
  Dependencies.check_dangerous_packages p
  = inr (flat_map
           (fun '(package, (issue, severity)) =>
              if bool_decide (package ∈ Dependencies.keys (section_map (dependencies p)))
              then [dict [("package", PStr package); ("issue", PStr issue);
                          ("severity", PStr severity);
                          ("recommendation", PStr "Update to the latest stable version")]]
              else [])
           Dependencies.dangerous_packages).
Proof.
  intros Hd. unfold Dependencies.check_dangerous_packages.
  by destruct (dependencies p).
Qed.

(** X10.  The check for dangerous packages names http or path_provider
    exactly when that name is a key of the dependencies section; neither the
    declared version nor dev_dependencies plays a part, and no other package
    is ever named. *)
Theorem dangerous_package_reported_by_name (p : pubspec) (name : string) :
  dependencies p <> Null ->
  exists found,
    Dependencies.check_dangerous_packages p = inr found
    /\ length found <= 2
    /\ ((exists f, f ∈ found /\ names_package name f)
        <-> (name = "http" \/ name = "path_provider")
            /\ name ∈ Dependencies.keys (section_map (dependencies p))).
Proof.
  intros Hd. rewrite (check_dangerous_packages_eq p Hd).
  eexists. split; [reflexivity|].
  set (ks := Dependencies.keys _). split.
  - unfold Dependencies.dangerous_packages. cbn [flat_map]. rewrite app_nil_r, length_app.
    destruct (bool_decide ("http" ∈ ks)), (bool_decide ("path_provider" ∈ ks)); simpl; lia.
  - split.
    + intros (f & Hf & Hn).
      apply elem_of_flat_map in Hf as ([package [issue severity]] & Hin & Hf).
      case_bool_decide as Hk; [|by apply elem_of_nil in Hf].
      apply list_elem_of_singleton in Hf. subst f.
      assert (name = package) as -> by (vm_compute in Hn; congruence).
      split; [|done].
      unfold Dependencies.dangerous_packages in Hin.
      apply elem_of_cons in Hin as [[= -> _ _] | Hin]; [by left|].
      apply elem_of_cons in Hin as [[= -> _ _] | Hin]; [by right|].
      by apply elem_of_nil in Hin.
    + intros [Hname Hin].
      assert (Hsome : exists issue severity,
                (name, (issue, severity)) ∈ Dependencies.dangerous_packages).
      { unfold Dependencies.dangerous_packages.
        destruct Hname as [-> | ->]; eexists _, _.
        - apply list_elem_of_here.
        - apply list_elem_of_further, list_elem_of_here. }
      destruct Hsome as (issue & severity & Hd').
      eexists. split.
      * apply elem_of_flat_map. exists (name, (issue, severity)). split; [done|].
        rewrite bool_decide_eq_true_2 by done. apply list_elem_of_here.
      * done.
Qed.

Lemma dangerous_package_reported_by_name_witness :
  exists found,
    Dependencies.check_dangerous_packages sample_pubspec = inr found
    /\ length found <= 2
    /\ ((exists f, f ∈ found /\ names_package "http" f)
        <-> ("http" = "http" \/ "http" = "path_provider")
            /\ "http" ∈ Dependencies.keys (section_map (dependencies sample_pubspec))).
Proof.
  apply (dangerous_package_reported_by_name sample_pubspec "http"). discriminate.
Defined.

(** ** A failing package manager *)

(** X11.  However running the package manager fails (nonzero status,
    timeout, command not found, any other error), the outdated check prints
    one warning and returns no data, and the findings the scanner collects
    are those of the version-constraint check followed by those of the
    dangerous-package check. *)
Theorem tool_failure_only_warns
    (w : world) (project_root : string) (p : pubspec)
    (constraint_findings dangerous_findings : list finding) :
  tool_failed (flutter_pub_outdated w project_root) ->
  Dependencies.check_version_constraints p = inr constraint_findings ->
  Dependencies.check_dangerous_packages p = inr dangerous_findings ->
  value_of (Dependencies.check_outdated_packages w project_root) = None
  /\ length (printed (Dependencies.check_outdated_packages w project_root)) = 1
  /\ Forall (fun line => Py.startswith "Warning: " line = true)
            (printed (Dependencies.collect w project_root p))
  /\ value_of (Dependencies.collect w project_root p)
     = inr (constraint_findings ++ dangerous_findings).
Proof.
  intros Hfail Hc Hd. unfold Dependencies.collect. rewrite Hc, Hd.
  unfold Dependencies.check_outdated_packages.
  destruct (flutter_pub_outdated w project_root); [done|..];
    repeat split; repeat constructor.
Qed.

Lemma tool_failure_only_warns_witness :
  value_of (Dependencies.check_outdated_packages project_without_flutter "app") = None
  /\ length (printed (Dependencies.check_outdated_packages project_without_flutter "app")) = 1.
Proof.
  destruct (Dependencies.check_version_constraints sample_pubspec) as [e|c] eqn:Ec;
    [discriminate Ec|].
  destruct (Dependencies.check_dangerous_packages sample_pubspec) as [e|d] eqn:Ed;
    [discriminate Ed|].
  destruct (tool_failure_only_warns project_without_flutter "app" sample_pubspec c d I Ec Ed)
    as (H1 & H2 & _).
  split; [exact H1 | exact H2].
Defined.

(** ** Grouping loses no finding *)

Section Partition.

Lemma exact_table_init : exact_table by_severity_init.
Proof.
  intros s. split.
  - intros [l Hl]. unfold by_severity_init in Hl.
    apply elem_of_list_to_map_2 in Hl. unfold SEVERITIES.
    repeat (apply elem_of_cons in Hl as [[= <- _] | Hl];
            [repeat first [ apply list_elem_of_here | apply list_elem_of_further ]|]).
    by apply elem_of_nil in Hl.
  - apply full_table_init.
Qed.

Lemma group_one_exact (by_severity : gmap string (list finding)) (f : finding) :
  exact_table by_severity ->
  match group_one by_severity f with
  | inr by_severity' =>
      groupable f /\ exact_table by_severity'
      /\ forall s, default [] (by_severity' !! s)
                   = default [] (by_severity !! s) ++ (if filed_under s f then [f] else [])
  | inl _ => ~ groupable f
  end.
Proof.
  intros Hexact. unfold group_one, groupable, filed_under, effective_severity.
  destruct (dict_get f "severity" (PStr "MEDIUM")) as [sev| |] eqn:E.
  - destruct (by_severity !! sev) as [l|] eqn:El.
    + split; [|split].
      * exists sev. split; [|done]. apply Hexact. by eexists.
      * intros s. rewrite lookup_insert. case_decide as Hs; [|apply Hexact].
        subst s. split; [intros _; apply Hexact; by eexists | by eexists].
      * intros s. rewrite lookup_insert. case_decide as Hs.
        -- subst s. rewrite El. by rewrite bool_decide_eq_true_2.
        -- rewrite bool_decide_eq_false_2 by congruence. by rewrite app_nil_r.
    + intros (s & Hs & [= ->]). apply Hexact in Hs as [l Hl]. congruence.
  - by intros (s & _ & ?).
  - by intros (s & _ & ?).
Qed.

Lemma group_by_severity_exact (l : list finding) :
  forall by_severity,
    exact_table by_severity ->
    match group_by_severity by_severity l with
    | inr by_severity' =>
        Forall groupable l /\ exact_table by_severity'
        /\ forall s, default [] (by_severity' !! s)
                     = default [] (by_severity !! s) ++ List.filter (filed_under s) l
    | inl _ => ~ Forall groupable l
    end.
Proof.
  induction l as [|f l IH]; intros by_severity Hexact.
  - cbn [group_by_severity]. split; [done|]. split; [done|].
    intros s. by rewrite app_nil_r.
  - cbn [group_by_severity]. pose proof (group_one_exact by_severity f Hexact) as Hone.
    destruct (group_one by_severity f) as [e|b1].
    + intros [Hf _]%Forall_cons. done.
    + destruct Hone as (Hf & Hexact1 & Hlists1). specialize (IH b1 Hexact1).
      destruct (group_by_severity b1 l) as [e|b2].
      * intros [_ Hl]%Forall_cons. done.
      * destruct IH as (Hl & Hexact2 & Hlists2). split; [by constructor|].
        split; [done|]. intros s. rewrite Hlists2, Hlists1. cbn [List.filter].
        destruct (filed_under s f); [by rewrite <- app_assoc | by rewrite app_nil_r].
Qed.

(** Each groupable finding is filed under exactly one severity. *)
Lemma filed_under_one (f : finding) :
  groupable f ->
  exists s, s ∈ SEVERITIES
            /\ forall s', filed_under s' f = bool_decide (s = s').
Proof.
  intros (s & Hs & Hsev). exists s. split; [done|].
  intros s'. unfold filed_under. rewrite Hsev.
  destruct (bool_decide_reflect (s = s')) as [->|Hne].
  - by rewrite bool_decide_eq_true_2.
  - rewrite bool_decide_eq_false_2; [done | congruence].
Qed.

Lemma filed_once (l : list finding) :
  Forall groupable l ->
  length (List.filter (filed_under "CRITICAL") l)
  + length (List.filter (filed_under "HIGH") l)
  + length (List.filter (filed_under "MEDIUM") l)
  + length (List.filter (filed_under "LOW") l) = length l.
Proof.
  induction 1 as [|f l Hf _ IH]; [done|].
  cbn [List.filter]. destruct (filed_under_one f Hf) as (s & Hs & Hone).
  rewrite !Hone. unfold SEVERITIES in Hs.
  apply elem_of_cons in Hs as [-> | Hs]; [simpl; lia|].
  apply elem_of_cons in Hs as [-> | Hs]; [simpl; lia|].
  apply elem_of_cons in Hs as [-> | Hs]; [simpl; lia|].
  apply elem_of_cons in Hs as [-> | Hs]; [simpl; lia|].
  by apply elem_of_nil in Hs.
Qed.

End Partition.

(** X12.  The grouping loop of the reporters raises exactly when some
    finding has a severity outside the four, MEDIUM standing for an absent
    field.  Otherwise the table holds, under each severity, the findings of
    that severity in their order of arrival, and the four groups together
    have as many findings as were given. *)
Theorem grouping_is_a_partition (l : list finding) :
  match group_by_severity by_severity_init l with
  | inr by_severity =>
      Forall groupable l
      /\ (forall s, s ∈ SEVERITIES ->
                    by_severity !! s = Some (List.filter (filed_under s) l))
      /\ count_of by_severity "CRITICAL" + count_of by_severity "HIGH"
         + count_of by_severity "MEDIUM" + count_of by_severity "LOW" = length l
  | inl _ => ~ Forall groupable l
  end.
Proof.
  pose proof (group_by_severity_exact l by_severity_init exact_table_init) as H.
  destruct (group_by_severity by_severity_init l) as [e|b]; [done|].
  destruct H as (Hl & Hexact & Hlists).
  assert (Hs : forall s, s ∈ SEVERITIES -> b !! s = Some (List.filter (filed_under s) l)).
  { intros s Hs. pose proof (Hlists s) as Hsl.
    destruct (proj2 (Hexact s) Hs) as [x Hx]. rewrite Hx in *.
    change (default [] (Some x)) with x in Hsl. rewrite Hsl. f_equal.
    unfold SEVERITIES in Hs.
    repeat (apply elem_of_cons in Hs as [-> | Hs]; [done|]).
    by apply elem_of_nil in Hs. }
  split; [done|]. split; [done|].
  unfold count_of. rewrite !Hs by in_severities. cbn [default]. by apply filed_once.
Qed.

(** ** Certificate pinning *)



(** ** A report file that cannot be written *)

Section ReportFile.

Variable w : world.

Lemma secrets_main_unwritable (e : string) :
  open_w w (path_join (argv1 w (getcwd w)) "owasp_m1_secrets_scan.json") = Some e ->
  exit_status (value_of (Secrets.main w)) = 1.
Proof.
  intros Hopen. unfold Secrets.main. rewrite value_of_bind.
  destruct (report_each _ _); [done|]. by rewrite Hopen.
Qed.

Lemma storage_main_unwritable (e : string) :
  open_w w (path_join (argv1 w ".") "owasp_m9_storage_scan.json") = Some e ->
  exit_status (value_of (Storage.main w)) = 1.
Proof.
  intros Hopen. unfold Storage.main. rewrite value_of_bind.
  destruct (group_and_report _ _); [done|]. by rewrite Hopen.
Qed.

Lemma network_main_unwritable (e : string) :
  open_w w (path_join (argv1 w ".") "owasp_m5_network_scan.json") = Some e ->
  exit_status (value_of (Network.main w)) = 1.
Proof.
  intros Hopen. unfold Network.main. rewrite value_of_bind.
  destruct (group_and_report _ _); [done|]. by rewrite Hopen.
Qed.

Lemma dependencies_main_unwritable (e : string) :
  open_w w (path_join (argv1 w ".") "owasp_m2_dependencies_scan.json") = Some e ->
  exit_status (value_of (Dependencies.main w)) = 1.
Proof.
  intros Hopen. unfold Dependencies.main. rewrite value_of_bind.
  destruct (value_of (Dependencies.load_pubspec w (argv1 w "."))) as [o|[p|]] eqn:El.
  - unfold Dependencies.load_pubspec in El.
    destruct (negb _) in El; [by injection El as <-|].
    destruct (read_text _ _) in El; [by injection El as <-|].
    destruct (yaml_safe_load _ _) in El; [by injection El as <- | done].
  - rewrite value_of_bind.
    destruct (value_of (Dependencies.collect w (argv1 w ".") p)) as [e'|all_findings];
      [done|].
    cbn [value_of io_ret fst]. unfold Dependencies.report_and_exit.
    destruct (group_and_report _ _); [done|]. by rewrite Hopen.
  - done.
Qed.

Lemma exit_if_le_1 (b : bool) : exit_status (Exit (if b then 1 else 0)) <= 1.
Proof. destruct b; simpl; lia. Qed.

Lemma secrets_main_status_le_1 : exit_status (value_of (Secrets.main w)) <= 1.
Proof.
  unfold Secrets.main. rewrite value_of_bind.
  destruct (report_each _ _); [simpl; lia|].
  destruct (open_w w _); [simpl; lia | apply exit_if_le_1].
Qed.

Lemma storage_main_status_le_1 : exit_status (value_of (Storage.main w)) <= 1.
Proof.
  unfold Storage.main. rewrite value_of_bind.
  destruct (group_and_report _ _); [simpl; lia|].
  destruct (open_w w _); [simpl; lia | apply exit_if_le_1].
Qed.

Lemma network_main_status_le_1 : exit_status (value_of (Network.main w)) <= 1.
Proof.
  unfold Network.main. rewrite value_of_bind.
  destruct (group_and_report _ _) as [e|[b|]]; [simpl; lia|..];
    (destruct (open_w w _); [simpl; lia|]); [apply exit_if_le_1 | simpl; lia].
Qed.

Lemma dependencies_main_status_le_1 : exit_status (value_of (Dependencies.main w)) <= 1.
Proof.
  unfold Dependencies.main. rewrite value_of_bind.
  destruct (value_of (Dependencies.load_pubspec w (argv1 w "."))) as [o|[p|]] eqn:El.
  - unfold Dependencies.load_pubspec in El.
    destruct (negb _) in El; [injection El as <-; simpl; lia|].
    destruct (read_text _ _) in El; [injection El as <-; simpl; lia|].
    destruct (yaml_safe_load _ _) in El; [injection El as <-; simpl; lia | done].
  - rewrite value_of_bind.
    destruct (value_of (Dependencies.collect w (argv1 w ".") p)) as [e'|all_findings];
      [simpl; lia|].
    cbn [value_of io_ret fst]. unfold Dependencies.report_and_exit.
    destruct (group_and_report _ _) as [e|[b|]]; [simpl; lia|..];
      (destruct (open_w w _); [simpl; lia|]); [apply exit_if_le_1 | simpl; lia].
  - simpl. lia.
Qed.

End ReportFile.

(** X14.  Each scanner ends with status 0 or 1, and with status 1 whenever
    its report file cannot be opened for writing, whether or not the scan
    found anything: status 1 alone does not say that there is a finding. *)
Theorem unwritable_report_exits_1 (w : world) :
  (exit_status (value_of (Secrets.main w)) <= 1
   /\ exit_status (value_of (Storage.main w)) <= 1
   /\ exit_status (value_of (Network.main w)) <= 1
   /\ exit_status (value_of (Dependencies.main w)) <= 1)
  /\ ((forall path, is_Some (open_w w path)) ->
      exit_status (value_of (Secrets.main w)) = 1
      /\ exit_status (value_of (Storage.main w)) = 1
      /\ exit_status (value_of (Network.main w)) = 1
      /\ exit_status (value_of (Dependencies.main w)) = 1).
Proof.
  split.
  - split; [apply secrets_main_status_le_1|].
    split; [apply storage_main_status_le_1|].
    split; [apply network_main_status_le_1 | apply dependencies_main_status_le_1].
  - intros Hopen. repeat split.
    + destruct (Hopen (path_join (argv1 w (getcwd w)) "owasp_m1_secrets_scan.json"))
        as [e He].
      by apply (secrets_main_unwritable w e).
    + destruct (Hopen (path_join (argv1 w ".") "owasp_m9_storage_scan.json")) as [e He].
      by apply (storage_main_unwritable w e).
    + destruct (Hopen (path_join (argv1 w ".") "owasp_m5_network_scan.json")) as [e He].
      by apply (network_main_unwritable w e).
    + destruct (Hopen (path_join (argv1 w ".") "owasp_m2_dependencies_scan.json"))
        as [e He].
      by apply (dependencies_main_unwritable w e).
Qed.

Lemma unwritable_report_exits_1_witness :
  findings (value_of (Secrets.scan_project read_only_project "app")) = []
  /\ exit_status (value_of (Secrets.main read_only_project)) = 1
  /\ exit_status (value_of (Storage.main read_only_project)) = 1.
Proof.
  destruct (unwritable_report_exits_1 read_only_project) as [_ H].
  destruct (H (fun path => ex_intro _ _ eq_refl)) as (H1 & H2 & _).
  split; [reflexivity|]. split; [exact H1 | exact H2].
Defined.

(** ** The calls the storage scan looks for *)

Section Calls.
Import Re.









End Calls.



(** ** Elements below the root of the network security configuration *)

Section Tree.

Lemma element_induction (P : element -> Prop) :
  (forall tag attrib children, Forall P children -> P (Element tag attrib children)) ->
  forall e, P e.
Proof.
  intros H. fix IH 1. intros [tag attrib children]. apply H.
  induction children as [|c l IHl]; constructor; [apply IH | apply IHl].
Qed.

Lemma iter_eq (tag : string) (attrib : list (string * string)) (children : list element) :
  iter (Element tag attrib children)
  = Element tag attrib children :: flat_map iter children.
Proof.
  reflexivity.
Qed.

(** [iter] lists the element and what lies below it. *)
Lemma elem_of_iter (x : element) :
  forall e, e ∈ iter x <-> e = x \/ below e x.
Proof.
  induction x as [tag attrib children IH] using element_induction.
  intros e. rewrite iter_eq, elem_of_cons, elem_of_flat_map.
  rewrite Forall_forall in IH. split.
  - intros [-> | (c & Hc & He)]; [by left|]. right.
    apply (IH c Hc) in He as [-> | He].
    + by apply below_child.
    + by apply (below_deeper _ c).
  - intros [-> | Hb]; [by left|]. right.
    inversion Hb as [root e' Hc | root c e' Hc He]; subst.
    + exists e. split; [done|]. apply (IH e Hc). by left.
    + exists c. split; [done|]. apply (IH c Hc). by right.
Qed.

(** [root.findall('.//tag')] lists the elements below the root that have
    the tag. *)
Lemma elem_of_findall (root : element) (tag : string) (e : element) :
  e ∈ findall root tag <-> below e root /\ tag_of e = tag.
Proof.
  unfold findall. split.
  - intros H. apply list_elem_of_In, filter_In in H as [H Ht].
    apply list_elem_of_In, elem_of_flat_map in H as (c & Hc & He).
    apply bool_decide_eq_true in Ht. split; [|done].
    apply elem_of_iter in He as [-> | He];
      [by apply below_child | by apply (below_deeper _ c)].
  - intros [Hb Ht]. apply list_elem_of_In, filter_In.
    split; [|by apply bool_decide_eq_true].
    apply list_elem_of_In, elem_of_flat_map.
    inversion Hb as [r e' Hc | r c e' Hc He]; subst.
    + exists e. split; [done|]. apply elem_of_iter. by left.
    + exists c. split; [done|]. apply elem_of_iter. by right.
Qed.

End Tree.

(** X16.  For a network security configuration that exists and parses, the
    Android check reports No certificate pinning configured exactly when no
    element below the root, at any depth, is a pin-set; and it reports
    cleartext traffic only when some element below the root is a
    base-config. *)
Theorem pin_set_counts_at_any_depth (w : world) (project_root : string) (root : element) :
  let path :=
    path_join project_root "android/app/src/main/res/xml/network_security_config.xml" in
  exists_ (fs w) path = true ->
  Network.ET_parse w path = inr root ->
  let found := value_of (Network.check_android_network_security w project_root) in
  ((exists f, f ∈ found /\ issue_is "No certificate pinning configured" f)
   <-> ~ exists e, below e root /\ tag_of e = "pin-set")
  /\ ((exists f, f ∈ found /\ issue_is "Cleartext traffic permitted globally" f)
      -> exists e, below e root /\ tag_of e = "base-config").
Proof.
  intros path Hex Hparse found. subst found.
  unfold Network.check_android_network_security. fold path. rewrite Hex, Hparse.
  cbn [negb value_of io_ret fst]. unfold Network.android_config_checks. cbv zeta.
  split; [split|].
  - intros (f & Hf & Hissue) (e & He). apply elem_of_findall in He.
    apply elem_of_app in Hf as [Hf | Hf].
    + destruct (find root "base-config"); [|by apply elem_of_nil in Hf].
      case_bool_decide; [|by apply elem_of_nil in Hf].
      apply list_elem_of_singleton in Hf. subst f. discriminate Hissue.
    + destruct (findall root "pin-set"); [by apply elem_of_nil in He|].
      by apply elem_of_nil in Hf.
  - intros Hnone. destruct (findall root "pin-set") as [|e l] eqn:E.
    + eexists. split; [apply elem_of_app; right; apply list_elem_of_here | done].
    + destruct Hnone. exists e. apply elem_of_findall. rewrite E. apply list_elem_of_here.
  - intros (f & Hf & Hissue). apply elem_of_app in Hf as [Hf | Hf].
    + unfold find in Hf. destruct (findall root "base-config") as [|e l] eqn:E;
        [by apply elem_of_nil in Hf|].
      exists e. apply elem_of_findall. rewrite E. apply list_elem_of_here.
    + destruct (findall root "pin-set"); [|by apply elem_of_nil in Hf].
      apply list_elem_of_singleton in Hf. subst f. discriminate Hissue.
Qed.

Lemma pin_set_counts_at_any_depth_witness :
  Network.ET_parse (config_world pinned_config)
    (path_join "app" "android/app/src/main/res/xml/network_security_config.xml")
  = inr pinned_config
  /\ ~ exists f, f ∈ value_of (Network.check_android_network_security
                                 (config_world pinned_config) "app")
                 /\ issue_is "No certificate pinning configured" f.
Proof.
  split; [reflexivity|].
  destruct (pin_set_counts_at_any_depth (config_world pinned_config) "app" pinned_config
              eq_refl eq_refl) as [[H _] _].
  intros Hf. apply (H Hf).
  exists (Element "pin-set" [] [Element "pin" [("digest", "SHA-256")] []]).
  split; [|reflexivity].
  apply (below_deeper _ (Element "domain-config" []
                           [Element "domain" [("includeSubdomains", "true")] [];
                            Element "pin-set" [] [Element "pin" [("digest", "SHA-256")] []]])).
  - apply list_elem_of_here.
  - apply below_child. apply list_elem_of_further, list_elem_of_here.
Defined.
